(** * giraffez column codec (src/giraffez/src/convert.c)

    A shallow embedding of the decode ("unpack") and encode ("pack")
    routines of convert.c, and the properties of the codec specification
    checked against them.

    Conventions of the embedding:
    - a C integer of width w is a [Z] with its wrap-around written out
      ([wrap_signed], [wrap_unsigned]);
    - a byte is an [ascii], a byte string (a C [char*] with its length, the
      contents of a Python [bytes] or the UTF-8 form of a Python [str]) is
      a [string];
    - the decode routines receive [unsigned char **data], a bare cursor
      into the process memory: memory is a total map from addresses to
      bytes and the cursor is an address.  Which addresses belong to the
      row buffer is not known to the routines;
    - the encode routines write sequentially at [*buf] and advance it: the
      output is the string of bytes written so far, with the running
      [uint16_t *len] counter next to it;
    - a routine whose C behaviour is undefined on an input (a conversion
      out of range, a scratch buffer overrun, a NULL dereference) yields
      [None] there; a [PyObject*] result is [option PyObject], [None]
      standing for NULL;
    - the Python C API is the one of CPython 3 on an LP64 target, text
      objects are held as their UTF-8 bytes. *)

From Stdlib Require Import ZArith NArith Arith List String Ascii Bool Lia.
Import ListNotations.

Local Open Scope string_scope.
Local Open Scope Z_scope.

(** ** Fixed-width integers *)

Module CInt.

(** Value of [z] stored in a signed two's complement field of [w] bits. *)
Definition wrap_signed (w : Z) (z : Z) : Z :=
  (z + 2 ^ (w - 1)) mod 2 ^ w - 2 ^ (w - 1).

(** Value of [z] stored in an unsigned field of [w] bits. *)
Definition wrap_unsigned (w : Z) (z : Z) : Z := z mod 2 ^ w.

Definition int8_t := wrap_signed 8.
Definition int16_t := wrap_signed 16.
Definition int32_t := wrap_signed 32.
Definition int64_t := wrap_signed 64.
Definition uint16_t := wrap_unsigned 16.
Definition uint64_t := wrap_unsigned 64.

Definition max_signed (w : Z) : Z := 2 ^ (w - 1) - 1.
Definition min_signed (w : Z) : Z := - 2 ^ (w - 1).

Definition fits_signed (w : Z) (z : Z) : bool :=
  (min_signed w <=? z) && (z <=? max_signed w).

End CInt.
Import CInt.

(** ** Memory and the decode cursor *)

Definition byte := ascii.
Definition memory := nat -> byte.

Definition byte_val (b : byte) : Z := Z.of_N (N_of_ascii b).
Definition byte_of (z : Z) : byte := ascii_of_N (Z.to_N (z mod 256)).

(** Memory holding the bytes of [s] from address 0 on, zero afterwards. *)
Definition mem_of_string (s : string) : memory :=
  fun a => match String.get a s with Some c => c | None => zero end.

(** The [n] bytes at address [p]. *)
Fixpoint read_bytes (m : memory) (p : nat) (n : nat) : string :=
  match n with
  | O => EmptyString
  | S k => String (m p) (read_bytes m (S p) k)
  end.

(** Little-endian value of a byte string. *)
Fixpoint le_value (s : string) : Z :=
  match s with
  | EmptyString => 0
  | String b r => byte_val b + 256 * le_value r
  end.

(** Little-endian bytes of the low [8 * n] bits of [z]. *)
Fixpoint le_bytes (n : nat) (z : Z) : string :=
  match n with
  | O => EmptyString
  | S k => String (byte_of z) (le_bytes k (z / 256))
  end.

(** Modelled from the spec: [unpack_int8_t] ... [unpack_uint64_t] are
    declared in util.h and defined outside convert.c.  The spec fixes the
    wire integers as little-endian two's complement ("a 4-byte signed
    little-endian integer"), and each call site passes only the cursor and
    a destination and ignores any result: the read cannot be checked
    against a buffer end, and it advances the cursor by the width. *)
Definition unpack_signed (w : nat) (m : memory) (p : nat) : Z * nat :=
  (wrap_signed (8 * Z.of_nat w) (le_value (read_bytes m p w)), (p + w)%nat).

Definition unpack_unsigned (w : nat) (m : memory) (p : nat) : Z * nat :=
  (le_value (read_bytes m p w), (p + w)%nat).

Definition unpack_int8_t := unpack_signed 1.
Definition unpack_int16_t := unpack_signed 2.
Definition unpack_int32_t := unpack_signed 4.
Definition unpack_int64_t := unpack_signed 8.
Definition unpack_uint16_t := unpack_unsigned 2.
Definition unpack_uint64_t := unpack_unsigned 8.

(** ** Byte strings and C strings *)

Definition is_ascii (b : byte) : bool := byte_val b <=? 127.

Fixpoint all_bytes (f : byte -> bool) (s : string) : bool :=
  match s with
  | EmptyString => true
  | String b r => f b && all_bytes f r
  end.

(** What a C routine sees through a [char*]: the bytes before the first
    NUL. *)
Fixpoint c_string (s : string) : string :=
  match s with
  | EmptyString => EmptyString
  | String b r => if (b =? zero)%char then EmptyString else String b (c_string r)
  end.

Fixpoint replicate (n : nat) (b : byte) : string :=
  match n with
  | O => EmptyString
  | S k => String b (replicate k b)
  end.

Definition in_range (lo hi : Z) (b : byte) : bool :=
  (lo <=? byte_val b) && (byte_val b <=? hi).

Definition continuation : byte -> bool := in_range 0x80 0xBF.

(** Well-formed UTF-8 (Unicode table 3-7), what CPython's strict decoder
    accepts. *)
Fixpoint utf8_valid (s : string) : bool :=
  match s with
  | EmptyString => true
  | String b1 r1 =>
    if is_ascii b1 then utf8_valid r1 else
    match r1 with
    | EmptyString => false
    | String b2 r2 =>
      if in_range 0xC2 0xDF b1 then continuation b2 && utf8_valid r2 else
      match r2 with
      | EmptyString => false
      | String b3 r3 =>
        if in_range 0xE0 0xEF b1 then
          (if byte_val b1 =? 0xE0 then in_range 0xA0 0xBF b2
           else if byte_val b1 =? 0xED then in_range 0x80 0x9F b2
           else continuation b2)
          && continuation b3 && utf8_valid r3
        else
        match r3 with
        | EmptyString => false
        | String b4 r4 =>
          in_range 0xF0 0xF4 b1
          && (if byte_val b1 =? 0xF0 then in_range 0x90 0xBF b2
              else if byte_val b1 =? 0xF4 then in_range 0x80 0x8F b2
              else continuation b2)
          && continuation b3 && continuation b4 && utf8_valid r4
        end
      end
    end
  end.

(** ** Decimal text *)

Definition digit_char (d : Z) : byte := ascii_of_N (Z.to_N (48 + d)).

Fixpoint digits_fuel (fuel : nat) (n : Z) (acc : string) : string :=
  match fuel with
  | O => acc
  | S f =>
    let acc' := String (digit_char (n mod 10)) acc in
    if n / 10 =? 0 then acc' else digits_fuel f (n / 10) acc'
  end.

(** The decimal digits of [n >= 0], most significant first, "0" for 0. *)
Definition decimal_digits (n : Z) : string :=
  digits_fuel (S (Z.to_nat (Z.log2 n))) n EmptyString.

(** printf's [%d], [%ld], [%lld], Python's [%d] and [str] of an int. *)
Definition format_d (z : Z) : string :=
  if z <? 0 then "-" ++ decimal_digits (- z) else decimal_digits z.

(** printf's [%0*d] / [%0*lld] and Python's [%0Nd]: field width [w], filled
    with zeros between the sign and the digits. *)
Definition format_0wd (w : nat) (z : Z) : string :=
  let ds := decimal_digits (Z.abs z) in
  if z <? 0 then "-" ++ replicate (w - 1 - String.length ds) "0"%char ++ ds
  else replicate (w - String.length ds) "0"%char ++ ds.

(** printf's [%0*s]: the string right-justified in a field of width [w].
    The [0] flag is not defined for [%s]; the C library picks the fill
    byte [pad] (glibc a space, the BSD libc a zero). *)
Definition format_0ws (pad : byte) (w : nat) (s : string) : string :=
  replicate (w - String.length s) pad ++ s.

(** ** Python objects *)

Inductive PyObject : Type :=
| PyUnicode (utf8 : string)
| PyBytes (s : string)
| PyLong (z : Z)
| PyNone
| GiraffezDate (year month day hour minute second microsecond : Z)
| GiraffezTime (hour minute second microsecond : Z).

(** The exception left in the interpreter's error indicator. *)
Inductive PyExc : Type :=
| TypeError | ValueError | OverflowError | SystemError | UnicodeError.

(** [PyUnicode_FromStringAndSize(u, size)]: decodes [size] bytes as UTF-8,
    NULL on malformed input. *)
Definition PyUnicode_FromStringAndSize (u : string) : option PyObject :=
  if utf8_valid u then Some (PyUnicode u) else None.

(** [PyUnicode_FromFormat("%d", v)]. *)
Definition PyUnicode_FromFormat_d (v : Z) : option PyObject :=
  Some (PyUnicode (format_d v)).

(** [PyUnicode_AsASCIIString]: the bytes of an all-ASCII text, else NULL. *)
Definition PyUnicode_AsASCIIString (utf8 : string) : option string :=
  if all_bytes is_ascii utf8 then Some utf8 else None.

(** [PyUnicode_AsUTF8]: the UTF-8 bytes as a C string. *)
Definition PyUnicode_AsUTF8 (utf8 : string) : string := c_string utf8.

(** C's [isspace] in the "C" locale: the space and the controls 9 to 13.
    CPython's [Py_ISSPACE] is the same set. *)
Definition isspace (c : byte) : bool :=
  (byte_val c =? 32) || ((9 <=? byte_val c) && (byte_val c <=? 13)).

Definition Py_ISSPACE := isspace.

Definition is_digit (c : byte) : bool :=
  (48 <=? byte_val c) && (byte_val c <=? 57).

Fixpoint skip_space (s : string) : string :=
  match s with
  | String c r => if isspace c then skip_space r else s
  | EmptyString => s
  end.

(** Digits of a Python integer literal: single underscores are allowed
    between digits.  [seen]: a digit was read; [us]: the previous byte was
    an underscore. *)
Fixpoint scan_digits (s : string) (seen us : bool) (acc : Z)
  : option (Z * string) :=
  match s with
  | String c r =>
    if is_digit c then scan_digits r true false (10 * acc + (byte_val c - 48))
    else if (c =? "_")%char then
      if seen && negb us then scan_digits r seen true acc else None
    else if seen && negb us then Some (acc, s) else None
  | EmptyString => if seen && negb us then Some (acc, s) else None
  end.

(** An optional sign before the digits. *)
Definition split_sign (s : string) : Z * string :=
  match s with
  | String "+"%char r => (1, r)
  | String "-"%char r => (-1, r)
  | _ => (1, s)
  end.

(** [PyLong_FromString(str, NULL, 10)] (CPython 3): optional blanks, an
    optional sign, digits, optional blanks, and the end of the C string;
    NULL with ValueError otherwise. *)
Definition PyLong_FromString (str : string) : option Z :=
  let '(sign, s) := split_sign (skip_space (c_string str)) in
  match scan_digits s false false 0 with
  | Some (n, rest) =>
    match skip_space rest with
    | EmptyString => Some (sign * n)
    | _ => None
    end
  | None => None
  end.

(** [PyLong_FromUnicodeObject(u, 10)] on ASCII text: as [PyLong_FromString],
    and the literal must span the whole text.  Text with other characters
    is outside this model: CPython first maps every Unicode decimal digit
    and blank to its ASCII counterpart, so that such text can parse where
    its UTF-8 bytes do not; the properties of [pydate_to_int] are stated
    for ASCII text. *)
Definition PyLong_FromUnicodeObject (u : string) : option Z :=
  if (String.length (c_string u) =? String.length u)%nat
  then PyLong_FromString u else None.

(** [PyLong_AsLong] on an LP64 target, [PyLong_AsLongLong]: -1 and an
    exception for NULL (bad internal call) and for a value out of range. *)
Definition PyLong_AsLongLong (v : option Z) : Z * option PyExc :=
  match v with
  | None => (-1, Some SystemError)
  | Some z => if fits_signed 64 z then (z, None) else (-1, Some OverflowError)
  end.

Definition PyLong_AsLong := PyLong_AsLongLong.

(** ** [strptime] with the format ["%H:%M:%S"]

    The C library's parser, after glibc (time/strptime_l.c): each field is
    read by [get_number (0, to, 2)], which skips blanks, wants a digit and
    takes a second one while the value can still stay within [to]; the
    colons must match; whatever follows the seconds is left unread. *)

Definition get_number (to : Z) (s : string) : option (Z * string) :=
  match skip_space s with
  | String c1 r1 =>
    if is_digit c1 then
      let v1 := byte_val c1 - 48 in
      match r1 with
      | String c2 r2 =>
        if (v1 * 10 <=? to) && is_digit c2 then
          let v2 := v1 * 10 + (byte_val c2 - 48) in
          if v2 <=? to then Some (v2, r2) else None
        else Some (v1, r1)
      | EmptyString => Some (v1, r1)
      end
    else None
  | EmptyString => None
  end.

Definition match_char (c : byte) (s : string) : option string :=
  match s with
  | String c' r => if (c =? c')%char then Some r else None
  | EmptyString => None
  end.

Definition strptime_HMS (s : string) : option (Z * Z * Z) :=
  match get_number 23 s with
  | None => None
  | Some (tm_hour, s1) =>
    match match_char ":"%char s1 with
    | None => None
    | Some s2 =>
      match get_number 59 s2 with
      | None => None
      | Some (tm_min, s3) =>
        match match_char ":"%char s3 with
        | None => None
        | Some s4 =>
          match get_number 61 s4 with
          | None => None
          | Some (tm_sec, _) => Some (tm_hour, tm_min, tm_sec)
          end
        end
      end
    end
  end.

(** ** UNPACK: wire bytes to Python values *)

Definition BUFFER_SIZE : nat := 8 * 1024.

(** Modelled from the spec: [giraffez_date_from_datetime] and
    [giraffez_time_from_time] are declared in pytypes.h and defined outside
    convert.c; the spec has them produce the (year, month, day) and the
    (hour, minute, second, fraction) value from their arguments. *)
Definition giraffez_date_from_datetime (year month day hour minute second
  microsecond : Z) : option PyObject :=
  Some (GiraffezDate year month day hour minute second microsecond).

Definition giraffez_time_from_time (hour minute second microsecond : Z)
  : option PyObject :=
  Some (GiraffezTime hour minute second microsecond).

Definition char_to_pystring (m : memory) (data : nat) (column_length : nat)
  : option PyObject * nat :=
  let str := PyUnicode_FromStringAndSize (read_bytes m data column_length) in
  (str, (data + column_length)%nat).

(** The scratch [buffer] holds [BUFFER_SIZE] bytes: the copy and its
    terminating NUL overrun it from [column_length = BUFFER_SIZE] on. *)
Definition char_to_time (m : memory) (data : nat) (column_length : nat)
  : option (option PyObject * nat) :=
  if (BUFFER_SIZE <=? column_length)%nat then None else
  let buffer := c_string (read_bytes m data column_length) in
  match strptime_HMS buffer with
  | Some (tm_hour, tm_min, tm_sec) =>
    Some (giraffez_time_from_time tm_hour tm_min tm_sec 0,
          (data + column_length)%nat)
  | None => Some (char_to_pystring m data column_length)
  end.

(** [l += 19000000] is [int32_t] arithmetic: the sum is reduced to 32
    bits, as the two's complement targets do (C leaves the overflow
    undefined).  [/] and [%] truncate toward zero ([Z.quot], [Z.rem]); the
    quotients and remainders of an [int32_t] stay in range. *)
Definition date_to_pydate (m : memory) (data : nat) : option PyObject * nat :=
  let '(l, data) := unpack_int32_t m data in
  let l := int32_t (l + 19000000) in
  let year := Z.quot l 10000 in
  let month := Z.quot (Z.rem l 10000) 100 in
  let day := Z.rem l 100 in
  (giraffez_date_from_datetime year month day 0 0 0 0, data).

(** [pystring_from_cformat]: the formatted text as a Python string. *)
Definition pystring_from_cformat (text : string) : option PyObject :=
  PyUnicode_FromStringAndSize text.

(** [(intN_t)pow(10, column_scale)]: the conversion is defined only when
    the power fits the type. *)
Definition cast_pow10 (w : Z) (column_scale : nat) : option Z :=
  let p := 10 ^ Z.of_nat column_scale in
  if p <=? max_signed w then Some p else None.

(** The common body of [decimal8_to_pystring] ... [decimal64_to_pystring]
    on the unpacked value [v] of width [w] bits. *)
Definition decimal_scaled (w : Z) (v : Z) (column_scale : nat)
  : option (option PyObject) :=
  if (0 <? column_scale)%nat then
    match cast_pow10 w column_scale with
    | None => None
    | Some scale =>
      let sign := if v <? 0 then "-" else "" in
      let x := wrap_signed w (Z.abs (Z.quot v scale)) in
      let y := wrap_signed w (Z.abs (Z.rem v scale)) in
      Some (pystring_from_cformat
              (sign ++ format_d x ++ "." ++ format_0wd column_scale y))
    end
  else Some (PyUnicode_FromFormat_d v).

Definition with_cursor {A : Type} (data : nat) (r : option A)
  : option (A * nat) :=
  match r with Some s => Some (s, data) | None => None end.

Definition decimal8_to_pystring (m : memory) (data : nat) (column_scale : nat)
  : option (option PyObject * nat) :=
  let '(b, data) := unpack_int8_t m data in
  with_cursor data (decimal_scaled 8 b column_scale).

Definition decimal16_to_pystring (m : memory) (data : nat) (column_scale : nat)
  : option (option PyObject * nat) :=
  let '(h, data) := unpack_int16_t m data in
  with_cursor data (decimal_scaled 16 h column_scale).

Definition decimal32_to_pystring (m : memory) (data : nat) (column_scale : nat)
  : option (option PyObject * nat) :=
  let '(l, data) := unpack_int32_t m data in
  with_cursor data (decimal_scaled 32 l column_scale).

Definition decimal64_to_pystring (m : memory) (data : nat) (column_scale : nat)
  : option (option PyObject * nat) :=
  let '(q, data) := unpack_int64_t m data in
  with_cursor data (decimal_scaled 64 q column_scale).

(** Python integers are unbounded: [<<], [|], [**], [//] and [%] are
    [Z.shiftl], [Z.lor], [Z.pow], [Z.div] and [Z.modulo]. *)
Definition decimal128_to_pystring (m : memory) (data : nat)
  (column_scale : nat) : option (option PyObject * nat) :=
  let '(Q, data) := unpack_uint64_t m data in
  let '(q, data) := unpack_int64_t m data in
  let us := Z.shiftl q 64 in
  let v := Z.lor us Q in
  if (0 <? column_scale)%nat then
    let scale := 10 ^ Z.of_nat column_scale in
    let x := v / scale in
    let y := v mod scale in
    Some (Some (PyUnicode (format_d x ++ "." ++ format_0wd column_scale y)),
          data)
  else Some (Some (PyUnicode (format_d v)), data).

(** Modelled from the spec: the constants [DECIMAL8] ... [DECIMAL128] come
    from convert.h; the spec gives the decimal widths as 1, 2, 4, 8 and 16
    bytes. *)
Definition decimal_to_pystring (m : memory) (data : nat)
  (column_length : nat) (column_scale : nat)
  : option (option PyObject * nat) :=
  match column_length with
  | 1%nat => decimal8_to_pystring m data column_scale
  | 2%nat => decimal16_to_pystring m data column_scale
  | 4%nat => decimal32_to_pystring m data column_scale
  | 8%nat => decimal64_to_pystring m data column_scale
  | 16%nat => decimal128_to_pystring m data column_scale
  | _ => Some (None, data)
  end.

Section Float.

(** The host's float object and [PyFloat_FromString], the parser of a
    floating-point literal. *)
Variable PyFloat : Type.
Variable PyFloat_FromString : PyObject -> option PyFloat.

(** A NULL string is dereferenced by [PyFloat_FromString]. *)
Definition decimal_to_pyfloat (m : memory) (data : nat)
  (column_length : nat) (column_scale : nat)
  : option (option PyFloat * nat) :=
  match decimal_to_pystring m data column_length column_scale with
  | Some (Some s, data) => Some (PyFloat_FromString s, data)
  | Some (None, _) => None
  | None => None
  end.

End Float.

Definition vchar_to_pystring (m : memory) (data : nat)
  : option PyObject * nat :=
  let '(H, data) := unpack_uint16_t m data in
  let str := PyUnicode_FromStringAndSize (read_bytes m data (Z.to_nat H)) in
  (str, (data + Z.to_nat H)%nat).

(** ** PACK: Python values to wire bytes *)

(** The output of an encode routine: the bytes stored through [*buf] so
    far (the cursor has advanced by their number) and the running
    [uint16_t *len] counter. *)
Record outbuf : Type := { written : string; len : Z }.

(** What an encode routine hands back: its return value (NULL is [None]),
    the output, and the exception pending in the interpreter, if any. *)
Record outcome : Type :=
  { ret : option PyObject; out : outbuf; raised : option PyExc }.

Definition store (o : outbuf) (bytes : string) : outbuf :=
  {| written := written o ++ bytes; len := len o |}.

Definition add_len (o : outbuf) (n : nat) : outbuf :=
  {| written := written o; len := uint16_t (len o + Z.of_nat n) |}.

(** Modelled from the spec: [pack_int32_t] and [pack_int64_t] are
    declared in util.h and defined outside convert.c; the writes mirror
    the reads: the little-endian bytes of the value, the cursor advanced
    by the width. *)
Definition pack_int32_t (o : outbuf) (l : Z) : outbuf := store o (le_bytes 4 l).
Definition pack_int64_t (o : outbuf) (q : Z) : outbuf := store o (le_bytes 8 q).

(** The text before the first separator byte and, if there is one, the
    text after it. *)
Fixpoint split_first (sep : byte) (s : string) : string * option string :=
  match s with
  | EmptyString => (EmptyString, None)
  | String c r =>
    if (c =? sep)%char then (EmptyString, Some r)
    else let '(a, b) := split_first sep r in (String c a, b)
  end.

(** [PyUnicode_Split(item, sep, 1)]: at most one split, so one or two
    parts. *)
Definition PyUnicode_Split_1 (sep : byte) (utf8 : string) : list string :=
  match split_first sep utf8 with
  | (a, None) => [a]
  | (a, Some b) => [a; b]
  end.

(** [PyUnicode_Replace(item, sep, "", -1)]: every separator removed. *)
Fixpoint PyUnicode_Replace_blank (sep : byte) (utf8 : string) : string :=
  match utf8 with
  | EmptyString => EmptyString
  | String c r =>
    if (c =? sep)%char then PyUnicode_Replace_blank sep r
    else String c (PyUnicode_Replace_blank sep r)
  end.

Definition dot : byte := "."%char.
Definition hyphen : byte := "-"%char.

(** No length check: all the source bytes are stored, then [fill] spaces
    when [fill] is positive.  A source that is neither text nor bytes, or
    text that is not ASCII, leaves [temp] NULL for [PyBytes_Size]. *)
Definition pystring_to_char (s : PyObject) (column_length : nat) (o : outbuf)
  : option outcome :=
  let temp :=
    match s with
    | PyUnicode u => PyUnicode_AsASCIIString u
    | PyBytes b => Some b
    | _ => None
    end in
  match temp with
  | None => None
  | Some str =>
    let length := String.length str in
    let o := store o str in
    let fill := int32_t (Z.of_nat column_length - Z.of_nat length) in
    let o := store o (replicate (Z.to_nat fill) " "%char) in
    let o := add_len o column_length in
    Some {| ret := Some PyNone; out := o; raised := None |}
  end.

Definition pydate_to_int (item : PyObject) (column_length : nat) (o : outbuf)
  : outcome :=
  match item with
  | PyUnicode u =>
    let s := PyUnicode_Replace_blank hyphen u in
    let d := PyLong_FromUnicodeObject s in
    let '(v, e) := PyLong_AsLong d in
    let l := int32_t v in
    let l := int32_t (l - 19000000) in
    let o := pack_int32_t o l in
    let o := add_len o column_length in
    {| ret := Some PyNone; out := o; raised := e |}
  | _ => {| ret := None; out := o; raised := Some TypeError |}
  end.

Definition DBUF_SIZE : nat := 1024.

(** [pad] is the fill byte of the C library's [%0*s].  The text written
    to [dbuf] with its NUL must fit [DBUF_SIZE].  The value is always
    stored by [pack_int64_t]; the switch on [column_length] is commented
    out in the source. *)
Definition pystring_to_decimal (pad : byte) (item : PyObject)
  (column_length : nat) (column_scale : nat) (o : outbuf) : option outcome :=
  match item with
  | PyUnicode u =>
    let parts := PyUnicode_Split_1 dot u in
    let '(x, y) :=
      match parts with
      | [a] => (PyUnicode_AsUTF8 a, "")
      | [a; b] => (PyUnicode_AsUTF8 a, PyUnicode_AsUTF8 b)
      | _ => ("", "")
      end in
    let dbuf := x ++ format_0ws pad column_scale y in
    if (DBUF_SIZE <=? String.length dbuf)%nat then None else
    let s := PyLong_FromString dbuf in
    let '(q, e) := PyLong_AsLongLong s in
    let o := pack_int64_t o q in
    let o := add_len o column_length in
    Some {| ret := Some PyNone; out := o; raised := e |}
  | _ => Some {| ret := None; out := o; raised := Some TypeError |}
  end.

(** [[-]x.y] with [x = |v| / 10^scale] and [y = |v| % 10^scale] padded
    with zeros to [scale] digits. *)
Definition spec_decimal_text (v : Z) (scale : nat) : string :=
  let p := 10 ^ Z.of_nat scale in
  let x := Z.abs v / p in
  let y := Z.abs v mod p in
  let ds := decimal_digits y in
  (if v <? 0 then "-" else "")
  ++ decimal_digits x ++ "."
  ++ replicate (scale - String.length ds) "0"%char ++ ds.

(** ** Notions used by the statements *)

(** The output before anything is stored. *)
Definition empty_out : outbuf := {| written := ""; len := 0 |}.

(** C5 as the specification words it, for a row buffer that ends at
    address [buffer_end]: a read of [w] bytes with fewer than [w] left
    fails and leaves the cursor where it was. *)
Definition bounds_checked_read (buffer_end : nat) (m : memory)
  (data w : nat) : Prop :=
  (buffer_end - data < w)%nat ->
  fst (char_to_pystring m data w) = None
  /\ snd (char_to_pystring m data w) = data.

(** The scales the code can serve: any when nothing is scaled or for the
    16-byte path, otherwise those whose power of ten fits the width. *)
Definition scale_representable (len scale : nat) : bool :=
  (scale =? 0)%nat || (len =? 16)%nat
  || (10 ^ Z.of_nat scale <=? max_signed (8 * Z.of_nat len)).

(** A stand-in parser for a concrete instance: it keeps the literal. *)
Definition literal_of (s : PyObject) : option string :=
  match s with PyUnicode text => Some text | _ => None end.

(** The bytes of an encode source: text must be ASCII. *)
Definition char_source (item : PyObject) (s : string) : Prop :=
  (item = PyUnicode s /\ all_bytes is_ascii s = true) \/ item = PyBytes s.

(** ** UNPACK: the integer and date-text routines *)

(** [PyLong_FromLong]. *)
Definition PyLong_FromLong (v : Z) : option PyObject := Some (PyLong v).

Definition byte_to_pylong (m : memory) (data : nat) : option PyObject * nat :=
  let '(b, data) := unpack_int8_t m data in
  (PyLong_FromLong b, data).

Definition byte_to_pystring (m : memory) (data : nat) : option PyObject * nat :=
  let '(b, data) := unpack_int8_t m data in
  (PyUnicode_FromFormat_d b, data).

Definition short_to_pylong (m : memory) (data : nat) : option PyObject * nat :=
  let '(h, data) := unpack_int16_t m data in
  (PyLong_FromLong h, data).

Definition short_to_pystring (m : memory) (data : nat) : option PyObject * nat :=
  let '(h, data) := unpack_int16_t m data in
  (PyUnicode_FromFormat_d h, data).

Definition int_to_pylong (m : memory) (data : nat) : option PyObject * nat :=
  let '(l, data) := unpack_int32_t m data in
  (PyLong_FromLong l, data).

Definition int_to_pystring (m : memory) (data : nat) : option PyObject * nat :=
  let '(l, data) := unpack_int32_t m data in
  (PyUnicode_FromFormat_d l, data).

(** [(long)q] is the identity conversion on an LP64 target. *)
Definition long_to_pylong (m : memory) (data : nat) : option PyObject * nat :=
  let '(q, data) := unpack_int64_t m data in
  (PyLong_FromLong (int64_t q), data).

Definition long_to_pystring (m : memory) (data : nat) : option PyObject * nat :=
  let '(q, data) := unpack_int64_t m data in
  (PyUnicode_FromFormat_d q, data).

(** The first [n] bytes of a string. *)
Fixpoint prefix (n : nat) (s : string) : string :=
  match n, s with
  | S k, String c r => String c (prefix k r)
  | _, _ => EmptyString
  end.

(** [sprintf(s, "%04d-%02d-%02d", ...)] into [char s[11]]: the text and its
    NUL overrun the array from 11 characters on.  The string object takes
    the first 10 bytes. *)
Definition date_to_pystring (m : memory) (data : nat)
  : option (option PyObject * nat) :=
  let '(l, data) := unpack_int32_t m data in
  let l := int32_t (l + 19000000) in
  let year := Z.quot l 10000 in
  let month := Z.quot (Z.rem l 10000) 100 in
  let day := Z.rem l 100 in
  let s := format_0wd 4 year ++ "-" ++ format_0wd 2 month ++ "-"
           ++ format_0wd 2 day in
  if (11 <=? String.length s)%nat then None
  else Some (PyUnicode_FromStringAndSize (prefix 10 s), data).

(** ** [strptime] with the format ["%Y-%m-%d %H:%M:%S"] *)

(** The digit loop of glibc's [get_number (from, to, n)], entered on the
    digit [c] with [k] more digits allowed: a further digit is taken while
    ten times the value does not exceed [to]. *)
Fixpoint number_loop (k : nat) (to val : Z) (c : byte) (rp : string)
  : Z * string :=
  let val := val * 10 + (byte_val c - 48) in
  match k with
  | O => (val, rp)
  | S k' =>
    match rp with
    | String c' r' =>
      if (val * 10 <=? to) && is_digit c' then number_loop k' to val c' r'
      else (val, rp)
    | EmptyString => (val, rp)
    end
  end.

Definition get_number_n (from to : Z) (n : nat) (s : string)
  : option (Z * string) :=
  match skip_space s with
  | String c r =>
    if is_digit c then
      let '(val, rp) := number_loop (n - 1) to 0 c r in
      if (val <? from) || (to <? val) then None else Some (val, rp)
    else None
  | EmptyString => None
  end.

(** The fields as the caller passes them on: [tm_year + 1900],
    [tm_mon + 1], [tm_mday], [tm_hour], [tm_min], [tm_sec].  The blank of
    the format matches any run of blanks. *)
Definition strptime_YmdHMS (s : string) : option (Z * Z * Z * Z * Z * Z) :=
  match get_number_n 0 9999 4 s with
  | None => None
  | Some (Y, s) =>
    let tm_year := Y - 1900 in
    match match_char hyphen s with
    | None => None
    | Some s =>
      match get_number_n 1 12 2 s with
      | None => None
      | Some (mo, s) =>
        let tm_mon := mo - 1 in
        match match_char hyphen s with
        | None => None
        | Some s =>
          match get_number_n 1 31 2 s with
          | None => None
          | Some (tm_mday, s) =>
            match strptime_HMS (skip_space s) with
            | None => None
            | Some (tm_hour, tm_min, tm_sec) =>
              Some (tm_year + 1900, tm_mon + 1, tm_mday,
                    tm_hour, tm_min, tm_sec)
            end
          end
        end
      end
    end
  end.

(** The two outcomes of the timestamp decode.  Modelled from the spec:
    [giraffez_ts_from_datetime] is declared in pytypes.h and defined
    outside convert.c; the spec has it produce the (year, month, day, hour,
    minute, second, fraction) value from its arguments. *)
Inductive timestamp_value : Type :=
| GiraffezTimestamp (year month day hour minute second microsecond : Z)
| TimestampText (str : option PyObject).

Definition char_to_timestamp (m : memory) (data : nat) (column_length : nat)
  : option (timestamp_value * nat) :=
  if (BUFFER_SIZE <=? column_length)%nat then None else
  let buffer := c_string (read_bytes m data column_length) in
  match strptime_YmdHMS buffer with
  | Some (year, mon, mday, tm_hour, tm_min, tm_sec) =>
    Some (GiraffezTimestamp year mon mday tm_hour tm_min tm_sec 0,
          (data + column_length)%nat)
  | None =>
    let '(str, data) := char_to_pystring m data column_length in
    Some (TimestampText str, data)
  end.

(** ** PACK: the integer routines *)

(** Modelled from the spec: [pack_int8_t] and [pack_int16_t], like
    [pack_int32_t] and [pack_int64_t], are declared in util.h and defined
    outside convert.c. *)
Definition pack_int8_t (o : outbuf) (b : Z) : outbuf := store o (le_bytes 1 b).
Definition pack_int16_t (o : outbuf) (h : Z) : outbuf := store o (le_bytes 2 h).

(** The common body of [pylong_to_byte] ... [pylong_to_long]: the C long
    of the item is narrowed to the [bits]-wide variable; NULL is returned
    when the item is not an int (no exception is set) and when the
    narrowed value is -1 with an exception pending; otherwise the value is
    packed and the counter grows by [column_length]. *)
Definition pylong_pack (bits : Z) (pack : outbuf -> Z -> outbuf)
  (item : PyObject) (column_length : nat) (o : outbuf) : outcome :=
  match item with
  | PyLong z =>
    let '(v, e) := PyLong_AsLong (Some z) in
    let b := wrap_signed bits v in
    if (b =? -1) && (match e with Some _ => true | None => false end)
    then {| ret := None; out := o; raised := e |}
    else {| ret := Some PyNone;
            out := add_len (pack o b) column_length;
            raised := e |}
  | _ => {| ret := None; out := o; raised := None |}
  end.

Definition pylong_to_byte := pylong_pack 8 pack_int8_t.
Definition pylong_to_short := pylong_pack 16 pack_int16_t.
Definition pylong_to_int := pylong_pack 32 pack_int32_t.
Definition pylong_to_long := pylong_pack 64 pack_int64_t.

(** The integer codecs: encode routine, decode routine, width in bytes. *)
Definition integer_codecs
  : list ((PyObject -> nat -> outbuf -> outcome)
          * (memory -> nat -> option PyObject * nat) * nat) :=
  [ (pylong_to_byte, byte_to_pylong, 1%nat);
    (pylong_to_short, short_to_pylong, 2%nat);
    (pylong_to_int, int_to_pylong, 4%nat);
    (pylong_to_long, long_to_pylong, 8%nat) ].

(** The integer decoders: to text, to int. *)
Definition integer_decoders
  : list ((memory -> nat -> option PyObject * nat)
          * (memory -> nat -> option PyObject * nat)) :=
  [ (byte_to_pystring, byte_to_pylong);
    (short_to_pystring, short_to_pylong);
    (int_to_pystring, int_to_pylong);
    (long_to_pystring, long_to_pylong) ].

(** The number a run of decimal digits denotes after the prefix value
    [a]. *)
Fixpoint digits_value (s : string) (a : Z) : Z :=
  match s with
  | EmptyString => a
  | String c r => digits_value r (10 * a + (byte_val c - 48))
  end.

(** The bytes a Python integer literal can hold: digits, blanks, signs
    and underscores. *)
Definition int_literal_byte (c : byte) : bool :=
  is_digit c || isspace c || (c =? "+")%char || (c =? "-")%char
  || (c =? "_")%char.

(** The text [date_to_pystring] formats for its three fields. *)
Definition date_text (year month day : Z) : string :=
  format_0wd 4 year ++ "-" ++ format_0wd 2 month ++ "-" ++ format_0wd 2 day.

(** The text of printf's ["%02d:%02d:%02d"]. *)
Definition time_text (hour minute second : Z) : string :=
  format_0wd 2 hour ++ ":" ++ format_0wd 2 minute ++ ":" ++ format_0wd 2 second.

(** The text of printf's ["%04d-%02d-%02d %02d:%02d:%02d"]. *)
Definition timestamp_text (year month day hour minute second : Z) : string :=
  date_text year month day ++ " " ++ time_text hour minute second.

(** Neither a decimal point nor a NUL. *)
Definition no_dot_nul (c : byte) : bool :=
  negb (c =? dot)%char && negb (c =? zero)%char.

(** The raw integer of a decimal field of a supported width. *)
Definition decimal_raw (m : memory) (data len : nat) : Z :=
  if (len =? 16)%nat
  then fst (unpack_int64_t m (data + 8)) * 2 ^ 64
       + fst (unpack_uint64_t m data)
  else fst (unpack_signed len m data).

(** The same body entered with the exception state [pending] of the
    caller: [PyLong_AsLong] leaves a pending exception in place when it
    succeeds, so [PyErr_Occurred] then answers for the caller's exception
    too. *)
Definition pylong_pack_entry (pending : option PyExc) (bits : Z)
  (pack : outbuf -> Z -> outbuf) (item : PyObject) (column_length : nat)
  (o : outbuf) : outcome :=
  match item with
  | PyLong z =>
    let '(v, e) := PyLong_AsLong (Some z) in
    let occurred := match e with Some _ => e | None => pending end in
    let b := wrap_signed bits v in
    if (b =? -1) && (match occurred with Some _ => true | None => false end)
    then {| ret := None; out := o; raised := occurred |}
    else {| ret := Some PyNone;
            out := add_len (pack o b) column_length;
            raised := occurred |}
  | _ => {| ret := None; out := o; raised := pending |}
  end.

(** The integer encode routines with the exception state at entry, each
    beside its form for a call with no exception pending and its width in
    bytes. *)
Definition integer_encoders
  : list ((option PyExc -> PyObject -> nat -> outbuf -> outcome)
          * (PyObject -> nat -> outbuf -> outcome) * nat) :=
  [ (fun pending => pylong_pack_entry pending 8 pack_int8_t,
     pylong_to_byte, 1%nat);
    (fun pending => pylong_pack_entry pending 16 pack_int16_t,
     pylong_to_short, 2%nat);
    (fun pending => pylong_pack_entry pending 32 pack_int32_t,
     pylong_to_int, 4%nat);
    (fun pending => pylong_pack_entry pending 64 pack_int64_t,
     pylong_to_long, 8%nat) ].

(** ** The time pattern

    The pattern of the specification, HH:MM:SS, read strictly: eight bytes,
    two digits for each field with a colon between them, the hour in
    0..23, the minute and the second in 0..59. *)
Definition two_digit_value (c1 c2 : byte) : Z :=
  (byte_val c1 - 48) * 10 + (byte_val c2 - 48).

Definition HHMMSS_fields (s : string) : option (Z * Z * Z) :=
  match s with
  | String h1 (String h2 (String c1 (String m1 (String m2 (String c2
      (String s1 (String s2 EmptyString))))))) =>
    if is_digit h1 && is_digit h2 && (c1 =? ":")%char
       && is_digit m1 && is_digit m2 && (c2 =? ":")%char
       && is_digit s1 && is_digit s2
       && (two_digit_value h1 h2 <=? 23)
       && (two_digit_value m1 m2 <=? 59)
       && (two_digit_value s1 s2 <=? 59)
    then Some (two_digit_value h1 h2, two_digit_value m1 m2,
               two_digit_value s1 s2)
    else None
  | _ => None
  end.

Definition matches_HHMMSS (s : string) : bool :=
  match HHMMSS_fields s with Some _ => true | None => false end.

Definition starts_with_digit (s : string) : bool :=
  match s with
  | String c _ => is_digit c
  | EmptyString => false
  end.

(** The texts the C library takes for one field of ["%H:%M:%S"], as a
    grammar: [time_field to s v rest] when [s] is a run of blanks, then one
    or two digits of value [v], then [rest].  A digit that follows the
    first belongs to the field whenever ten times the first is within
    [to], and the two together must then be within [to]. *)
Inductive time_field (to : Z) (s : string) (v : Z) (rest : string) : Prop :=
| field_one_digit (blanks : string) (c : byte) :
    all_bytes isspace blanks = true ->
    is_digit c = true ->
    s = blanks ++ String c rest ->
    v = byte_val c - 48 ->
    (v * 10 <=? to) && starts_with_digit rest = false ->
    time_field to s v rest
| field_two_digits (blanks : string) (c1 c2 : byte) :
    all_bytes isspace blanks = true ->
    is_digit c1 = true ->
    is_digit c2 = true ->
    s = blanks ++ String c1 (String c2 rest) ->
    (byte_val c1 - 48) * 10 <= to ->
    v = two_digit_value c1 c2 ->
    v <= to ->
    time_field to s v rest.

(** The texts taken for a time: an hour field up to 23, a colon, a minute
    field up to 59, a colon, a second field up to 61, and anything after
    it. *)
Definition accepted_time (s : string) (hour minute second : Z) : Prop :=
  exists r1 r2 r3,
    time_field 23 s hour (String ":" r1)
    /\ time_field 59 r1 minute (String ":" r2)
    /\ time_field 61 r2 second r3.

(** * Properties *)

(** ** Bytes and little-endian integers *)

Lemma byte_val_range (b : byte) : 0 <= byte_val b < 256.
Proof.
  unfold byte_val. pose proof (N_ascii_bounded b) as H.
  split; [apply N2Z.is_nonneg | ].
  change 256 with (Z.of_N 256). apply N2Z.inj_lt. exact H.
Qed.

Lemma byte_val_of (z : Z) : byte_val (byte_of z) = z mod 256.
Proof.
  unfold byte_val, byte_of.
  assert (Hr : 0 <= z mod 256 < 256) by (apply Z.mod_pos_bound; lia).
  rewrite N_ascii_embedding.
  - apply Z2N.id. lia.
  - change 256%N with (Z.to_N 256). apply Z2N.inj_lt; lia.
Qed.

Lemma byte_of_val (b : byte) : byte_of (byte_val b) = b.
Proof.
  unfold byte_of. pose proof (byte_val_range b) as H.
  rewrite Z.mod_small by exact H.
  unfold byte_val. rewrite N2Z.id. apply ascii_N_embedding.
Qed.

Lemma le_value_range (s : string) :
  0 <= le_value s < 2 ^ (8 * Z.of_nat (String.length s)).
Proof.
  induction s as [| b r IH].
  - simpl. lia.
  - cbn [le_value String.length].
    pose proof (byte_val_range b) as Hb.
    replace (8 * Z.of_nat (S (String.length r)))
      with (8 + 8 * Z.of_nat (String.length r)) by lia.
    rewrite Z.pow_add_r by lia. change (2 ^ 8) with 256. nia.
Qed.

Lemma le_bytes_length (n : nat) (z : Z) : String.length (le_bytes n z) = n.
Proof.
  revert z. induction n as [| k IH]; intro z; simpl; [ | rewrite IH ]; reflexivity.
Qed.

Lemma le_value_le_bytes (n : nat) (z : Z) :
  le_value (le_bytes n z) = z mod 2 ^ (8 * Z.of_nat n).
Proof.
  revert z. induction n as [| k IH]; intro z.
  - simpl. now rewrite Z.mod_1_r.
  - cbn [le_bytes le_value]. rewrite byte_val_of, IH.
    replace (8 * Z.of_nat (S k)) with (8 + 8 * Z.of_nat k) by lia.
    rewrite Z.pow_add_r by lia. change (2 ^ 8) with 256.
    rewrite Z.rem_mul_r; [ reflexivity | lia | ].
    apply Z.pow_pos_nonneg; lia.
Qed.

Lemma wrap_signed_fits (w z : Z) :
  0 < w -> min_signed w <= z <= max_signed w -> wrap_signed w z = z.
Proof.
  unfold min_signed, max_signed, wrap_signed. intros Hw Hz.
  assert (Hp : 2 ^ w = 2 * 2 ^ (w - 1)).
  { replace w with (1 + (w - 1)) at 1 by lia.
    rewrite Z.pow_add_r by lia. reflexivity. }
  rewrite Z.mod_small; lia.
Qed.

Lemma wrap_signed_range (w z : Z) :
  0 < w -> min_signed w <= wrap_signed w z <= max_signed w.
Proof.
  unfold min_signed, max_signed, wrap_signed. intros Hw.
  assert (Hp : 2 ^ w = 2 * 2 ^ (w - 1)).
  { replace w with (1 + (w - 1)) at 1 by lia.
    rewrite Z.pow_add_r by lia. reflexivity. }
  assert (0 < 2 ^ (w - 1)) by (apply Z.pow_pos_nonneg; lia).
  pose proof (Z.mod_pos_bound (z + 2 ^ (w - 1)) (2 ^ w)). lia.
Qed.

Lemma wrap_signed_mod (w z : Z) :
  0 < w -> wrap_signed w (z mod 2 ^ w) = wrap_signed w z.
Proof.
  intros Hw. unfold wrap_signed.
  rewrite Zplus_mod_idemp_l. reflexivity.
Qed.

(** A signed read returns the value whose little-endian bytes are at the
    cursor. *)
Lemma unpack_signed_le_bytes (w : nat) (m : memory) (p : nat) (z : Z) :
  (0 < w)%nat ->
  min_signed (8 * Z.of_nat w) <= z <= max_signed (8 * Z.of_nat w) ->
  read_bytes m p w = le_bytes w z ->
  unpack_signed w m p = (z, (p + w)%nat).
Proof.
  intros Hw Hz Hm. unfold unpack_signed. rewrite Hm, le_value_le_bytes.
  rewrite wrap_signed_mod by lia. rewrite wrap_signed_fits by lia. reflexivity.
Qed.

Lemma unpack_unsigned_le_bytes (w : nat) (m : memory) (p : nat) (z : Z) :
  0 <= z < 2 ^ (8 * Z.of_nat w) ->
  read_bytes m p w = le_bytes w z ->
  unpack_unsigned w m p = (z, (p + w)%nat).
Proof.
  intros Hz Hm. unfold unpack_unsigned. rewrite Hm, le_value_le_bytes.
  rewrite Z.mod_small by exact Hz. reflexivity.
Qed.

Lemma read_bytes_length (m : memory) (p n : nat) :
  String.length (read_bytes m p n) = n.
Proof.
  revert p. induction n as [| k IH]; intro p; simpl; [ | rewrite IH ]; reflexivity.
Qed.

Lemma all_ascii_utf8_valid (s : string) :
  all_bytes is_ascii s = true -> utf8_valid s = true.
Proof.
  induction s as [| b r IH]; intro H; [ reflexivity | ].
  cbn [all_bytes] in H. apply andb_true_iff in H as [Hb Hr].
  cbn [utf8_valid]. rewrite Hb. exact (IH Hr).
Qed.

Lemma all_bytes_app (f : byte -> bool) (s t : string) :
  all_bytes f (s ++ t) = all_bytes f s && all_bytes f t.
Proof.
  induction s as [| b r IH]; [ reflexivity | ].
  cbn [append all_bytes]. rewrite IH. apply andb_assoc.
Qed.

Lemma all_bytes_replicate (f : byte -> bool) (n : nat) (b : byte) :
  f b = true -> all_bytes f (replicate n b) = true.
Proof.
  intro Hb. induction n as [| k IH]; [ reflexivity | ].
  cbn [replicate all_bytes]. now rewrite Hb, IH.
Qed.

Lemma replicate_length (n : nat) (b : byte) : String.length (replicate n b) = n.
Proof. induction n as [| k IH]; simpl; [ | rewrite IH ]; reflexivity. Qed.

Lemma append_length (s t : string) :
  String.length (s ++ t) = (String.length s + String.length t)%nat.
Proof. induction s as [| b r IH]; simpl; [ | rewrite IH ]; reflexivity. Qed.

(** ** Dates *)

Lemma date_to_pydate_value (m : memory) (data : nat) (l : Z) :
  min_signed 32 <= l ->
  l + 19000000 <= max_signed 32 ->
  read_bytes m data 4 = le_bytes 4 l ->
  date_to_pydate m data =
    (Some (GiraffezDate (Z.quot (l + 19000000) 10000)
             (Z.quot (Z.rem (l + 19000000) 10000) 100)
             (Z.rem (l + 19000000) 100) 0 0 0 0), (data + 4)%nat).
Proof.
  intros Hlo Hhi Hm. unfold date_to_pydate, unpack_int32_t.
  rewrite (unpack_signed_le_bytes 4 m data l); [ | lia | | exact Hm ].
  - unfold int32_t. rewrite wrap_signed_fits; [ reflexivity | lia | ].
    unfold min_signed, max_signed in *. cbn in *. lia.
  - unfold min_signed, max_signed in *. cbn in *. lia.
Qed.

Lemma date_fields_nonneg (l' : Z) :
  0 <= l' ->
  Z.quot l' 10000 = l' / 10000
  /\ Z.quot (Z.rem l' 10000) 100 = (l' mod 10000) / 100
  /\ Z.rem l' 100 = l' mod 100.
Proof.
  intro Hpos.
  rewrite Z.quot_div_nonneg by lia.
  rewrite !Z.rem_mod_nonneg by lia.
  rewrite Z.quot_div_nonneg; [ auto | apply Z.mod_pos_bound; lia | lia ].
Qed.

(** The integer [YYYYMMDD - 19000000] of a date decodes to that date. *)
Lemma date_offset_decodes (m : memory) (data : nat) (year month day : Z) :
  0 <= year <= 214747 -> 0 <= month < 100 -> 0 <= day < 100 ->
  read_bytes m data 4 =
    le_bytes 4 (year * 10000 + month * 100 + day - 19000000) ->
  date_to_pydate m data =
    (Some (GiraffezDate year month day 0 0 0 0), (data + 4)%nat).
Proof.
  intros Hy Hm Hd Hmem.
  rewrite (date_to_pydate_value m data
             (year * 10000 + month * 100 + day - 19000000));
    [ | change (min_signed 32) with (-2147483648); lia
      | change (max_signed 32) with 2147483647; lia
      | exact Hmem ].
  replace (year * 10000 + month * 100 + day - 19000000 + 19000000)
    with (year * 10000 + month * 100 + day) by lia.
  destruct (date_fields_nonneg (year * 10000 + month * 100 + day)
              ltac:(lia)) as [-> [-> ->]].
  assert (Hq : (year * 10000 + month * 100 + day) / 10000 = year)
    by (symmetry; apply (Z.div_unique _ _ _ (month * 100 + day)); lia).
  assert (Hr : (year * 10000 + month * 100 + day) mod 10000 = month * 100 + day)
    by (symmetry; apply (Z.mod_unique _ _ year); lia).
  assert (Hmo : (month * 100 + day) / 100 = month)
    by (symmetry; apply (Z.div_unique _ _ _ day); lia).
  assert (Hda : (year * 10000 + month * 100 + day) mod 100 = day)
    by (symmetry; apply (Z.mod_unique _ _ (year * 100 + month)); lia).
  rewrite Hq, Hr, Hmo, Hda. reflexivity.
Qed.

(** C3 (amended): for every 32-bit [l] at the cursor whose sum with
    19000000 still fits 32 bits, the date decode returns year
    [l' / 10000], month [(l' % 10000) / 100] and day [l' % 100] of
    [l' = l + 19000000], with C's truncating division and remainder (the
    floor ones when [l'] is not negative), and moves the cursor by 4. *)
Theorem date_to_pydate_offset (m : memory) (data : nat) (l : Z) :
  min_signed 32 <= l ->
  l + 19000000 <= max_signed 32 ->
  read_bytes m data 4 = le_bytes 4 l ->
  let l' := l + 19000000 in
  date_to_pydate m data =
    (Some (GiraffezDate (Z.quot l' 10000) (Z.quot (Z.rem l' 10000) 100)
             (Z.rem l' 100) 0 0 0 0), (data + 4)%nat)
  /\ (0 <= l' ->
      Z.quot l' 10000 = l' / 10000
      /\ Z.quot (Z.rem l' 10000) 100 = (l' mod 10000) / 100
      /\ Z.rem l' 100 = l' mod 100).
Proof.
  intros Hlo Hhi Hm l'. split.
  - apply date_to_pydate_value; assumption.
  - apply date_fields_nonneg.
Qed.

Lemma date_to_pydate_offset_witness :
  date_to_pydate (mem_of_string (le_bytes 4 1171231)) 0 =
    (Some (GiraffezDate 2017 12 31 0 0 0 0), 4%nat).
Proof.
  exact (proj1 (date_to_pydate_offset (mem_of_string (le_bytes 4 1171231)) 0
                  1171231 ltac:(vm_compute; discriminate)
                  ltac:(vm_compute; discriminate) eq_refl)).
Defined.

(** C3 (as stated, refuted): at [l = 2147483647] the 32-bit sum wraps and
    the decoded triple is not the one of [l + 19000000]. *)
Lemma date_to_pydate_overflow :
  let l := 2147483647 in
  let m := mem_of_string (le_bytes 4 l) in
  unpack_int32_t m 0 = (l, 4%nat)
  /\ date_to_pydate m 0 =
       (Some (GiraffezDate (-212848) (-36) (-49) 0 0 0 0), 4%nat)
  /\ date_to_pydate m 0 <>
       (Some (GiraffezDate (Z.quot (l + 19000000) 10000)
                (Z.quot (Z.rem (l + 19000000) 10000) 100)
                (Z.rem (l + 19000000) 100) 0 0 0 0), 4%nat).
Proof.
  repeat split; try reflexivity. vm_compute. discriminate.
Qed.

(** C4 (as stated, refuted): 171231 decodes to the year 1917. *)
Lemma date_171231_is_1917 :
  date_to_pydate (mem_of_string (le_bytes 4 171231)) 0 =
    (Some (GiraffezDate 1917 12 31 0 0 0 0), 4%nat)
  /\ date_to_pydate (mem_of_string (le_bytes 4 171231)) 0 <>
    (Some (GiraffezDate 2017 12 31 0 0 0 0), 4%nat)
  /\ out (pydate_to_int (PyUnicode "2017-12-31") 4 empty_out) <>
    {| written := le_bytes 4 171231; len := 4 |}.
Proof.
  repeat split; try reflexivity; vm_compute; discriminate.
Qed.

(** C4 (amended): the date integer 1171231 decodes to (2017, 12, 31), and
    encoding the date 2017-12-31 stores the four bytes of 1171231, which
    is 20171231 - 19000000. *)
Theorem date_2017_12_31_round_trip :
  date_to_pydate (mem_of_string (le_bytes 4 1171231)) 0 =
    (Some (GiraffezDate 2017 12 31 0 0 0 0), 4%nat)
  /\ pydate_to_int (PyUnicode "2017-12-31") 4 empty_out =
    {| ret := Some PyNone;
       out := {| written := le_bytes 4 1171231; len := 4 |};
       raised := None |}
  /\ unpack_int32_t
       (mem_of_string
          (written (out (pydate_to_int (PyUnicode "2017-12-31") 4 empty_out))))
       0 = (2017 * 10000 + 12 * 100 + 31 - 19000000, 4%nat).
Proof.
  repeat split; vm_compute; reflexivity.
Qed.

(** ** Character fields *)



(** ** Times: the texts taken for a time *)

Lemma is_digit_not_space (c : byte) : is_digit c = true -> isspace c = false.
Proof.
  unfold is_digit, isspace. intro H.
  apply andb_true_iff in H. destruct H as [H1 H2].
  apply Z.leb_le in H1. apply Z.leb_le in H2.
  apply orb_false_iff. split.
  - apply Z.eqb_neq. lia.
  - apply andb_false_iff. right. apply Z.leb_gt. lia.
Qed.

Lemma skip_space_blanks (b s : string) :
  all_bytes isspace b = true -> skip_space (b ++ s) = skip_space s.
Proof.
  induction b as [| c r IH]; [ reflexivity | ].
  cbn [all_bytes append skip_space]. intro H.
  apply andb_true_iff in H. destruct H as [Hc Hr].
  rewrite Hc. exact (IH Hr).
Qed.

Lemma skip_space_prefix (s : string) :
  exists b, all_bytes isspace b = true /\ s = b ++ skip_space s.
Proof.
  induction s as [| c r [b [Hb Hs]]].
  - exists "". split; reflexivity.
  - cbn [skip_space]. destruct (isspace c) eqn:Hc.
    + exists (String c b). split.
      * cbn [all_bytes]. now rewrite Hc, Hb.
      * cbn [append]. now rewrite <- Hs.
    + exists "". split; reflexivity.
Qed.

Lemma skip_space_digit (b : string) (c : byte) (rest : string) :
  all_bytes isspace b = true -> is_digit c = true ->
  skip_space (b ++ String c rest) = String c rest.
Proof.
  intros Hb Hc. rewrite (skip_space_blanks _ _ Hb).
  cbn [skip_space]. now rewrite (is_digit_not_space c Hc).
Qed.

(** [get_number] takes exactly the texts of the grammar. *)
Lemma get_number_time_field (to : Z) (s : string) (v : Z) (rest : string) :
  get_number to s = Some (v, rest) <-> time_field to s v rest.
Proof.
  split.
  - unfold get_number. intro H.
    destruct (skip_space_prefix s) as [b [Hb Hs]].
    destruct (skip_space s) as [| c1 r1]; [ discriminate | ].
    destruct (is_digit c1) eqn:D1; [ | discriminate ].
    destruct r1 as [| c2 r2].
    + injection H as <- <-.
      apply (field_one_digit to s _ _ b c1); try assumption; try reflexivity.
      cbn [starts_with_digit]. apply andb_false_r.
    + destruct ((byte_val c1 - 48) * 10 <=? to) eqn:L1; cbn [andb] in H.
      * destruct (is_digit c2) eqn:D2.
        -- destruct (Z.leb_spec ((byte_val c1 - 48) * 10 + (byte_val c2 - 48)) to)
             as [L2 | L2]; [ | discriminate ].
           injection H as <- <-.
           apply (field_two_digits to s _ _ b c1 c2); try assumption;
             try reflexivity.
           apply Z.leb_le. exact L1.
        -- injection H as <- <-.
           apply (field_one_digit to s _ _ b c1); try assumption;
             try reflexivity.
           cbn [starts_with_digit]. rewrite D2. apply andb_false_r.
      * injection H as <- <-.
        apply (field_one_digit to s _ _ b c1); try assumption;
          try reflexivity.
        rewrite L1. reflexivity.
  - intros [b c Hb Hc -> -> Hone | b c1 c2 Hb H1 H2 -> L1 -> L2];
      unfold get_number.
    + rewrite (skip_space_digit b c rest Hb Hc), Hc.
      destruct rest as [| c2 r2]; [ reflexivity | ].
      cbn [starts_with_digit] in Hone. now rewrite Hone.
    + rewrite (skip_space_digit b c1 _ Hb H1), H1, H2.
      apply Z.leb_le in L1. rewrite L1. cbn [andb].
      unfold two_digit_value in L2. apply Z.leb_le in L2. now rewrite L2.
Qed.

Lemma match_char_colon (s r : string) :
  match_char ":"%char s = Some r <-> s = String ":" r.
Proof.
  unfold match_char. destruct s as [| c s']; [ split; discriminate | ].
  destruct (Ascii.eqb_spec ":"%char c) as [<- | Hne].
  - split; intro H; injection H as ->; reflexivity.
  - split; intro H; [ discriminate | ]. injection H as -> _. congruence.
Qed.

(** [strptime] with ["%H:%M:%S"] succeeds on exactly the texts of the
    grammar, with the fields of the grammar. *)
Lemma strptime_HMS_accepted (s : string) (hour minute second : Z) :
  strptime_HMS s = Some (hour, minute, second) <->
  accepted_time s hour minute second.
Proof.
  unfold strptime_HMS, accepted_time. split.
  - intro H.
    destruct (get_number 23 s) as [[h s1] | ] eqn:E1; [ | discriminate ].
    destruct (match_char ":"%char s1) as [s2 | ] eqn:M1; [ | discriminate ].
    destruct (get_number 59 s2) as [[mi s3] | ] eqn:E2; [ | discriminate ].
    destruct (match_char ":"%char s3) as [s4 | ] eqn:M2; [ | discriminate ].
    destruct (get_number 61 s4) as [[sec s5] | ] eqn:E3; [ | discriminate ].
    injection H as <- <- <-.
    apply match_char_colon in M1, M2. subst s1 s3.
    exists s2, s4, s5. repeat split; apply get_number_time_field; assumption.
  - intros [r1 [r2 [r3 [F1 [F2 F3]]]]].
    apply get_number_time_field in F1, F2, F3.
    rewrite F1. cbn [match_char Ascii.eqb Bool.eqb].
    rewrite F2. cbn [match_char Ascii.eqb Bool.eqb].
    rewrite F3. reflexivity.
Qed.

Lemma accepted_time_none (s : string) :
  (forall hour minute second, ~ accepted_time s hour minute second) ->
  strptime_HMS s = None.
Proof.
  intro H. destruct (strptime_HMS s) as [[[h mi] sec] | ] eqn:E;
    [ | reflexivity ].
  exfalso. apply (H h mi sec). apply strptime_HMS_accepted. exact E.
Qed.

(** A text of the pattern HH:MM:SS, whatever follows it, belongs to the
    grammar with its own fields. *)
Lemma HHMMSS_accepted (s rest : string) (hour minute second : Z) :
  HHMMSS_fields s = Some (hour, minute, second) ->
  accepted_time (s ++ rest) hour minute second.
Proof.
  unfold HHMMSS_fields.
  destruct s as [| h1 [| h2 [| c1 [| m1 [| m2 [| c2 [| s1 [| s2 [| x t]]]]]]]]];
    try discriminate.
  destruct (is_digit h1) eqn:Dh1; [ | discriminate ].
  destruct (is_digit h2) eqn:Dh2; [ | discriminate ].
  destruct (Ascii.eqb_spec c1 ":"%char) as [-> | ]; [ | discriminate ].
  destruct (is_digit m1) eqn:Dm1; [ | discriminate ].
  destruct (is_digit m2) eqn:Dm2; [ | discriminate ].
  destruct (Ascii.eqb_spec c2 ":"%char) as [-> | ]; [ | discriminate ].
  destruct (is_digit s1) eqn:Ds1; [ | discriminate ].
  destruct (is_digit s2) eqn:Ds2; [ | discriminate ].
  cbn [andb].
  destruct (Z.leb_spec (two_digit_value h1 h2) 23) as [Lh | ]; [ | discriminate ].
  destruct (Z.leb_spec (two_digit_value m1 m2) 59) as [Lm | ]; [ | discriminate ].
  destruct (Z.leb_spec (two_digit_value s1 s2) 59) as [Ls | ]; [ | discriminate ].
  cbn [andb]. intro H. injection H as <- <- <-.
  assert (V : forall c, is_digit c = true -> 0 <= byte_val c - 48).
  { intros c Hc. unfold is_digit in Hc. apply andb_true_iff in Hc.
    destruct Hc as [Hc _]. apply Z.leb_le in Hc. lia. }
  pose proof (V _ Dh2). pose proof (V _ Dm2). pose proof (V _ Ds2).
  unfold two_digit_value in Lh, Lm, Ls.
  exists (String m1 (String m2 (String ":" (String s1 (String s2 rest))))),
    (String s1 (String s2 rest)), rest.
  split; [ | split ].
  - apply (field_two_digits 23 _ _ _ "" h1 h2); try reflexivity;
      try assumption; lia.
  - apply (field_two_digits 59 _ _ _ "" m1 m2); try reflexivity;
      try assumption; lia.
  - apply (field_two_digits 61 _ _ _ "" s1 s2); try reflexivity;
      try assumption; unfold two_digit_value; lia.
Qed.

Lemma char_to_time_accepted (m : memory) (data n : nat)
  (hour minute second : Z) :
  (n < BUFFER_SIZE)%nat ->
  accepted_time (c_string (read_bytes m data n)) hour minute second ->
  char_to_time m data n =
    Some (Some (GiraffezTime hour minute second 0), (data + n)%nat).
Proof.
  intros Hn H. apply strptime_HMS_accepted in H. unfold char_to_time.
  apply Nat.ltb_lt in Hn. rewrite Nat.leb_antisym, Hn. cbn [negb].
  rewrite H. reflexivity.
Qed.

Lemma char_to_time_not_accepted (m : memory) (data n : nat) :
  (n < BUFFER_SIZE)%nat ->
  all_bytes is_ascii (read_bytes m data n) = true ->
  (forall hour minute second,
      ~ accepted_time (c_string (read_bytes m data n)) hour minute second) ->
  char_to_time m data n =
    Some (Some (PyUnicode (read_bytes m data n)), (data + n)%nat).
Proof.
  intros Hn Hascii H. apply accepted_time_none in H. unfold char_to_time.
  apply Nat.ltb_lt in Hn. rewrite Nat.leb_antisym, Hn. cbn [negb].
  rewrite H. unfold char_to_pystring, PyUnicode_FromStringAndSize.
  rewrite (all_ascii_utf8_valid _ Hascii). reflexivity.
Qed.

(** A text whose first byte after the blanks is not a digit is no time. *)
Lemma no_digit_not_accepted (s : string) (hour minute second : Z) :
  starts_with_digit (skip_space s) = false ->
  ~ accepted_time s hour minute second.
Proof.
  intros H [r1 [_ [_ [F _]]]].
  destruct F as [b c Hb Hc -> _ _ | b c1 c2 Hb Hc _ -> _ _ _];
    rewrite (skip_space_digit _ _ _ Hb Hc) in H; cbn [starts_with_digit] in H;
    congruence.
Qed.




(** ** Decimal digits *)

Lemma digit_char_val (d : Z) : 0 <= d < 10 -> byte_val (digit_char d) = 48 + d.
Proof.
  intro Hd. unfold digit_char, byte_val.
  rewrite N_ascii_embedding.
  - apply Z2N.id. lia.
  - change 256%N with (Z.to_N 256). apply Z2N.inj_lt; lia.
Qed.

Lemma digit_char_ascii (n : Z) : is_ascii (digit_char (n mod 10)) = true.
Proof.
  unfold is_ascii. pose proof (Z.mod_pos_bound n 10 ltac:(lia)) as H.
  rewrite digit_char_val by exact H. apply Z.leb_le. lia.
Qed.

Lemma digit_char_is_digit (n : Z) : is_digit (digit_char (n mod 10)) = true.
Proof.
  unfold is_digit. pose proof (Z.mod_pos_bound n 10 ltac:(lia)) as H.
  rewrite digit_char_val by exact H.
  apply andb_true_iff. split; apply Z.leb_le; lia.
Qed.

Lemma digits_fuel_all (f : byte -> bool) :
  (forall n, f (digit_char (n mod 10)) = true) ->
  forall (fuel : nat) (n : Z) (acc : string),
    all_bytes f acc = true -> all_bytes f (digits_fuel fuel n acc) = true.
Proof.
  intros Hf fuel. induction fuel as [| k IH]; intros n acc Hacc.
  - exact Hacc.
  - cbn [digits_fuel].
    assert (Hacc' : all_bytes f (String (digit_char (n mod 10)) acc) = true).
    { cbn [all_bytes]. now rewrite Hf, Hacc. }
    destruct (n / 10 =? 0); [ exact Hacc' | apply IH, Hacc' ].
Qed.

Lemma decimal_digits_ascii (n : Z) : all_bytes is_ascii (decimal_digits n) = true.
Proof. apply digits_fuel_all; [ exact digit_char_ascii | reflexivity ]. Qed.

Lemma decimal_digits_digits (n : Z) : all_bytes is_digit (decimal_digits n) = true.
Proof. apply digits_fuel_all; [ exact digit_char_is_digit | reflexivity ]. Qed.

(** A number below [10^k] has at most [k] digits, whatever the fuel. *)
Lemma digits_fuel_length_le (fuel : nat) :
  forall (n : Z) (acc : string) (k : nat),
    (1 <= k)%nat -> 0 <= n < 10 ^ Z.of_nat k ->
    (String.length (digits_fuel fuel n acc) <= k + String.length acc)%nat.
Proof.
  induction fuel as [| f IH]; intros n acc k Hk Hn.
  - simpl. lia.
  - cbn [digits_fuel]. destruct (Z.eqb_spec (n / 10) 0) as [Hz | Hnz].
    + simpl. lia.
    + assert (Hq : 1 <= n / 10).
      { pose proof (Z.div_pos n 10 ltac:(lia) ltac:(lia)). lia. }
      destruct k as [| [| k']]; [ lia | | ].
      * change (10 ^ Z.of_nat 1) with 10 in Hn.
        rewrite Z.div_small in Hq by lia. lia.
      * specialize (IH (n / 10) (String (digit_char (n mod 10)) acc) (S k')).
        cbn [String.length] in IH.
        assert (Hlt : n / 10 < 10 ^ Z.of_nat (S k')).
        { apply Z.div_lt_upper_bound; [ lia | ].
          replace (Z.of_nat (S (S k'))) with (1 + Z.of_nat (S k')) in Hn by lia.
          rewrite Z.pow_add_r in Hn by lia. change (10 ^ 1) with 10 in Hn. lia. }
        specialize (IH ltac:(lia) ltac:(lia)). lia.
Qed.

Lemma decimal_digits_length_le (n : Z) (k : nat) :
  (1 <= k)%nat -> 0 <= n < 10 ^ Z.of_nat k ->
  (String.length (decimal_digits n) <= k)%nat.
Proof.
  intros Hk Hn. unfold decimal_digits.
  pose proof (digits_fuel_length_le (S (Z.to_nat (Z.log2 n))) n "" k Hk Hn) as H.
  simpl String.length in H at 2. lia.
Qed.

Lemma format_d_nonneg (z : Z) : 0 <= z -> format_d z = decimal_digits z.
Proof.
  intro Hz. unfold format_d.
  destruct (Z.ltb_spec z 0); [ lia | reflexivity ].
Qed.

Lemma format_d_neg (z : Z) : z < 0 -> format_d z = "-" ++ decimal_digits (- z).
Proof.
  intro Hz. unfold format_d.
  destruct (Z.ltb_spec z 0); [ reflexivity | lia ].
Qed.

Lemma format_0wd_nonneg (w : nat) (z : Z) :
  0 <= z ->
  format_0wd w z =
    replicate (w - String.length (decimal_digits z)) "0"%char
    ++ decimal_digits z.
Proof.
  intro Hz. unfold format_0wd. rewrite Z.abs_eq by exact Hz.
  destruct (Z.ltb_spec z 0); [ lia | reflexivity ].
Qed.

(** The fraction of the specified rendering has exactly [scale] digits. *)
Lemma spec_fraction_length (v : Z) (scale : nat) :
  (0 < scale)%nat ->
  let y := Z.abs v mod 10 ^ Z.of_nat scale in
  String.length
    (replicate (scale - String.length (decimal_digits y)) "0"%char
     ++ decimal_digits y) = scale.
Proof.
  intros Hs y. rewrite append_length, replicate_length.
  assert (Hy : 0 <= y < 10 ^ Z.of_nat scale).
  { apply Z.mod_pos_bound. apply Z.pow_pos_nonneg; lia. }
  pose proof (decimal_digits_length_le y scale ltac:(lia) Hy). lia.
Qed.

Lemma spec_decimal_text_ascii (v : Z) (scale : nat) :
  all_bytes is_ascii (spec_decimal_text v scale) = true.
Proof.
  unfold spec_decimal_text. cbv zeta.
  rewrite !all_bytes_app, !decimal_digits_ascii.
  rewrite all_bytes_replicate by reflexivity.
  destruct (v <? 0); reflexivity.
Qed.

(** ** Decimals: the fixed-width paths *)

Lemma pow10_ge_10 (scale : nat) : (0 < scale)%nat -> 10 <= 10 ^ Z.of_nat scale.
Proof.
  intro Hs. change 10 with (10 ^ 1) at 1.
  apply Z.pow_le_mono_r; lia.
Qed.

Lemma max_signed_ge_127 (w : Z) : 8 <= w -> 127 <= max_signed w.
Proof.
  intro Hw. unfold max_signed.
  assert (2 ^ 7 <= 2 ^ (w - 1)) by (apply Z.pow_le_mono_r; lia).
  change (2 ^ 7) with 128 in *. lia.
Qed.

(** For the widths of 1 to 8 bytes, and a scale whose power of ten fits
    the width, the code renders the text the specification asks for. *)
Lemma decimal_scaled_renders (w v : Z) (scale : nat) :
  8 <= w ->
  min_signed w <= v <= max_signed w ->
  (0 < scale)%nat ->
  10 ^ Z.of_nat scale <= max_signed w ->
  decimal_scaled w v scale = Some (Some (PyUnicode (spec_decimal_text v scale))).
Proof.
  intros Hw Hv Hs Hp. unfold decimal_scaled.
  rewrite (proj2 (Nat.ltb_lt 0 scale) Hs).
  unfold cast_pow10. rewrite (proj2 (Z.leb_le _ _) Hp).
  pose proof (pow10_ge_10 scale Hs) as H10.
  pose proof (max_signed_ge_127 w Hw) as HM.
  set (p := 10 ^ Z.of_nat scale) in *.
  assert (Hx : Z.abs (Z.quot v p) = Z.abs v / p).
  { rewrite <- Z.quot_abs by lia. rewrite (Z.abs_eq p) by lia.
    apply Z.quot_div_nonneg; lia. }
  assert (Hy : Z.abs (Z.rem v p) = Z.abs v mod p).
  { rewrite <- Z.rem_abs_l by lia. apply Z.rem_mod_nonneg; lia. }
  rewrite Hx, Hy.
  assert (Habs : 0 <= Z.abs v <= max_signed w + 1).
  { unfold min_signed, max_signed in *. lia. }
  assert (Hxr : 0 <= Z.abs v / p <= max_signed w).
  { split; [ apply Z.div_pos; lia | ].
    assert (Z.abs v / p <= Z.abs v / 10)
      by (apply Z.div_le_compat_l; lia).
    assert (Z.abs v / 10 <= (max_signed w + 1) / 10)
      by (apply Z.div_le_mono; lia).
    assert ((max_signed w + 1) / 10 < max_signed w)
      by (apply Z.div_lt_upper_bound; lia).
    lia. }
  assert (Hyr : 0 <= Z.abs v mod p < p) by (apply Z.mod_pos_bound; lia).
  rewrite !wrap_signed_fits by (unfold min_signed, max_signed in *; lia).
  rewrite format_d_nonneg by lia. rewrite format_0wd_nonneg by lia.
  unfold pystring_from_cformat, PyUnicode_FromStringAndSize.
  change ((if v <? 0 then "-" else "") ++ decimal_digits (Z.abs v / p) ++ "."
          ++ replicate (scale - String.length (decimal_digits (Z.abs v mod p)))
               "0"%char ++ decimal_digits (Z.abs v mod p))
    with (spec_decimal_text v scale).
  rewrite all_ascii_utf8_valid by apply spec_decimal_text_ascii.
  reflexivity.
Qed.

Lemma decimal_scaled_scale_0 (w v : Z) :
  decimal_scaled w v 0 = Some (Some (PyUnicode (format_d v))).
Proof. reflexivity. Qed.

(** ** Decimals: the 16-byte path *)

Lemma lor_shiftl_64 (q Q : Z) :
  0 <= Q < 2 ^ 64 -> Z.lor (Z.shiftl q 64) Q = q * 2 ^ 64 + Q.
Proof.
  intro HQ. rewrite <- Z.shiftl_mul_pow2 by lia.
  rewrite <- Z.add_lor_land.
  assert (Hland : Z.land (Z.shiftl q 64) Q = 0).
  { apply Z.bits_inj'. intros n Hn.
    rewrite Z.land_spec, Z.bits_0.
    destruct (Z.lt_ge_cases n 64) as [Hlt | Hge].
    - rewrite Z.shiftl_spec_low by lia. reflexivity.
    - rewrite <- (Z.mod_small Q (2 ^ 64)) by exact HQ.
      rewrite Z.mod_pow2_bits_high by lia. apply andb_false_r. }
  rewrite Hland. lia.
Qed.

Lemma unpack_int64_t_range (m : memory) (p : nat) :
  - 2 ^ 63 <= fst (unpack_int64_t m p) < 2 ^ 63.
Proof.
  unfold unpack_int64_t, unpack_signed. cbn [fst].
  pose proof (wrap_signed_range (8 * Z.of_nat 8)
                (le_value (read_bytes m p 8)) ltac:(lia)) as H.
  unfold min_signed, max_signed in H.
  change (8 * Z.of_nat 8 - 1) with 63 in H. lia.
Qed.

Lemma unpack_uint64_t_range (m : memory) (p : nat) :
  0 <= fst (unpack_uint64_t m p) < 2 ^ 64.
Proof.
  unfold unpack_uint64_t, unpack_unsigned. cbn [fst].
  pose proof (le_value_range (read_bytes m p 8)) as H.
  rewrite read_bytes_length in H. exact H.
Qed.

(** What the 16-byte path computes, in arithmetic terms. *)
Lemma decimal128_to_pystring_eq (m : memory) (data : nat) (scale : nat) :
  let Q := fst (unpack_uint64_t m data) in
  let q := fst (unpack_int64_t m (data + 8)) in
  let v := q * 2 ^ 64 + Q in
  decimal128_to_pystring m data scale =
    Some (Some (PyUnicode
            (if (0 <? scale)%nat
             then format_d (v / 10 ^ Z.of_nat scale) ++ "."
                  ++ format_0wd scale (v mod 10 ^ Z.of_nat scale)
             else format_d v)), (data + 16)%nat).
Proof.
  intros Q q v. unfold decimal128_to_pystring.
  pose proof (unpack_uint64_t_range m data) as HQ. fold Q in HQ.
  unfold unpack_uint64_t, unpack_int64_t, unpack_unsigned, unpack_signed in *.
  cbn [fst] in *. subst v q Q.
  rewrite lor_shiftl_64 by exact HQ.
  replace (data + 8 + 8)%nat with (data + 16)%nat by lia.
  destruct (0 <? scale)%nat; reflexivity.
Qed.

Lemma unpack_signed_range (w : nat) (m : memory) (p : nat) :
  (0 < w)%nat ->
  min_signed (8 * Z.of_nat w) <= fst (unpack_signed w m p)
    <= max_signed (8 * Z.of_nat w).
Proof.
  intro Hw. unfold unpack_signed. cbn [fst].
  apply wrap_signed_range. lia.
Qed.

(** The fixed-width paths, from the bytes at the cursor: with a scale
    whose power of ten fits the width, the text is the specified one and
    the cursor moves by the width. *)
Lemma decimal_to_pystring_fixed (m : memory) (data len scale : nat) :
  In len [1; 2; 4; 8]%nat ->
  (0 < scale)%nat ->
  10 ^ Z.of_nat scale <= max_signed (8 * Z.of_nat len) ->
  decimal_to_pystring m data len scale =
    Some (Some (PyUnicode
                  (spec_decimal_text (fst (unpack_signed len m data)) scale)),
          (data + len)%nat).
Proof.
  intros Hlen Hs Hp.
  assert (Hbody :
    with_cursor (snd (unpack_signed len m data))
      (decimal_scaled (8 * Z.of_nat len) (fst (unpack_signed len m data)) scale)
    = Some (Some (PyUnicode
                    (spec_decimal_text (fst (unpack_signed len m data)) scale)),
            (data + len)%nat)).
  { rewrite decimal_scaled_renders; [ reflexivity | | | exact Hs | exact Hp ].
    - simpl in Hlen. lia.
    - apply unpack_signed_range. simpl in Hlen. lia. }
  simpl in Hlen.
  destruct Hlen as [<- | [<- | [<- | [<- | []]]]]; exact Hbody.
Qed.

(** The 16-byte path renders the specified text when the value is not
    negative. *)
Lemma decimal128_nonneg_renders (m : memory) (data scale : nat) :
  let v := fst (unpack_int64_t m (data + 8)) * 2 ^ 64
           + fst (unpack_uint64_t m data) in
  (0 < scale)%nat -> 0 <= v ->
  decimal128_to_pystring m data scale =
    Some (Some (PyUnicode (spec_decimal_text v scale)), (data + 16)%nat).
Proof.
  intros v Hs Hv. rewrite decimal128_to_pystring_eq. fold v.
  rewrite (proj2 (Nat.ltb_lt 0 scale) Hs).
  pose proof (pow10_ge_10 scale Hs) as H10.
  rewrite format_d_nonneg by (apply Z.div_pos; lia).
  rewrite format_0wd_nonneg by (apply Z.mod_pos_bound; lia).
  unfold spec_decimal_text. cbv zeta. rewrite (Z.abs_eq v) by exact Hv.
  destruct (Z.ltb_spec v 0); [ lia | reflexivity ].
Qed.

(** C1 (the code departs from it): the 16-byte path divides with Python's
    floor division and never takes the absolute value.  For a negative
    value [v] that is not a multiple of [10^scale] it prints the integer
    part [|v| / 10^scale + 1] and the fraction [10^scale - |v| % 10^scale]:
    the raw value -123 with scale 2 is rendered "-2.77" and -5 as "-1.95",
    where the specified text is "-1.23" and "-0.05".  The 2-byte path
    renders both as specified. *)
Theorem decimal128_negative_rendering :
  (forall (m : memory) (data scale : nat),
      let v := fst (unpack_int64_t m (data + 8)) * 2 ^ 64
               + fst (unpack_uint64_t m data) in
      let p := 10 ^ Z.of_nat scale in
      (0 < scale)%nat -> v < 0 -> Z.abs v mod p <> 0 ->
      decimal_to_pystring m data 16 scale =
        Some (Some (PyUnicode
                ("-" ++ decimal_digits (Z.abs v / p + 1) ++ "."
                 ++ format_0wd scale (p - Z.abs v mod p))), (data + 16)%nat))
  /\ decimal_to_pystring (mem_of_string (le_bytes 16 (-123))) 0 16 2 =
    Some (Some (PyUnicode "-2.77"), 16%nat)
  /\ spec_decimal_text (-123) 2 = "-1.23"
  /\ decimal_to_pystring (mem_of_string (le_bytes 16 (-5))) 0 16 2 =
    Some (Some (PyUnicode "-1.95"), 16%nat)
  /\ spec_decimal_text (-5) 2 = "-0.05"
  /\ decimal_to_pystring (mem_of_string (le_bytes 2 (-123))) 0 2 2 =
    Some (Some (PyUnicode "-1.23"), 2%nat)
  /\ decimal_to_pystring (mem_of_string (le_bytes 2 (-5))) 0 2 2 =
    Some (Some (PyUnicode "-0.05"), 2%nat).
Proof.
  split; [ | repeat split; vm_compute; reflexivity ].
  intros m data scale v p Hs Hv Hrem.
  change (decimal_to_pystring m data 16 scale)
    with (decimal128_to_pystring m data scale).
  rewrite decimal128_to_pystring_eq. fold v.
  rewrite (proj2 (Nat.ltb_lt 0 scale) Hs). fold p.
  pose proof (pow10_ge_10 scale Hs) as H10. fold p in H10.
  assert (Hq : v / p = - (Z.abs v / p + 1)).
  { replace v with (- Z.abs v) at 1 by lia.
    rewrite Z.div_opp_l_nz by (lia || exact Hrem). lia. }
  assert (Hr : v mod p = p - Z.abs v mod p).
  { replace v with (- Z.abs v) at 1 by lia.
    apply Z.mod_opp_l_nz; [ lia | exact Hrem ]. }
  rewrite Hq, Hr.
  assert (0 <= Z.abs v / p) by (apply Z.div_pos; lia).
  rewrite format_d_neg by lia.
  rewrite Z.opp_involutive. reflexivity.
Qed.

Lemma decimal128_negative_rendering_witness :
  decimal_to_pystring (mem_of_string (le_bytes 16 (-12345))) 0 16 3 =
    Some (Some (PyUnicode "-13.655"), 16%nat).
Proof.
  exact (proj1 decimal128_negative_rendering
           (mem_of_string (le_bytes 16 (-12345))) 0%nat 3%nat
           ltac:(lia) ltac:(vm_compute; reflexivity)
           ltac:(vm_compute; discriminate)).
Defined.



(** ** Decimals: the float path *)

Lemma decimal_to_pystring_supported (m : memory) (data len scale : nat) :
  In len [1; 2; 4; 8; 16]%nat ->
  if scale_representable len scale
  then exists text,
      decimal_to_pystring m data len scale =
        Some (Some (PyUnicode text), (data + len)%nat)
  else decimal_to_pystring m data len scale = None.
Proof.
  intro Hlen. unfold scale_representable.
  destruct scale as [| k].
  - cbn [Nat.eqb orb]. simpl in Hlen.
    destruct Hlen as [<- | [<- | [<- | [<- | [<- | []]]]]];
      eexists; try reflexivity.
    change (decimal_to_pystring m data 16 0)
      with (decimal128_to_pystring m data 0).
    rewrite decimal128_to_pystring_eq. reflexivity.
  - cbn [Nat.eqb orb].
    assert (H16 : len = 16%nat \/ In len [1; 2; 4; 8]%nat)
      by (simpl in *; intuition).
    destruct H16 as [-> | Hfix].
    + cbn [Nat.eqb orb]. eexists.
      change (decimal_to_pystring m data 16 (S k))
        with (decimal128_to_pystring m data (S k)).
      rewrite decimal128_to_pystring_eq. reflexivity.
    + assert (Hne : (len =? 16)%nat = false)
        by (simpl in Hfix; destruct Hfix as [<- | [<- | [<- | [<- | []]]]];
            reflexivity).
      rewrite Hne. cbn [orb].
      destruct (Z.leb_spec (10 ^ Z.of_nat (S k)) (max_signed (8 * Z.of_nat len)))
        as [Hp | Hp].
      * eexists. apply decimal_to_pystring_fixed; [ exact Hfix | lia | exact Hp ].
      * apply Z.leb_gt in Hp. simpl in Hfix.
        destruct Hfix as [<- | [<- | [<- | [<- | []]]]];
          [ change (8 * Z.of_nat 1) with 8 in Hp
          | change (8 * Z.of_nat 2) with 16 in Hp
          | change (8 * Z.of_nat 4) with 32 in Hp
          | change (8 * Z.of_nat 8) with 64 in Hp ];
          unfold decimal_to_pystring, decimal8_to_pystring,
            decimal16_to_pystring, decimal32_to_pystring,
            decimal64_to_pystring, unpack_int8_t, unpack_int16_t,
            unpack_int32_t, unpack_int64_t, unpack_signed, decimal_scaled,
            cast_pow10;
          cbn [Nat.ltb Nat.leb]; rewrite Hp; reflexivity.
Qed.

(** C10: for every supported width, the float decode is the parse of the
    very text the string decode renders from the same bytes, with the same
    cursor; for a scale the width cannot serve both are undefined alike.
    This holds for any float parser. *)
Theorem decimal_to_pyfloat_agrees (PyFloat : Type)
  (PyFloat_FromString : PyObject -> option PyFloat)
  (m : memory) (data len scale : nat) :
  In len [1; 2; 4; 8; 16]%nat ->
  if scale_representable len scale
  then exists text,
      decimal_to_pystring m data len scale =
        Some (Some (PyUnicode text), (data + len)%nat)
      /\ decimal_to_pyfloat PyFloat PyFloat_FromString m data len scale =
        Some (PyFloat_FromString (PyUnicode text), (data + len)%nat)
  else decimal_to_pystring m data len scale = None
       /\ decimal_to_pyfloat PyFloat PyFloat_FromString m data len scale = None.
Proof.
  intro Hlen.
  pose proof (decimal_to_pystring_supported m data len scale Hlen) as H.
  unfold decimal_to_pyfloat.
  destruct (scale_representable len scale).
  - destruct H as [text H]. exists text. rewrite H. split; reflexivity.
  - rewrite H. split; reflexivity.
Qed.

Lemma decimal_to_pyfloat_agrees_witness :
  exists text,
    decimal_to_pystring (mem_of_string (le_bytes 2 (-123))) 0 2 2 =
      Some (Some (PyUnicode text), 2%nat)
    /\ decimal_to_pyfloat string literal_of
         (mem_of_string (le_bytes 2 (-123))) 0 2 2 =
      Some (literal_of (PyUnicode text), 2%nat).
Proof.
  exact (decimal_to_pyfloat_agrees string literal_of
           (mem_of_string (le_bytes 2 (-123))) 0%nat 2%nat 2%nat
           (or_intror (or_introl eq_refl))).
Defined.

(** ** Character encode *)

Lemma append_empty_r (s : string) : s ++ "" = s.
Proof. induction s as [| b r IH]; simpl; [ | rewrite IH ]; reflexivity. Qed.

Lemma append_assoc (s t u : string) : (s ++ t) ++ u = s ++ t ++ u.
Proof. induction s as [| b r IH]; simpl; [ | rewrite IH ]; reflexivity. Qed.

Lemma char_source_temp (item : PyObject) (s : string) :
  char_source item s ->
  match item with
  | PyUnicode u => PyUnicode_AsASCIIString u
  | PyBytes b => Some b
  | _ => None
  end = Some s.
Proof.
  intros [[-> Hascii] | ->]; [ | reflexivity ].
  unfold PyUnicode_AsASCIIString. now rewrite Hascii.
Qed.

(** A source that fits its field: the source bytes, then spaces up to the
    field width. *)
Lemma pystring_to_char_pads (item : PyObject) (s : string)
  (column_length : nat) (o : outbuf) :
  char_source item s ->
  (String.length s <= column_length)%nat ->
  Z.of_nat column_length <= max_signed 32 ->
  let fill := (column_length - String.length s)%nat in
  pystring_to_char item column_length o =
    Some {| ret := Some PyNone;
            out := {| written := written o ++ s ++ replicate fill " "%char;
                      len := uint16_t (len o + Z.of_nat column_length) |};
            raised := None |}
  /\ String.length (s ++ replicate fill " "%char) = column_length.
Proof.
  intros Hsrc Hlen Hmax fill. split.
  - unfold pystring_to_char. rewrite (char_source_temp item s Hsrc).
    unfold int32_t. rewrite wrap_signed_fits;
      [ | lia | unfold min_signed, max_signed in *; cbn in *; lia ].
    replace (Z.to_nat (Z.of_nat column_length - Z.of_nat (String.length s)))
      with fill by (subst fill; lia).
    unfold add_len, store. cbn [written len]. rewrite append_assoc. reflexivity.
  - rewrite append_length, replicate_length. subst fill. lia.
Qed.

(** C7 (the code departs from it): a source longer than the field is not
    refused.  Every source byte is stored, so the cursor runs past the
    field, no space is added, the counter still grows by the field width,
    and the routine returns None with no exception pending. *)
Theorem pystring_to_char_overlong (item : PyObject) (s : string)
  (column_length : nat) (o : outbuf) :
  char_source item s ->
  (column_length < String.length s)%nat ->
  Z.of_nat (String.length s) <= max_signed 32 ->
  pystring_to_char item column_length o =
    Some {| ret := Some PyNone;
            out := {| written := written o ++ s;
                      len := uint16_t (len o + Z.of_nat column_length) |};
            raised := None |}.
Proof.
  intros Hsrc Hlen Hmax.
  unfold pystring_to_char. rewrite (char_source_temp item s Hsrc).
  unfold int32_t. rewrite wrap_signed_fits;
    [ | lia | unfold min_signed, max_signed in *; cbn in *; lia ].
  replace (Z.to_nat (Z.of_nat column_length - Z.of_nat (String.length s)))
    with 0%nat by lia.
  unfold add_len, store. cbn [written len replicate].
  rewrite append_empty_r. reflexivity.
Qed.

Lemma pystring_to_char_overlong_witness :
  pystring_to_char (PyUnicode "ABCDEF") 5 empty_out =
    Some {| ret := Some PyNone;
            out := {| written := "ABCDEF"; len := 5 |};
            raised := None |}.
Proof.
  exact (pystring_to_char_overlong (PyUnicode "ABCDEF") "ABCDEF" 5 empty_out
           (or_introl (conj eq_refl eq_refl))
           ltac:(simpl; lia)
           ltac:(vm_compute; discriminate)).
Defined.

Example pystring_to_char_AB :
  pystring_to_char (PyUnicode "AB") 5 empty_out =
    Some {| ret := Some PyNone;
            out := {| written := "AB   "; len := 5 |};
            raised := None |}.
Proof. reflexivity. Qed.

(** ** Decimal encode *)

(** C8 (the code departs from it): whatever the width of the descriptor,
    a decimal encode that returns stores exactly 8 bytes, the 64-bit
    value, while the counter grows by the descriptor's width. *)
Theorem pystring_to_decimal_stores_8 (pad : byte) (item : PyObject)
  (column_length column_scale : nat) (o : outbuf) (r : outcome) :
  pystring_to_decimal pad item column_length column_scale o = Some r ->
  ret r <> None ->
  String.length (written (out r)) = (String.length (written o) + 8)%nat
  /\ len (out r) = uint16_t (len o + Z.of_nat column_length).
Proof.
  unfold pystring_to_decimal. intros H Hret.
  destruct item as [u | | | | | ];
    try (injection H as <-; cbn [ret] in Hret; congruence).
  destruct (match PyUnicode_Split_1 dot u with
            | [a] => (PyUnicode_AsUTF8 a, "")
            | [a; b] => (PyUnicode_AsUTF8 a, PyUnicode_AsUTF8 b)
            | _ => ("", "")
            end) as [x y].
  destruct (DBUF_SIZE <=? String.length (x ++ format_0ws pad column_scale y))%nat;
    [ discriminate | ].
  destruct (PyLong_AsLongLong (PyLong_FromString
              (x ++ format_0ws pad column_scale y))) as [q e].
  injection H as <-. cbn [out written len add_len pack_int64_t store].
  rewrite append_length, le_bytes_length. split; reflexivity.
Qed.

Lemma pystring_to_decimal_stores_8_witness :
  let r := {| ret := Some PyNone;
              out := {| written := le_bytes 8 1; len := 4 |};
              raised := None |} in
  pystring_to_decimal " "%char (PyUnicode "1") 4 0 empty_out = Some r
  /\ String.length (written (out r)) = 8%nat
  /\ len (out r) = 4.
Proof.
  exact (conj eq_refl
           (pystring_to_decimal_stores_8 " "%char (PyUnicode "1") 4 0 empty_out
              {| ret := Some PyNone;
                 out := {| written := le_bytes 8 1; len := 4 |};
                 raised := None |}
              eq_refl ltac:(discriminate))).
Defined.

(** C9 (the code departs from it): text is never refused.  The split
    stops at the first point, so there are never more than two parts; a
    text the integer parser rejects leaves NULL, which is read as -1, and
    the routine still stores 8 bytes and returns None.  "1.2.3" and "12a"
    store -1 with a SystemError pending; " 12" is accepted as 12. *)
Theorem pystring_to_decimal_never_rejects :
  (forall (pad : byte) (u : string) (column_length column_scale : nat)
          (o : outbuf),
      (List.length (PyUnicode_Split_1 dot u) <= 2)%nat
      /\ match pystring_to_decimal pad (PyUnicode u) column_length
                 column_scale o with
         | Some r =>
           ret r = Some PyNone
           /\ exists q, written (out r) = written o ++ le_bytes 8 q
         | None => True
         end)
  /\ (forall pad : byte,
         pystring_to_decimal pad (PyUnicode "1.2.3") 8 0 empty_out =
           Some {| ret := Some PyNone;
                   out := {| written := le_bytes 8 (-1); len := 8 |};
                   raised := Some SystemError |})
  /\ (forall pad : byte,
         pystring_to_decimal pad (PyUnicode "12a") 8 0 empty_out =
           Some {| ret := Some PyNone;
                   out := {| written := le_bytes 8 (-1); len := 8 |};
                   raised := Some SystemError |})
  /\ (forall pad : byte,
         pystring_to_decimal pad (PyUnicode " 12") 8 0 empty_out =
           Some {| ret := Some PyNone;
                   out := {| written := le_bytes 8 12; len := 8 |};
                   raised := None |}).
Proof.
  split; [ | repeat split; intro pad; vm_compute; reflexivity ].
  intros pad u column_length column_scale o. split.
  - unfold PyUnicode_Split_1. destruct (split_first dot u) as [a [b | ]];
      simpl; lia.
  - unfold pystring_to_decimal.
    destruct (match PyUnicode_Split_1 dot u with
              | [a] => (PyUnicode_AsUTF8 a, "")
              | [a; b] => (PyUnicode_AsUTF8 a, PyUnicode_AsUTF8 b)
              | _ => ("", "")
              end) as [x y].
    destruct (DBUF_SIZE <=? String.length (x ++ format_0ws pad column_scale y))%nat;
      [ exact I | ].
    destruct (PyLong_AsLongLong (PyLong_FromString
                (x ++ format_0ws pad column_scale y))) as [q e].
    cbn [ret out written add_len pack_int64_t store].
    split; [ reflexivity | exists q; reflexivity ].
Qed.

(** ** The decimal printer against the integer parser *)

Lemma is_digit_not_nul (b : byte) : is_digit b = true -> (b =? zero)%char = false.
Proof.
  intro H. destruct (Ascii.eqb_spec b zero) as [-> | ]; [ | reflexivity ].
  vm_compute in H. discriminate.
Qed.

Lemma c_string_digits (s : string) :
  all_bytes is_digit s = true -> c_string s = s.
Proof.
  induction s as [| b r IH]; [ reflexivity | ].
  cbn [all_bytes c_string]. intro H. apply andb_true_iff in H as [Hb Hr].
  now rewrite (is_digit_not_nul b Hb), (IH Hr).
Qed.

Lemma digits_fuel_S (f : nat) (n : Z) (acc : string) :
  digits_fuel (S f) n acc =
    if n / 10 =? 0 then String (digit_char (n mod 10)) acc
    else digits_fuel f (n / 10) (String (digit_char (n mod 10)) acc).
Proof. reflexivity. Qed.

(** Reading back the digits that [digits_fuel] puts before [acc]. *)
Lemma scan_digits_fuel (fuel : nat) :
  forall (n : Z) (acc : string),
    0 <= n < 2 ^ Z.of_nat (S fuel) ->
    exists k : Z, 0 <= k /\ forall (seen us : bool) (a : Z),
      scan_digits (digits_fuel (S fuel) n acc) seen us a =
      scan_digits acc true false (a * 10 ^ k + n).
Proof.
  induction fuel as [| f IH]; intros n acc Hn.
  - exists 1. split; [ lia | ]. intros seen us a.
    change (2 ^ Z.of_nat 1) with 2 in Hn.
    cbn [digits_fuel]. rewrite (Z.div_small n 10) by lia. cbn [Z.eqb].
    cbn [scan_digits]. rewrite digit_char_is_digit.
    rewrite digit_char_val by (apply Z.mod_pos_bound; lia).
    rewrite Z.mod_small by lia. f_equal. lia.
  - rewrite digits_fuel_S. destruct (Z.eqb_spec (n / 10) 0) as [Hz | Hnz].
    + exists 1. split; [ lia | ]. intros seen us a.
      cbn [scan_digits]. rewrite digit_char_is_digit.
      rewrite digit_char_val by (apply Z.mod_pos_bound; lia).
      assert (n < 10).
      { destruct (Z.lt_ge_cases n 10) as [ | Hge]; [ assumption | ].
        pose proof (Z.div_le_mono 10 n 10 ltac:(lia) Hge) as Hd.
        change (10 / 10) with 1 in Hd. lia. }
      rewrite Z.mod_small by lia. f_equal. lia.
    + assert (Hq : 0 <= n / 10 < 2 ^ Z.of_nat (S f)).
      { split; [ apply Z.div_pos; lia | ].
        apply Z.div_lt_upper_bound; [ lia | ].
        replace (Z.of_nat (S (S f))) with (1 + Z.of_nat (S f)) in Hn by lia.
        rewrite Z.pow_add_r in Hn by lia. change (2 ^ 1) with 2 in Hn.
        assert (0 < 2 ^ Z.of_nat (S f)) by (apply Z.pow_pos_nonneg; lia).
        lia. }
      destruct (IH (n / 10) (String (digit_char (n mod 10)) acc) Hq)
        as [k [Hk Hscan]].
      exists (k + 1). split; [ lia | ]. intros seen us a.
      rewrite Hscan. cbn [scan_digits]. rewrite digit_char_is_digit.
      rewrite digit_char_val by (apply Z.mod_pos_bound; lia).
      f_equal. rewrite Z.pow_add_r by lia. change (10 ^ 1) with 10.
      pose proof (Z.div_mod n 10 ltac:(lia)). lia.
Qed.

Lemma scan_decimal_digits (n : Z) :
  0 <= n -> scan_digits (decimal_digits n) false false 0 = Some (n, "").
Proof.
  intro Hn. unfold decimal_digits.
  destruct (scan_digits_fuel (Z.to_nat (Z.log2 n)) n "") as [k [_ Hscan]].
  - split; [ exact Hn | ].
    destruct (Z.eq_dec n 0) as [-> | Hnz]; [ reflexivity | ].
    rewrite Nat2Z.inj_succ, Z2Nat.id by apply Z.log2_nonneg.
    apply Z.log2_spec. lia.
  - rewrite Hscan. reflexivity.
Qed.

Lemma digit_first (c : byte) (r : string) :
  is_digit c = true ->
  skip_space (String c r) = String c r
  /\ split_sign (String c r) = (1, String c r).
Proof.
  intro Hc.
  destruct c as [[] [] [] [] [] [] [] []]; vm_compute in Hc;
    try discriminate; split; reflexivity.
Qed.

(** Parsing the text printed for an integer gives the integer back. *)
Lemma PyLong_FromString_format_d (z : Z) : PyLong_FromString (format_d z) = Some z.
Proof.
  unfold PyLong_FromString.
  destruct (Z.lt_ge_cases z 0) as [Hneg | Hpos].
  - rewrite format_d_neg by exact Hneg.
    change ("-" ++ decimal_digits (- z))
      with (String "-"%char (decimal_digits (- z))).
    change (c_string (String "-"%char (decimal_digits (- z))))
      with (String "-"%char (c_string (decimal_digits (- z)))).
    rewrite c_string_digits by apply decimal_digits_digits.
    change (skip_space (String "-"%char (decimal_digits (- z))))
      with (String "-"%char (decimal_digits (- z))).
    change (split_sign (String "-"%char (decimal_digits (- z))))
      with (-1, decimal_digits (- z)).
    cbv iota beta zeta.
    rewrite scan_decimal_digits by lia. cbn [skip_space]. f_equal. lia.
  - rewrite format_d_nonneg by lia.
    rewrite c_string_digits by apply decimal_digits_digits.
    pose proof (decimal_digits_digits z) as Hd.
    pose proof (scan_decimal_digits z ltac:(lia)) as Hs.
    destruct (decimal_digits z) as [| c r] eqn:E.
    + cbn in Hs. discriminate.
    + cbn [all_bytes] in Hd. apply andb_true_iff in Hd as [Hc _].
      destruct (digit_first c r Hc) as [Hskip Hsign].
      rewrite Hskip, Hsign. cbv iota beta zeta.
      rewrite Hs. cbn [skip_space]. f_equal. lia.
Qed.

(** * Further properties of the codec *)

(** ** Memory built from a byte string *)

Lemma read_bytes_mem_shift (c : byte) (r : string) (p n : nat) :
  read_bytes (mem_of_string (String c r)) (S p) n =
  read_bytes (mem_of_string r) p n.
Proof.
  revert p. induction n as [| k IH]; intro p; [ reflexivity | ].
  cbn [read_bytes]. rewrite IH. reflexivity.
Qed.

Lemma read_bytes_mem_prefix (s t : string) :
  read_bytes (mem_of_string (s ++ t)) 0 (String.length s) = s.
Proof.
  induction s as [| c r IH]; [ reflexivity | ].
  cbn [append String.length read_bytes].
  rewrite read_bytes_mem_shift, IH. reflexivity.
Qed.

(** The bytes stored after [a] are read back at the address [|a|]. *)
Lemma read_bytes_mem_at (a s t : string) :
  read_bytes (mem_of_string (a ++ s ++ t)) (String.length a) (String.length s)
  = s.
Proof.
  induction a as [| c r IH].
  - exact (read_bytes_mem_prefix s t).
  - cbn [append String.length]. rewrite read_bytes_mem_shift. exact IH.
Qed.

Lemma read_bytes_mem_end (a s : string) :
  read_bytes (mem_of_string (a ++ s)) (String.length a) (String.length s) = s.
Proof.
  rewrite <- (append_empty_r s) at 1. apply read_bytes_mem_at.
Qed.

(** ** Integers: encode and decode *)

Lemma PyLong_AsLong_fits (z : Z) :
  min_signed 64 <= z <= max_signed 64 -> PyLong_AsLong (Some z) = (z, None).
Proof.
  intro Hz. unfold PyLong_AsLong, PyLong_AsLongLong, fits_signed.
  destruct Hz as [Hlo Hhi].
  apply Z.leb_le in Hlo. apply Z.leb_le in Hhi. now rewrite Hlo, Hhi.
Qed.

Lemma PyLong_AsLong_overflow (z : Z) :
  ~ (min_signed 64 <= z <= max_signed 64) ->
  PyLong_AsLong (Some z) = (-1, Some OverflowError).
Proof.
  intro Hz. unfold PyLong_AsLong, PyLong_AsLongLong, fits_signed.
  destruct (Z.leb_spec (min_signed 64) z);
    destruct (Z.leb_spec z (max_signed 64)); try reflexivity.
  exfalso. apply Hz. split; assumption.
Qed.

(** An int that fits a C long is always stored, narrowed to the width. *)
Lemma pylong_pack_stores (bits : Z) (pack : outbuf -> Z -> outbuf) (z : Z)
  (column_length : nat) (o : outbuf) :
  min_signed 64 <= z <= max_signed 64 ->
  pylong_pack bits pack (PyLong z) column_length o =
    {| ret := Some PyNone;
       out := add_len (pack o (wrap_signed bits z)) column_length;
       raised := None |}.
Proof.
  intro Hz. unfold pylong_pack. rewrite (PyLong_AsLong_fits z Hz).
  rewrite andb_false_r. reflexivity.
Qed.

(** The bytes appended by a store of width [w] are read back as the
    stored value. *)
Lemma unpack_signed_stored (w : nat) (o : outbuf) (v : Z) (n : nat) :
  (0 < w)%nat ->
  min_signed (8 * Z.of_nat w) <= v <= max_signed (8 * Z.of_nat w) ->
  unpack_signed w
    (mem_of_string (written (add_len (store o (le_bytes w v)) n)))
    (String.length (written o)) = (v, (String.length (written o) + w)%nat).
Proof.
  intros Hw Hv. apply unpack_signed_le_bytes; [ exact Hw | exact Hv | ].
  cbn [add_len store written].
  rewrite <- (le_bytes_length w v) at 2. apply read_bytes_mem_end.
Qed.

Lemma integer_codecs_shape enc dec (w : nat) :
  In (enc, dec, w) integer_codecs ->
  (0 < w)%nat /\ 8 * Z.of_nat w <= 64
  /\ enc = pylong_pack (8 * Z.of_nat w) (fun o v => store o (le_bytes w v))
  /\ forall m data,
      dec m data =
        (Some (PyLong (fst (unpack_signed w m data))), (data + w)%nat).
Proof.
  unfold integer_codecs. cbn [In].
  intros [H | [H | [H | [H | []]]]]; injection H as <- <- <-;
    (split; [ lia | split; [ lia | split; [ reflexivity | ] ] ]);
    intros m data; try reflexivity.
  unfold long_to_pylong, unpack_int64_t, unpack_signed, int64_t, PyLong_FromLong.
  cbn [fst]. rewrite wrap_signed_fits; [ reflexivity | lia | ].
  apply wrap_signed_range. lia.
Qed.

(** X1: an int within the range of the field's width is stored as the
    [w] little-endian bytes of its value, with None returned and no
    exception, and the matching decode routine reads the same int back
    from the bytes stored, leaving the cursor after them. *)
Theorem integer_round_trip enc dec (w : nat) (z : Z) (column_length : nat)
  (o : outbuf) :
  In (enc, dec, w) integer_codecs ->
  min_signed (8 * Z.of_nat w) <= z <= max_signed (8 * Z.of_nat w) ->
  let r := enc (PyLong z) column_length o in
  r = {| ret := Some PyNone;
         out := {| written := written o ++ le_bytes w z;
                   len := uint16_t (len o + Z.of_nat column_length) |};
         raised := None |}
  /\ dec (mem_of_string (written (out r))) (String.length (written o)) =
       (Some (PyLong z), (String.length (written o) + w)%nat).
Proof.
  intros Hin Hz r.
  destruct (integer_codecs_shape enc dec w Hin) as [Hw [H64 [Henc Hdec]]].
  assert (Hr : r = {| ret := Some PyNone;
                      out := add_len (store o (le_bytes w z)) column_length;
                      raised := None |}).
  { subst r. rewrite Henc, pylong_pack_stores.
    - rewrite wrap_signed_fits by (lia || exact Hz). reflexivity.
    - assert (min_signed 64 <= min_signed (8 * Z.of_nat w)
              /\ max_signed (8 * Z.of_nat w) <= max_signed 64).
      { unfold min_signed, max_signed.
        assert (2 ^ (8 * Z.of_nat w - 1) <= 2 ^ (64 - 1))
          by (apply Z.pow_le_mono_r; lia).
        lia. }
      lia. }
  split; [ exact Hr | ].
  rewrite Hdec, Hr. cbn [out].
  rewrite (unpack_signed_stored w o z column_length Hw Hz). reflexivity.
Qed.

Lemma integer_round_trip_witness :
  let r := pylong_to_short (PyLong (-2)) 2 empty_out in
  r = {| ret := Some PyNone;
         out := {| written := le_bytes 2 (-2); len := 2 |};
         raised := None |}
  /\ short_to_pylong (mem_of_string (written (out r))) 0 =
       (Some (PyLong (-2)), 2%nat).
Proof.
  exact (integer_round_trip pylong_to_short short_to_pylong 2 (-2) 2 empty_out
           (or_intror (or_introl eq_refl))
           ltac:(vm_compute; split; discriminate)).
Defined.

(** X2: an int that fits a C long but not the field is not refused: it is
    narrowed to the width, the narrowed value is stored with None returned
    and no exception, and the decode reads back the narrowed value, which
    differs from the int given. *)
Theorem integer_encode_wraps enc dec (w : nat) (z : Z) (column_length : nat)
  (o : outbuf) :
  In (enc, dec, w) integer_codecs ->
  min_signed 64 <= z <= max_signed 64 ->
  let r := enc (PyLong z) column_length o in
  let b := wrap_signed (8 * Z.of_nat w) z in
  r = {| ret := Some PyNone;
         out := {| written := written o ++ le_bytes w b;
                   len := uint16_t (len o + Z.of_nat column_length) |};
         raised := None |}
  /\ dec (mem_of_string (written (out r))) (String.length (written o)) =
       (Some (PyLong b), (String.length (written o) + w)%nat)
  /\ (~ (min_signed (8 * Z.of_nat w) <= z <= max_signed (8 * Z.of_nat w)) ->
      b <> z).
Proof.
  intros Hin Hz r b.
  destruct (integer_codecs_shape enc dec w Hin) as [Hw [H64 [Henc Hdec]]].
  pose proof (wrap_signed_range (8 * Z.of_nat w) z ltac:(lia)) as Hb. fold b in Hb.
  assert (Hr : r = {| ret := Some PyNone;
                      out := add_len (store o (le_bytes w b)) column_length;
                      raised := None |}).
  { subst r. rewrite Henc, pylong_pack_stores by exact Hz. reflexivity. }
  split; [ exact Hr | ]. split.
  - rewrite Hdec, Hr. cbn [out].
    rewrite (unpack_signed_stored w o b column_length Hw Hb). reflexivity.
  - intros Hout Heq. apply Hout. rewrite <- Heq. exact Hb.
Qed.

Lemma integer_encode_wraps_witness :
  let r := pylong_to_short (PyLong 70000) 2 empty_out in
  r = {| ret := Some PyNone;
         out := {| written := le_bytes 2 4464; len := 2 |};
         raised := None |}
  /\ short_to_pylong (mem_of_string (written (out r))) 0 =
       (Some (PyLong 4464), 2%nat)
  /\ (~ (min_signed 16 <= 70000 <= max_signed 16) -> 4464 <> 70000).
Proof.
  exact (integer_encode_wraps pylong_to_short short_to_pylong 2 70000 2
           empty_out (or_intror (or_introl eq_refl))
           ltac:(vm_compute; split; discriminate)).
Defined.

Lemma pylong_pack_entry_none (bits : Z) (pack : outbuf -> Z -> outbuf)
  (item : PyObject) (column_length : nat) (o : outbuf) :
  pylong_pack_entry None bits pack item column_length o =
  pylong_pack bits pack item column_length o.
Proof.
  unfold pylong_pack_entry, pylong_pack.
  destruct item as [u | s | z | | | ]; try reflexivity.
  destruct (PyLong_AsLong (Some z)) as [v [e | ]]; reflexivity.
Qed.

Lemma integer_encoders_shape entry enc (w : nat) :
  In (entry, enc, w) integer_encoders ->
  (0 < w)%nat /\ 8 * Z.of_nat w <= 64
  /\ entry = (fun pending =>
                pylong_pack_entry pending (8 * Z.of_nat w)
                  (fun o v => store o (le_bytes w v)))
  /\ enc = pylong_pack (8 * Z.of_nat w) (fun o v => store o (le_bytes w v)).
Proof.
  unfold integer_encoders. cbn [In].
  intros [H | [H | [H | [H | []]]]]; injection H as <- <- <-;
    (split; [ lia | split; [ lia | split; reflexivity ] ]).
Qed.

Lemma wrap_signed_minus_1 (bits : Z) : 0 < bits -> wrap_signed bits (-1) = -1.
Proof.
  intro Hb. apply wrap_signed_fits; [ lia | ].
  unfold min_signed, max_signed.
  assert (2 ^ 0 <= 2 ^ (bits - 1)) by (apply Z.pow_le_mono_r; lia).
  change (2 ^ 0) with 1 in *. lia.
Qed.

(** X3: the integer encode routines return NULL in exactly three cases,
    and store nothing then: the item is not an int (the routine sets no
    exception), the int does not fit a C long (OverflowError is pending),
    or an exception was already pending at entry and the int narrowed to
    the width is -1.  Entered with no exception pending, as the routines
    of the other properties are, that leaves exactly the first two; in
    every other case the narrowed value is stored and None returned. *)
Theorem integer_encode_null_cases entry enc (w : nat)
  (pending : option PyExc) (item : PyObject) (column_length : nat)
  (o : outbuf) :
  In (entry, enc, w) integer_encoders ->
  let r := entry pending item column_length o in
  entry None item column_length o = enc item column_length o
  /\ (ret r = None <->
      match item with
      | PyLong z =>
        ~ (min_signed 64 <= z <= max_signed 64)
        \/ (pending <> None /\ wrap_signed (8 * Z.of_nat w) z = -1)
      | _ => True
      end)
  /\ (ret r = None ->
      out r = o
      /\ raised r = match item with
                    | PyLong z =>
                      if fits_signed 64 z then pending else Some OverflowError
                    | _ => pending
                    end)
  /\ (ret r <> None ->
      exists z, item = PyLong z
        /\ r = {| ret := Some PyNone;
                  out := {| written := written o
                                       ++ le_bytes w (wrap_signed (8 * Z.of_nat w) z);
                            len := uint16_t (len o + Z.of_nat column_length) |};
                  raised := pending |}).
Proof.
  intros Hin r.
  destruct (integer_encoders_shape entry enc w Hin) as [Hw [H64 [He Hc]]].
  subst r. rewrite He, Hc. clear He Hc Hin entry enc.
  split; [ apply pylong_pack_entry_none | ].
  unfold pylong_pack_entry.
  destruct item as [u | s | z | | | ];
    try (split; [ split; [ intros _; exact I | reflexivity ]
                | split; [ intros _; split; reflexivity
                         | intro H; exfalso; apply H; reflexivity ] ]).
  destruct (Z.leb_spec (min_signed 64) z) as [Hlo | Hlo];
    [ destruct (Z.leb_spec z (max_signed 64)) as [Hhi | Hhi] | ].
  - rewrite (PyLong_AsLong_fits z (conj Hlo Hhi)).
    assert (Hf : fits_signed 64 z = true).
    { unfold fits_signed. apply andb_true_iff.
      split; apply Z.leb_le; assumption. }
    rewrite Hf. cbv zeta.
    destruct (Z.eqb_spec (wrap_signed (8 * Z.of_nat w) z) (-1)) as [Eb | Eb];
      destruct pending as [x | ]; cbn [andb ret out raised].
    + split; [ split; [ intros _; right; split; [ discriminate | exact Eb ]
                      | reflexivity ] | ].
      split; [ intros _; split; reflexivity | ].
      intro H; exfalso; apply H; reflexivity.
    + split; [ split; [ discriminate | intros [H | [H _]];
                        [ exfalso; apply H; split; assumption
                        | exfalso; apply H; reflexivity ] ] | ].
      split; [ discriminate | ]. intros _. exists z. split; reflexivity.
    + split; [ split; [ discriminate | intros [H | [_ H]];
                        [ exfalso; apply H; split; assumption
                        | contradiction ] ] | ].
      split; [ discriminate | ]. intros _. exists z. split; reflexivity.
    + split; [ split; [ discriminate | intros [H | [_ H]];
                        [ exfalso; apply H; split; assumption
                        | contradiction ] ] | ].
      split; [ discriminate | ]. intros _. exists z. split; reflexivity.
  - assert (Hz : ~ (min_signed 64 <= z <= max_signed 64)) by lia.
    rewrite (PyLong_AsLong_overflow z Hz).
    assert (Hf : fits_signed 64 z = false).
    { unfold fits_signed. apply andb_false_iff. right. apply Z.leb_gt. lia. }
    rewrite Hf. cbv zeta. rewrite wrap_signed_minus_1 by lia.
    cbn [Z.eqb Pos.eqb andb ret out raised].
    split; [ split; [ intros _; left; exact Hz | reflexivity ] | ].
    split; [ intros _; split; reflexivity | ].
    intro H; exfalso; apply H; reflexivity.
  - assert (Hz : ~ (min_signed 64 <= z <= max_signed 64)) by lia.
    rewrite (PyLong_AsLong_overflow z Hz).
    assert (Hf : fits_signed 64 z = false).
    { unfold fits_signed. apply andb_false_iff. left. apply Z.leb_gt. lia. }
    rewrite Hf. cbv zeta. rewrite wrap_signed_minus_1 by lia.
    cbn [Z.eqb Pos.eqb andb ret out raised].
    split; [ split; [ intros _; left; exact Hz | reflexivity ] | ].
    split; [ intros _; split; reflexivity | ].
    intro H; exfalso; apply H; reflexivity.
Qed.

Lemma integer_encode_null_cases_witness :
  let r := pylong_pack_entry None 32 pack_int32_t (PyLong (2 ^ 63)) 4
             empty_out in
  ret r = None /\ out r = empty_out /\ raised r = Some OverflowError.
Proof.
  intro r.
  destruct (integer_encode_null_cases
              (fun pending => pylong_pack_entry pending 32 pack_int32_t)
              pylong_to_int 4 None (PyLong (2 ^ 63)) 4 empty_out
              (or_intror (or_intror (or_introl eq_refl))))
    as [_ [Hnull [Hout _]]].
  assert (H : ret r = None).
  { apply Hnull. left. intros [_ C]. vm_compute in C. apply C. reflexivity. }
  split; [ exact H | exact (Hout H) ].
Defined.

(** X4: the text and the int decoders of a width agree: on the same bytes
    they move the cursor alike, the text is the decimal form of the int,
    and parsing the text as a Python integer gives that int. *)
Theorem integer_text_agrees to_text to_int (m : memory) (data : nat) :
  In (to_text, to_int) integer_decoders ->
  exists (z : Z) (data' : nat),
    to_int m data = (Some (PyLong z), data')
    /\ to_text m data = (Some (PyUnicode (format_d z)), data')
    /\ PyLong_FromString (format_d z) = Some z.
Proof.
  unfold integer_decoders. cbn [In].
  intros [H | [H | [H | [H | []]]]]; injection H as <- <-.
  - eexists. eexists. repeat split. apply PyLong_FromString_format_d.
  - eexists. eexists. repeat split. apply PyLong_FromString_format_d.
  - eexists. eexists. repeat split. apply PyLong_FromString_format_d.
  - exists (fst (unpack_int64_t m data)), (data + 8)%nat.
    unfold long_to_pylong, long_to_pystring, unpack_int64_t, unpack_signed,
      int64_t, PyLong_FromLong, PyUnicode_FromFormat_d.
    cbn [fst]. rewrite wrap_signed_fits;
      [ | lia | apply wrap_signed_range; lia ].
    repeat split. apply PyLong_FromString_format_d.
Qed.

Lemma integer_text_agrees_witness :
  exists (z : Z) (data' : nat),
    short_to_pylong (mem_of_string (le_bytes 2 (-300))) 0 =
      (Some (PyLong z), data')
    /\ short_to_pystring (mem_of_string (le_bytes 2 (-300))) 0 =
      (Some (PyUnicode (format_d z)), data')
    /\ PyLong_FromString (format_d z) = Some z.
Proof.
  exact (integer_text_agrees short_to_pystring short_to_pylong
           (mem_of_string (le_bytes 2 (-300))) 0%nat
           (or_intror (or_introl eq_refl))).
Defined.

(** ** Runs of digits *)

Lemma digits_value_app (s t : string) (a : Z) :
  digits_value (s ++ t) a = digits_value t (digits_value s a).
Proof.
  revert a. induction s as [| c r IH]; intro a; [ reflexivity | ].
  cbn [append digits_value]. apply IH.
Qed.

Lemma digits_value_linear (s : string) (a : Z) :
  digits_value s a = a * 10 ^ Z.of_nat (String.length s) + digits_value s 0.
Proof.
  revert a. induction s as [| c r IH]; intro a.
  - cbn. lia.
  - cbn [digits_value String.length].
    rewrite (IH (10 * a + (byte_val c - 48))), (IH (10 * 0 + (byte_val c - 48))).
    rewrite Nat2Z.inj_succ, Z.pow_succ_r by lia. ring.
Qed.

Lemma digits_value_zeros (k : nat) (a : Z) :
  digits_value (replicate k "0"%char) a = a * 10 ^ Z.of_nat k.
Proof.
  revert a. induction k as [| k IH]; intro a.
  - cbn. lia.
  - cbn [replicate digits_value]. rewrite IH.
    change (byte_val "0"%char - 48) with 0.
    rewrite Nat2Z.inj_succ, Z.pow_succ_r by lia. ring.
Qed.

Lemma is_digit_val (c : byte) :
  is_digit c = true -> 0 <= byte_val c - 48 <= 9.
Proof.
  unfold is_digit. intro H. apply andb_true_iff in H as [H1 H2].
  apply Z.leb_le in H1. apply Z.leb_le in H2. lia.
Qed.

Lemma digits_value_between (s : string) :
  all_bytes is_digit s = true ->
  forall a, 0 <= a ->
    a * 10 ^ Z.of_nat (String.length s) <= digits_value s a
      < (a + 1) * 10 ^ Z.of_nat (String.length s).
Proof.
  induction s as [| c r IH]; intros H a Ha.
  - cbn. lia.
  - cbn [all_bytes] in H. apply andb_true_iff in H as [Hc Hr].
    pose proof (is_digit_val c Hc) as Hd.
    specialize (IH Hr (10 * a + (byte_val c - 48)) ltac:(lia)).
    cbn [digits_value String.length].
    rewrite Nat2Z.inj_succ, Z.pow_succ_r by lia.
    assert (0 < 10 ^ Z.of_nat (String.length r))
      by (apply Z.pow_pos_nonneg; lia).
    nia.
Qed.

Lemma digits_value_bound (s : string) :
  all_bytes is_digit s = true ->
  0 <= digits_value s 0 < 10 ^ Z.of_nat (String.length s).
Proof.
  intro H. pose proof (digits_value_between s H 0 ltac:(lia)). lia.
Qed.

Lemma scan_digits_run (s rest : string) (a : Z) :
  all_bytes is_digit s = true ->
  scan_digits (s ++ rest) true false a =
  scan_digits rest true false (digits_value s a).
Proof.
  revert a. induction s as [| c r IH]; intros a H; [ reflexivity | ].
  cbn [all_bytes] in H. apply andb_true_iff in H as [Hc Hr].
  cbn [append scan_digits digits_value]. rewrite Hc. apply IH, Hr.
Qed.

Lemma scan_digits_all (c : byte) (r : string) :
  all_bytes is_digit (String c r) = true ->
  scan_digits (String c r) false false 0 =
  Some (digits_value (String c r) 0, "").
Proof.
  intro H. cbn [all_bytes] in H. apply andb_true_iff in H as [Hc Hr].
  cbn [scan_digits digits_value]. rewrite Hc.
  rewrite <- (append_empty_r r) at 1.
  rewrite scan_digits_run by exact Hr. reflexivity.
Qed.

(** A non-empty run of digits parses to its value. *)
Lemma PyLong_FromString_digits (c : byte) (r : string) :
  all_bytes is_digit (String c r) = true ->
  PyLong_FromString (String c r) = Some (digits_value (String c r) 0).
Proof.
  intro H. unfold PyLong_FromString.
  rewrite c_string_digits by exact H.
  pose proof H as H'. cbn [all_bytes] in H'.
  apply andb_true_iff in H' as [Hc _].
  destruct (digit_first c r Hc) as [Hskip Hsign].
  rewrite Hskip, Hsign. cbv iota beta zeta.
  rewrite scan_digits_all by exact H. cbn [skip_space]. f_equal. lia.
Qed.

Lemma PyLong_FromUnicodeObject_digits (c : byte) (r : string) :
  all_bytes is_digit (String c r) = true ->
  PyLong_FromUnicodeObject (String c r) = Some (digits_value (String c r) 0).
Proof.
  intro H. unfold PyLong_FromUnicodeObject.
  rewrite c_string_digits by exact H. rewrite Nat.eqb_refl.
  apply PyLong_FromString_digits, H.
Qed.

Lemma decimal_digits_value (n : Z) :
  0 <= n -> digits_value (decimal_digits n) 0 = n.
Proof.
  intro Hn. pose proof (scan_decimal_digits n Hn) as Hs.
  pose proof (decimal_digits_digits n) as Hd.
  destruct (decimal_digits n) as [| c r].
  - cbn in Hs. discriminate.
  - rewrite scan_digits_all in Hs by exact Hd. congruence.
Qed.

(** A number from [10^k] on has more than [k] digits. *)
Lemma decimal_digits_length_gt (n : Z) (k : nat) :
  10 ^ Z.of_nat k <= n -> (k < String.length (decimal_digits n))%nat.
Proof.
  intro Hn.
  assert (0 < 10 ^ Z.of_nat k) by (apply Z.pow_pos_nonneg; lia).
  pose proof (digits_value_bound _ (decimal_digits_digits n)) as Hb.
  rewrite decimal_digits_value in Hb by lia.
  destruct (Nat.lt_ge_cases k (String.length (decimal_digits n)))
    as [ | Hle]; [ assumption | ].
  assert (10 ^ Z.of_nat (String.length (decimal_digits n)) <= 10 ^ Z.of_nat k)
    by (apply Z.pow_le_mono_r; lia).
  lia.
Qed.

Lemma format_0wd_digits (w : nat) (n : Z) :
  0 <= n -> all_bytes is_digit (format_0wd w n) = true.
Proof.
  intro Hn. rewrite format_0wd_nonneg by exact Hn.
  rewrite all_bytes_app, decimal_digits_digits.
  rewrite all_bytes_replicate by reflexivity. reflexivity.
Qed.

Lemma format_0wd_length (w : nat) (n : Z) :
  (1 <= w)%nat -> 0 <= n < 10 ^ Z.of_nat w ->
  String.length (format_0wd w n) = w.
Proof.
  intros Hw Hn. rewrite format_0wd_nonneg by lia.
  rewrite append_length, replicate_length.
  pose proof (decimal_digits_length_le n w Hw Hn). lia.
Qed.

Lemma format_0wd_length_ge (w : nat) (n : Z) :
  0 <= n ->
  (w <= String.length (format_0wd w n))%nat
  /\ (String.length (decimal_digits n) <= String.length (format_0wd w n))%nat.
Proof.
  intro Hn. rewrite format_0wd_nonneg by lia.
  rewrite append_length, replicate_length. lia.
Qed.

Lemma format_0wd_value (w : nat) (n a : Z) :
  0 <= n ->
  digits_value (format_0wd w n) a =
    a * 10 ^ Z.of_nat (String.length (format_0wd w n)) + n.
Proof.
  intro Hn. rewrite digits_value_linear. f_equal.
  rewrite format_0wd_nonneg by exact Hn.
  rewrite digits_value_app, digits_value_zeros.
  rewrite Z.mul_0_l. apply decimal_digits_value, Hn.
Qed.

Lemma prefix_all (s : string) : prefix (String.length s) s = s.
Proof. induction s as [| c r IH]; cbn; [ | rewrite IH ]; reflexivity. Qed.

Lemma replace_blank_app (sep : byte) (s t : string) :
  PyUnicode_Replace_blank sep (s ++ t) =
  PyUnicode_Replace_blank sep s ++ PyUnicode_Replace_blank sep t.
Proof.
  induction s as [| c r IH]; [ reflexivity | ].
  cbn [append PyUnicode_Replace_blank].
  destruct (c =? sep)%char; [ exact IH | cbn [append]; now rewrite IH ].
Qed.

Lemma replace_blank_digits (s : string) :
  all_bytes is_digit s = true -> PyUnicode_Replace_blank hyphen s = s.
Proof.
  induction s as [| c r IH]; [ reflexivity | ].
  cbn [all_bytes PyUnicode_Replace_blank]. intro H.
  apply andb_true_iff in H as [Hc Hr].
  destruct (Ascii.eqb_spec c hyphen) as [-> | _].
  - vm_compute in Hc. discriminate.
  - now rewrite (IH Hr).
Qed.

Lemma is_digit_ascii (c : byte) : is_digit c = true -> is_ascii c = true.
Proof.
  unfold is_digit, is_ascii. intro H. apply andb_true_iff in H as [_ H].
  apply Z.leb_le in H. apply Z.leb_le. lia.
Qed.

Lemma all_digits_ascii (s : string) :
  all_bytes is_digit s = true -> all_bytes is_ascii s = true.
Proof.
  induction s as [| c r IH]; [ reflexivity | ].
  cbn [all_bytes]. intro H. apply andb_true_iff in H as [Hc Hr].
  now rewrite (is_digit_ascii c Hc), (IH Hr).
Qed.

(** ** Dates as text *)

Lemma PyLong_FromUnicodeObject_run (s : string) :
  s <> "" -> all_bytes is_digit s = true ->
  PyLong_FromUnicodeObject s = Some (digits_value s 0).
Proof.
  destruct s as [| c r]; [ congruence | ].
  intros _. apply PyLong_FromUnicodeObject_digits.
Qed.

Lemma date_fields_range (l' : Z) :
  0 <= l' <= 99999999 ->
  0 <= l' / 10000 < 10 ^ Z.of_nat 4
  /\ 0 <= (l' mod 10000) / 100 < 10 ^ Z.of_nat 2
  /\ 0 <= l' mod 100 < 10 ^ Z.of_nat 2
  /\ l' = l' / 10000 * 10000 + (l' mod 10000) / 100 * 100 + l' mod 100.
Proof.
  intro H. change (10 ^ Z.of_nat 4) with 10000. change (10 ^ Z.of_nat 2) with 100.
  pose proof (Z.div_mod l' 10000 ltac:(lia)) as E1.
  pose proof (Z.mod_pos_bound l' 10000 ltac:(lia)) as B1.
  pose proof (Z.div_mod (l' mod 10000) 100 ltac:(lia)) as E2.
  pose proof (Z.mod_pos_bound (l' mod 10000) 100 ltac:(lia)) as B2.
  assert (E3 : l' mod 100 = (l' mod 10000) mod 100).
  { symmetry. apply Z.mod_mod_divide. exists 100. reflexivity. }
  assert (0 <= l' / 10000 < 10000).
  { split; [ apply Z.div_pos; lia | apply Z.div_lt_upper_bound; lia ]. }
  assert (0 <= (l' mod 10000) / 100 < 100).
  { split; [ apply Z.div_pos; lia | apply Z.div_lt_upper_bound; lia ]. }
  lia.
Qed.

Lemma date_text_shape (year month day : Z) :
  0 <= year < 10 ^ Z.of_nat 4 ->
  0 <= month < 10 ^ Z.of_nat 2 ->
  0 <= day < 10 ^ Z.of_nat 2 ->
  String.length (date_text year month day) = 10%nat
  /\ all_bytes is_ascii (date_text year month day) = true
  /\ PyUnicode_Replace_blank hyphen (date_text year month day) =
       format_0wd 4 year ++ format_0wd 2 month ++ format_0wd 2 day.
Proof.
  intros Hy Hm Hd. unfold date_text. split; [ | split ].
  - rewrite !append_length.
    rewrite (format_0wd_length 4 year), (format_0wd_length 2 month),
      (format_0wd_length 2 day) by lia.
    reflexivity.
  - rewrite !all_bytes_app.
    rewrite (all_digits_ascii (format_0wd 4 year)),
      (all_digits_ascii (format_0wd 2 month)),
      (all_digits_ascii (format_0wd 2 day))
      by (apply format_0wd_digits; lia).
    reflexivity.
  - rewrite !replace_blank_app.
    rewrite (replace_blank_digits (format_0wd 4 year)),
      (replace_blank_digits (format_0wd 2 month)),
      (replace_blank_digits (format_0wd 2 day))
      by (apply format_0wd_digits; lia).
    reflexivity.
Qed.

Lemma date_digits_value (year month day : Z) :
  0 <= year < 10 ^ Z.of_nat 4 ->
  0 <= month < 10 ^ Z.of_nat 2 ->
  0 <= day < 10 ^ Z.of_nat 2 ->
  PyLong_FromUnicodeObject
    (format_0wd 4 year ++ format_0wd 2 month ++ format_0wd 2 day) =
  Some (year * 10000 + month * 100 + day).
Proof.
  intros Hy Hm Hd. rewrite PyLong_FromUnicodeObject_run.
  - rewrite !digits_value_app.
    rewrite (format_0wd_value 4 year), (format_0wd_value 2 month),
      (format_0wd_value 2 day) by lia.
    rewrite (format_0wd_length 4 year), (format_0wd_length 2 month),
      (format_0wd_length 2 day) by lia.
    change (10 ^ Z.of_nat 4) with 10000. change (10 ^ Z.of_nat 2) with 100.
    f_equal. lia.
  - intro E. apply (f_equal String.length) in E.
    rewrite !append_length in E.
    rewrite (format_0wd_length 4 year) in E by lia. discriminate.
  - rewrite !all_bytes_app.
    rewrite (format_0wd_digits 4 year), (format_0wd_digits 2 month),
      (format_0wd_digits 2 day) by lia.
    reflexivity.
Qed.

Lemma date_to_pystring_eq (m : memory) (data : nat) (l : Z) :
  min_signed 32 <= l ->
  l + 19000000 <= max_signed 32 ->
  read_bytes m data 4 = le_bytes 4 l ->
  let l' := l + 19000000 in
  let s := date_text (Z.quot l' 10000) (Z.quot (Z.rem l' 10000) 100)
             (Z.rem l' 100) in
  date_to_pystring m data =
    if (11 <=? String.length s)%nat then None
    else Some (PyUnicode_FromStringAndSize (prefix 10 s), (data + 4)%nat).
Proof.
  intros Hlo Hhi Hm l' s. unfold date_to_pystring, unpack_int32_t.
  rewrite (unpack_signed_le_bytes 4 m data l); [ | lia | | exact Hm ].
  - unfold int32_t. rewrite wrap_signed_fits; [ reflexivity | lia | ].
    unfold min_signed, max_signed in *. cbn in *. lia.
  - unfold min_signed, max_signed in *. cbn in *. lia.
Qed.

(** X5: for a date integer [l] whose [l + 19000000] is between 0 and
    99999999, the text decode gives the ten characters ["YYYY-MM-DD"] of
    the very year, month and day that the date decode returns, and moves
    the cursor by 4. *)
Theorem date_to_pystring_text (m : memory) (data : nat) (l : Z) :
  0 <= l + 19000000 <= 99999999 ->
  read_bytes m data 4 = le_bytes 4 l ->
  exists year month day : Z,
    date_to_pydate m data =
      (Some (GiraffezDate year month day 0 0 0 0), (data + 4)%nat)
    /\ date_to_pystring m data =
      Some (Some (PyUnicode (date_text year month day)), (data + 4)%nat)
    /\ String.length (date_text year month day) = 10%nat
    /\ 0 <= year <= 9999 /\ 0 <= month <= 99 /\ 0 <= day <= 99
    /\ year * 10000 + month * 100 + day = l + 19000000.
Proof.
  intros Hl Hm.
  assert (Hlo : min_signed 32 <= l) by (change (min_signed 32) with (-2147483648); lia).
  assert (Hhi : l + 19000000 <= max_signed 32)
    by (change (max_signed 32) with 2147483647; lia).
  destruct (date_fields_nonneg (l + 19000000) ltac:(lia)) as [Ey [Emo Ed]].
  destruct (date_fields_range (l + 19000000) Hl) as [Hy [Hmo [Hd Hsum]]].
  exists ((l + 19000000) / 10000), ((l + 19000000) mod 10000 / 100),
    ((l + 19000000) mod 100).
  destruct (date_text_shape _ _ _ Hy Hmo Hd) as [Hlen [Hascii _]].
  split; [ | split; [ | split; [ exact Hlen | ] ] ].
  - rewrite (date_to_pydate_value m data l Hlo Hhi Hm), Ey, Emo, Ed. reflexivity.
  - rewrite (date_to_pystring_eq m data l Hlo Hhi Hm). cbv zeta.
    rewrite Ey, Emo, Ed, Hlen. cbn [Nat.leb].
    rewrite <- Hlen at 1. rewrite prefix_all.
    unfold PyUnicode_FromStringAndSize.
    rewrite (all_ascii_utf8_valid _ Hascii). reflexivity.
  - change (10 ^ Z.of_nat 4) with 10000 in Hy.
    change (10 ^ Z.of_nat 2) with 100 in Hmo, Hd. lia.
Qed.

Lemma date_to_pystring_text_witness :
  exists year month day : Z,
    date_to_pydate (mem_of_string (le_bytes 4 1171231)) 0 =
      (Some (GiraffezDate year month day 0 0 0 0), 4%nat)
    /\ date_to_pystring (mem_of_string (le_bytes 4 1171231)) 0 =
      Some (Some (PyUnicode (date_text year month day)), 4%nat)
    /\ String.length (date_text year month day) = 10%nat
    /\ 0 <= year <= 9999 /\ 0 <= month <= 99 /\ 0 <= day <= 99
    /\ year * 10000 + month * 100 + day = 1171231 + 19000000.
Proof.
  exact (date_to_pystring_text (mem_of_string (le_bytes 4 1171231)) 0%nat
           1171231 ltac:(lia) eq_refl).
Defined.

(** X6: from the year 10000 on ([l + 19000000 >= 100000000]) the text
    decode has no defined result: the formatted text is longer than ten
    characters and overruns the 11-byte array it is printed into. *)
Theorem date_to_pystring_overrun (m : memory) (data : nat) (l : Z) :
  100000000 <= l + 19000000 <= max_signed 32 ->
  read_bytes m data 4 = le_bytes 4 l ->
  date_to_pystring m data = None.
Proof.
  intros Hl Hm.
  assert (Hlo : min_signed 32 <= l) by (change (min_signed 32) with (-2147483648); lia).
  rewrite (date_to_pystring_eq m data l Hlo (proj2 Hl) Hm). cbv zeta.
  destruct (date_fields_nonneg (l + 19000000) ltac:(lia)) as [-> [-> ->]].
  set (l' := l + 19000000) in *.
  assert (Hy : 10 ^ Z.of_nat 4 <= l' / 10000).
  { change (10 ^ Z.of_nat 4) with 10000. apply Z.div_le_lower_bound; lia. }
  assert (Hmo : 0 <= l' mod 10000 / 100)
    by (apply Z.div_pos; [ apply Z.mod_pos_bound | ]; lia).
  assert (Hd : 0 <= l' mod 100) by (apply Z.mod_pos_bound; lia).
  pose proof (decimal_digits_length_gt _ 4 Hy) as Hlen.
  destruct (format_0wd_length_ge 4 (l' / 10000) ltac:(lia)) as [_ H1].
  destruct (format_0wd_length_ge 2 (l' mod 10000 / 100) Hmo) as [H2 _].
  destruct (format_0wd_length_ge 2 (l' mod 100) Hd) as [H3 _].
  assert (Htot : (11 <= String.length
                   (date_text (l' / 10000) (l' mod 10000 / 100) (l' mod 100)))%nat).
  { unfold date_text. rewrite !append_length. cbn [String.length]. lia. }
  apply Nat.leb_le in Htot. rewrite Htot. reflexivity.
Qed.

Lemma date_to_pystring_overrun_witness :
  date_to_pystring (mem_of_string (le_bytes 4 81000101)) 0 = None.
Proof.
  exact (date_to_pystring_overrun (mem_of_string (le_bytes 4 81000101)) 0%nat
           81000101 ltac:(vm_compute; split; discriminate) eq_refl).
Defined.

(** X7: encoding the text that the text decode produced stores the four
    bytes that were decoded, returns None and leaves no exception: for a
    date integer with [0 <= l + 19000000 <= 99999999] the encode inverts
    the decode. *)
Theorem date_text_round_trip (m : memory) (data : nat) (l : Z)
  (column_length : nat) (o : outbuf) :
  0 <= l + 19000000 <= 99999999 ->
  read_bytes m data 4 = le_bytes 4 l ->
  exists text : string,
    date_to_pystring m data = Some (Some (PyUnicode text), (data + 4)%nat)
    /\ pydate_to_int (PyUnicode text) column_length o =
      {| ret := Some PyNone;
         out := {| written := written o ++ read_bytes m data 4;
                   len := uint16_t (len o + Z.of_nat column_length) |};
         raised := None |}.
Proof.
  intros Hl Hm.
  assert (Hlo : min_signed 32 <= l) by (change (min_signed 32) with (-2147483648); lia).
  assert (Hhi : l + 19000000 <= max_signed 32)
    by (change (max_signed 32) with 2147483647; lia).
  destruct (date_fields_nonneg (l + 19000000) ltac:(lia)) as [Ey [Emo Ed]].
  destruct (date_fields_range (l + 19000000) Hl) as [Hy [Hmo [Hd Hsum]]].
  destruct (date_text_shape _ _ _ Hy Hmo Hd) as [Hlen [Hascii Hrep]].
  eexists. split.
  - rewrite (date_to_pystring_eq m data l Hlo Hhi Hm). cbv zeta.
    rewrite Ey, Emo, Ed, Hlen. cbn [Nat.leb].
    rewrite <- Hlen at 1. rewrite prefix_all.
    unfold PyUnicode_FromStringAndSize.
    rewrite (all_ascii_utf8_valid _ Hascii). reflexivity.
  - unfold pydate_to_int. rewrite Hrep, (date_digits_value _ _ _ Hy Hmo Hd).
    rewrite <- Hsum.
    rewrite PyLong_AsLong_fits
      by (change (min_signed 64) with (-9223372036854775808);
          change (max_signed 64) with 9223372036854775807; lia).
    unfold int32_t.
    rewrite (wrap_signed_fits 32 (l + 19000000)) by
      (change (min_signed 32) with (-2147483648) in *;
       change (max_signed 32) with 2147483647 in *; lia).
    replace (l + 19000000 - 19000000) with l by lia.
    rewrite wrap_signed_fits by
      (change (min_signed 32) with (-2147483648) in *;
       change (max_signed 32) with 2147483647 in *; lia).
    rewrite Hm. reflexivity.
Qed.

Lemma date_text_round_trip_witness :
  exists text : string,
    date_to_pystring (mem_of_string (le_bytes 4 1171231)) 0 =
      Some (Some (PyUnicode text), 4%nat)
    /\ pydate_to_int (PyUnicode text) 4 empty_out =
      {| ret := Some PyNone;
         out := {| written := le_bytes 4 1171231; len := 4 |};
         raised := None |}.
Proof.
  exact (date_text_round_trip (mem_of_string (le_bytes 4 1171231)) 0%nat
           1171231 4 empty_out ltac:(lia) eq_refl).
Defined.

(** ** What the integer parser accepts *)

Lemma scan_digits_literal (s : string) :
  forall (seen us : bool) (a n : Z) (rest : string),
    scan_digits s seen us a = Some (n, rest) ->
    exists pre, s = pre ++ rest /\ all_bytes int_literal_byte pre = true.
Proof.
  induction s as [| c r IH]; intros seen us a n rest H.
  - cbn [scan_digits] in H. destruct (seen && negb us); [ | discriminate ].
    injection H as _ <-. exists "". split; reflexivity.
  - cbn [scan_digits] in H.
    destruct (is_digit c) eqn:Hd.
    + destruct (IH _ _ _ _ _ H) as [pre [-> Hpre]].
      exists (String c pre). split; [ reflexivity | ].
      cbn [all_bytes]. unfold int_literal_byte at 1. now rewrite Hd, Hpre.
    + destruct (c =? "_")%char eqn:Hu.
      * destruct (seen && negb us); [ | discriminate ].
        destruct (IH _ _ _ _ _ H) as [pre [-> Hpre]].
        exists (String c pre). split; [ reflexivity | ].
        cbn [all_bytes]. unfold int_literal_byte at 1.
        rewrite Hu, Hpre, !orb_true_r. reflexivity.
      * destruct (seen && negb us); [ | discriminate ].
        injection H as _ <-. exists "". split; reflexivity.
Qed.

Lemma skip_space_literal (s : string) :
  exists pre, s = pre ++ skip_space s /\ all_bytes int_literal_byte pre = true.
Proof.
  induction s as [| c r [pre [Hs Hpre]]].
  - exists "". split; reflexivity.
  - cbn [skip_space]. destruct (isspace c) eqn:Hc.
    + exists (String c pre). split; [ cbn [append]; now rewrite <- Hs | ].
      cbn [all_bytes]. unfold int_literal_byte at 1.
      rewrite Hc, Hpre, orb_true_r. reflexivity.
    + exists "". split; reflexivity.
Qed.

Lemma split_sign_literal (s : string) :
  exists pre, s = pre ++ snd (split_sign s)
              /\ all_bytes int_literal_byte pre = true.
Proof.
  destruct s as [| c r]; [ exists ""; split; reflexivity | ].
  destruct (Ascii.eqb_spec c "+"%char) as [-> | Hp];
    [ exists "+"; split; reflexivity | ].
  destruct (Ascii.eqb_spec c "-"%char) as [-> | Hm];
    [ exists "-"; split; reflexivity | ].
  exists "". split; [ | reflexivity ].
  cbn [append].
  destruct c as [[] [] [] [] [] [] [] []]; try reflexivity; congruence.
Qed.

(** A text the integer parser accepts holds only digits, blanks, signs
    and underscores before its first NUL. *)
Lemma PyLong_FromString_literal (str : string) (z : Z) :
  PyLong_FromString str = Some z ->
  all_bytes int_literal_byte (c_string str) = true.
Proof.
  unfold PyLong_FromString. intro H.
  destruct (skip_space_literal (c_string str)) as [p1 [E1 H1]].
  destruct (split_sign_literal (skip_space (c_string str))) as [p2 [E2 H2]].
  destruct (split_sign (skip_space (c_string str))) as [sign s] eqn:Es.
  cbn [snd] in E2.
  destruct (scan_digits s false false 0) as [[n rest] | ] eqn:Escan;
    [ | discriminate ].
  destruct (scan_digits_literal _ _ _ _ _ _ Escan) as [p3 [E3 H3]].
  destruct (skip_space_literal rest) as [p4 [E4 H4]].
  destruct (skip_space rest); [ | discriminate ].
  rewrite append_empty_r in E4.
  rewrite E1, E2, E3, E4, !all_bytes_app, H1, H2, H3, H4. reflexivity.
Qed.

Lemma c_string_same_length (s : string) :
  String.length (c_string s) = String.length s -> c_string s = s.
Proof.
  induction s as [| b r IH]; [ reflexivity | ].
  cbn [c_string]. destruct (b =? zero)%char; cbn [String.length]; intro H.
  - discriminate.
  - injection H as H. now rewrite (IH H).
Qed.

Lemma PyLong_FromUnicodeObject_literal (u : string) (z : Z) :
  PyLong_FromUnicodeObject u = Some z ->
  all_bytes int_literal_byte u = true.
Proof.
  unfold PyLong_FromUnicodeObject.
  destruct (Nat.eqb_spec (String.length (c_string u)) (String.length u))
    as [E | ]; [ | discriminate ].
  intro H. apply PyLong_FromString_literal in H.
  now rewrite (c_string_same_length u E) in H.
Qed.

Lemma replace_hyphen_literal (u : string) :
  all_bytes int_literal_byte (PyUnicode_Replace_blank hyphen u) =
  all_bytes int_literal_byte u.
Proof.
  induction u as [| c r IH]; [ reflexivity | ].
  cbn [PyUnicode_Replace_blank all_bytes].
  destruct (Ascii.eqb_spec c hyphen) as [-> | _].
  - rewrite IH. reflexivity.
  - cbn [all_bytes]. now rewrite IH.
Qed.

(** X8: an ASCII date text with any byte other than a digit, a hyphen, a
    blank, a sign or an underscore (a slash, a letter, a NUL) is not
    refused: the encode stores the four bytes of -19000001, adds the field
    width to the counter and returns None, leaving only a SystemError
    pending. *)
Theorem pydate_to_int_unparsable (u : string) (column_length : nat)
  (o : outbuf) :
  all_bytes is_ascii u = true ->
  all_bytes int_literal_byte u = false ->
  pydate_to_int (PyUnicode u) column_length o =
    {| ret := Some PyNone;
       out := {| written := written o ++ le_bytes 4 (-19000001);
                 len := uint16_t (len o + Z.of_nat column_length) |};
       raised := Some SystemError |}.
Proof.
  intros _ Hbad. unfold pydate_to_int.
  destruct (PyLong_FromUnicodeObject (PyUnicode_Replace_blank hyphen u))
    as [z | ] eqn:E.
  - apply PyLong_FromUnicodeObject_literal in E.
    rewrite replace_hyphen_literal in E. congruence.
  - reflexivity.
Qed.

Lemma pydate_to_int_unparsable_witness :
  pydate_to_int (PyUnicode "2017/12/31") 4 empty_out =
    {| ret := Some PyNone;
       out := {| written := le_bytes 4 (-19000001); len := 4 |};
       raised := Some SystemError |}.
Proof.
  exact (pydate_to_int_unparsable "2017/12/31" 4 empty_out eq_refl eq_refl).
Defined.

(** ** Character fields: encode then decode *)

(** X9: an ASCII source of at most [n] bytes encoded into a Char field of
    width [n] and decoded again comes back with its space padding: the
    decode returns the source followed by [n - |source|] spaces, and the
    cursor ends [n] bytes on. *)
Theorem char_field_round_trip (item : PyObject) (s : string) (n : nat)
  (o : outbuf) :
  char_source item s ->
  all_bytes is_ascii s = true ->
  (String.length s <= n)%nat ->
  Z.of_nat n <= max_signed 32 ->
  exists r : outcome,
    pystring_to_char item n o = Some r
    /\ ret r = Some PyNone
    /\ raised r = None
    /\ char_to_pystring (mem_of_string (written (out r)))
         (String.length (written o)) n =
       (Some (PyUnicode (s ++ replicate (n - String.length s) " "%char)),
        (String.length (written o) + n)%nat).
Proof.
  intros Hsrc Hascii Hlen Hmax.
  destruct (pystring_to_char_pads item s n o Hsrc Hlen Hmax) as [Hr Hn].
  eexists. split; [ exact Hr | ]. split; [ reflexivity | ].
  split; [ reflexivity | ].
  cbn [out written]. unfold char_to_pystring.
  rewrite <- Hn at 2. rewrite read_bytes_mem_end.
  unfold PyUnicode_FromStringAndSize. rewrite all_ascii_utf8_valid.
  - reflexivity.
  - rewrite all_bytes_app, Hascii. apply all_bytes_replicate. reflexivity.
Qed.

Lemma char_field_round_trip_witness :
  exists r : outcome,
    pystring_to_char (PyUnicode "AB") 5 empty_out = Some r
    /\ ret r = Some PyNone
    /\ raised r = None
    /\ char_to_pystring (mem_of_string (written (out r))) 0 5 =
       (Some (PyUnicode "AB   "), 5%nat).
Proof.
  exact (char_field_round_trip (PyUnicode "AB") "AB" 5 empty_out
           (or_introl (conj eq_refl eq_refl)) eq_refl
           ltac:(simpl; lia) ltac:(vm_compute; discriminate)).
Defined.

(** ** Times *)

Lemma get_number_range (to : Z) (s : string) (v : Z) (r : string) :
  9 <= to -> get_number to s = Some (v, r) -> 0 <= v <= to.
Proof.
  intros Hto. unfold get_number.
  destruct (skip_space s) as [| c1 r1]; [ discriminate | ].
  destruct (is_digit c1) eqn:H1; [ | discriminate ].
  pose proof (is_digit_val c1 H1) as B1.
  destruct r1 as [| c2 r2].
  - intro H. injection H as <- _. lia.
  - destruct ((byte_val c1 - 48) * 10 <=? to) eqn:Hle; cbn [andb].
    + destruct (is_digit c2) eqn:H2.
      * pose proof (is_digit_val c2 H2) as B2.
        destruct (Z.leb_spec ((byte_val c1 - 48) * 10 + (byte_val c2 - 48)) to)
          as [Hv2 | Hv2]; [ | discriminate ].
        intro H. injection H as <- _. lia.
      * intro H. injection H as <- _. lia.
    + intro H. injection H as <- _. lia.
Qed.

Lemma strptime_HMS_range (s : string) (h mi sec : Z) :
  strptime_HMS s = Some (h, mi, sec) ->
  0 <= h <= 23 /\ 0 <= mi <= 59 /\ 0 <= sec <= 61.
Proof.
  unfold strptime_HMS.
  destruct (get_number 23 s) as [[h' s1] | ] eqn:E1; [ | discriminate ].
  destruct (match_char ":"%char s1) as [s2 | ]; [ | discriminate ].
  destruct (get_number 59 s2) as [[mi' s3] | ] eqn:E2; [ | discriminate ].
  destruct (match_char ":"%char s3) as [s4 | ]; [ | discriminate ].
  destruct (get_number 61 s4) as [[sec' s5] | ] eqn:E3; [ | discriminate ].
  intro H. injection H as <- <- <-.
  apply get_number_range in E1; [ | lia ].
  apply get_number_range in E2; [ | lia ].
  apply get_number_range in E3; [ | lia ].
  auto.
Qed.

(** X10: whenever the time decode returns a time value, its hour is
    within 0..23, its minute within 0..59, its second within 0..61, its
    fraction is 0, and the cursor has moved by the field width. *)
Theorem char_to_time_fields (m : memory) (data n : nat)
  (hour minute second microsecond : Z) (data' : nat) :
  char_to_time m data n =
    Some (Some (GiraffezTime hour minute second microsecond), data') ->
  0 <= hour <= 23 /\ 0 <= minute <= 59 /\ 0 <= second <= 61
  /\ microsecond = 0 /\ data' = (data + n)%nat.
Proof.
  unfold char_to_time. destruct (BUFFER_SIZE <=? n)%nat; [ discriminate | ].
  destruct (strptime_HMS (c_string (read_bytes m data n)))
    as [[[h mi] sec] | ] eqn:E.
  - unfold giraffez_time_from_time. intro H. injection H as <- <- <- <- <-.
    pose proof (strptime_HMS_range _ _ _ _ E). intuition.
  - unfold char_to_pystring, PyUnicode_FromStringAndSize.
    destruct (utf8_valid (read_bytes m data n)); discriminate.
Qed.

Lemma char_to_time_fields_witness :
  0 <= 9 <= 23 /\ 0 <= 15 <= 59 /\ 0 <= 30 <= 61
  /\ 0 = 0 /\ 8%nat = (0 + 8)%nat.
Proof.
  exact (char_to_time_fields (mem_of_string "09:15:30") 0 8 9 15 30 0 8
           eq_refl).
Defined.

Lemma digit_char_facts (d : Z) :
  0 <= d < 10 ->
  is_digit (digit_char d) = true
  /\ isspace (digit_char d) = false
  /\ byte_val (digit_char d) - 48 = d
  /\ (digit_char d =? zero)%char = false.
Proof.
  intro Hd. pose proof (digit_char_val d Hd) as Hv.
  assert (Hdig : is_digit (digit_char d) = true).
  { unfold is_digit. rewrite Hv. apply andb_true_iff.
    split; apply Z.leb_le; lia. }
  split; [ exact Hdig | ]. split; [ | split; [ lia | ] ].
  - unfold isspace. rewrite Hv.
    destruct (Z.eqb_spec (48 + d) 32); [ lia | ].
    destruct (Z.leb_spec (48 + d) 13); [ lia | ].
    now rewrite andb_false_r.
  - apply is_digit_not_nul, Hdig.
Qed.

(** The two characters of ["%02d"] for a number below 100. *)
Lemma format_0wd_2 (v : Z) :
  0 <= v < 100 ->
  format_0wd 2 v =
    String (digit_char (v / 10)) (String (digit_char (v mod 10)) "").
Proof.
  intro Hv.
  assert (Hall : forallb (fun k : nat =>
            String.eqb (format_0wd 2 (Z.of_nat k))
              (String (digit_char (Z.of_nat k / 10))
                 (String (digit_char (Z.of_nat k mod 10)) "")))
            (seq 0 100) = true) by (vm_compute; reflexivity).
  rewrite forallb_forall in Hall.
  specialize (Hall (Z.to_nat v)).
  rewrite Z2Nat.id in Hall by lia.
  apply String.eqb_eq, Hall, in_seq. lia.
Qed.

Lemma get_number_two_digits (to v : Z) (rest : string) :
  9 <= to -> 0 <= v <= to -> v < 100 ->
  get_number to
    (String (digit_char (v / 10)) (String (digit_char (v mod 10)) rest)) =
  Some (v, rest).
Proof.
  intros Hto Hv H100.
  assert (H1 : 0 <= v / 10 < 10)
    by (split; [ apply Z.div_pos; lia | apply Z.div_lt_upper_bound; lia ]).
  assert (H2 : 0 <= v mod 10 < 10) by (apply Z.mod_pos_bound; lia).
  destruct (digit_char_facts _ H1) as [D1 [S1 [V1 _]]].
  destruct (digit_char_facts _ H2) as [D2 [_ [V2 _]]].
  pose proof (Z.div_mod v 10 ltac:(lia)) as E.
  unfold get_number. cbn [skip_space]. rewrite S1, D1, V1, D2, V2.
  destruct (Z.leb_spec (v / 10 * 10) to); [ | lia ]. cbn [andb].
  replace (v / 10 * 10 + v mod 10) with v by lia.
  destruct (Z.leb_spec v to); [ reflexivity | lia ].
Qed.

Lemma strptime_HMS_time_text (hour minute second : Z) (rest : string) :
  0 <= hour <= 23 -> 0 <= minute <= 59 -> 0 <= second <= 59 ->
  strptime_HMS (time_text hour minute second ++ rest) =
    Some (hour, minute, second).
Proof.
  intros Hh Hm Hs. unfold time_text, strptime_HMS.
  rewrite (format_0wd_2 hour), (format_0wd_2 minute), (format_0wd_2 second)
    by lia.
  cbn [append].
  rewrite get_number_two_digits by lia. cbn [match_char Ascii.eqb Bool.eqb].
  rewrite get_number_two_digits by lia. cbn [match_char Ascii.eqb Bool.eqb].
  rewrite get_number_two_digits by lia. reflexivity.
Qed.

Lemma read_bytes_split (m : memory) (p a b : nat) :
  read_bytes m p (a + b) = read_bytes m p a ++ read_bytes m (p + a) b.
Proof.
  revert p. induction a as [| a IH]; intro p.
  - cbn. now rewrite Nat.add_0_r.
  - cbn [Nat.add read_bytes append]. rewrite IH.
    now rewrite Nat.add_succ_comm.
Qed.

Lemma c_string_app_digits (s t : string) :
  all_bytes (fun c => negb (c =? zero)%char) s = true ->
  c_string (s ++ t) = s ++ c_string t.
Proof.
  induction s as [| c r IH]; [ reflexivity | ].
  cbn [all_bytes append c_string]. intro H.
  apply andb_true_iff in H as [Hc Hr].
  apply negb_true_iff in Hc. now rewrite Hc, (IH Hr).
Qed.

Lemma time_text_no_nul (hour minute second : Z) :
  0 <= hour < 100 -> 0 <= minute < 100 -> 0 <= second < 100 ->
  all_bytes (fun c => negb (c =? zero)%char) (time_text hour minute second)
  = true
  /\ String.length (time_text hour minute second) = 8%nat.
Proof.
  intros Hh Hm Hs. unfold time_text.
  rewrite (format_0wd_2 hour), (format_0wd_2 minute), (format_0wd_2 second)
    by lia.
  cbn [append all_bytes String.length].
  repeat match goal with
  | |- context [digit_char ?d] =>
    let H := fresh in
    assert (H : (digit_char d =? zero)%char = false)
      by (apply digit_char_facts;
          first [ apply Z.mod_pos_bound; lia
                | split; [ apply Z.div_pos; lia
                         | apply Z.div_lt_upper_bound; lia ] ]);
    rewrite H; clear H
  end.
  split; reflexivity.
Qed.

(** X11: a time field that starts with the eight characters
    ["HH:MM:SS"] of an hour in 0..23, a minute and a second in 0..59
    decodes to (hour, minute, second, 0), whatever bytes fill the rest of
    the field (a fraction of a second, padding), and the cursor moves by
    the field width. *)
Theorem char_to_time_well_formed (m : memory) (data n : nat)
  (hour minute second : Z) :
  (8 <= n < BUFFER_SIZE)%nat ->
  0 <= hour <= 23 -> 0 <= minute <= 59 -> 0 <= second <= 59 ->
  read_bytes m data 8 = time_text hour minute second ->
  char_to_time m data n =
    Some (Some (GiraffezTime hour minute second 0), (data + n)%nat).
Proof.
  intros Hn Hh Hm Hs Hmem. unfold char_to_time.
  destruct (Nat.leb_spec BUFFER_SIZE n); [ lia | ].
  replace n with (8 + (n - 8))%nat at 1 by lia.
  rewrite read_bytes_split, Hmem.
  destruct (time_text_no_nul hour minute second) as [Hnul _]; try lia.
  rewrite c_string_app_digits by exact Hnul.
  rewrite strptime_HMS_time_text by lia. reflexivity.
Qed.

Lemma char_to_time_well_formed_witness :
  char_to_time (mem_of_string "23:59:07.250000") 0 15 =
    Some (Some (GiraffezTime 23 59 7 0), 15%nat).
Proof.
  exact (char_to_time_well_formed (mem_of_string "23:59:07.250000") 0 15
           23 59 7 ltac:(split; [ lia | apply Nat.ltb_lt; reflexivity ])
           ltac:(lia) ltac:(lia) ltac:(lia) eq_refl).
Defined.

(** ** Timestamps *)

Lemma get_number_n_range (from to : Z) (n : nat) (s : string) (v : Z)
  (r : string) :
  get_number_n from to n s = Some (v, r) -> from <= v <= to.
Proof.
  unfold get_number_n.
  destruct (skip_space s) as [| c r0]; [ discriminate | ].
  destruct (is_digit c); [ | discriminate ].
  destruct (number_loop (n - 1) to 0 c r0) as [val rp].
  destruct (Z.ltb_spec val from) as [Hf | Hf]; [ discriminate | ].
  destruct (Z.ltb_spec to val) as [Ht | Ht]; [ discriminate | ].
  cbn [orb]. intro H. injection H as <- _. lia.
Qed.

Lemma strptime_YmdHMS_range (s : string) (Y mo d h mi sec : Z) :
  strptime_YmdHMS s = Some (Y, mo, d, h, mi, sec) ->
  0 <= Y <= 9999 /\ 1 <= mo <= 12 /\ 1 <= d <= 31
  /\ 0 <= h <= 23 /\ 0 <= mi <= 59 /\ 0 <= sec <= 61.
Proof.
  unfold strptime_YmdHMS.
  destruct (get_number_n 0 9999 4 s) as [[Y' s1] | ] eqn:E1; [ | discriminate ].
  destruct (match_char hyphen s1) as [s2 | ]; [ | discriminate ].
  destruct (get_number_n 1 12 2 s2) as [[mo' s3] | ] eqn:E2; [ | discriminate ].
  destruct (match_char hyphen s3) as [s4 | ]; [ | discriminate ].
  destruct (get_number_n 1 31 2 s4) as [[d' s5] | ] eqn:E3; [ | discriminate ].
  destruct (strptime_HMS (skip_space s5)) as [[[h' mi'] sec'] | ] eqn:E4;
    [ | discriminate ].
  intro H. injection H as <- <- <- <- <- <-.
  apply get_number_n_range in E1, E2, E3.
  apply strptime_HMS_range in E4. lia.
Qed.

(** X12: the timestamp decode always moves the cursor by the field width.
    When it returns a timestamp value, the year is within 0..9999, the
    month within 1..12, the day within 1..31 (not checked against the
    month), the hour within 0..23, the minute within 0..59, the second
    within 0..61 and the fraction is 0; otherwise it returns the raw
    text of the field. *)
Theorem char_to_timestamp_outcomes (m : memory) (data n : nat)
  (v : timestamp_value) (data' : nat) :
  char_to_timestamp m data n = Some (v, data') ->
  data' = (data + n)%nat
  /\ match v with
     | GiraffezTimestamp year month day hour minute second microsecond =>
       0 <= year <= 9999 /\ 1 <= month <= 12 /\ 1 <= day <= 31
       /\ 0 <= hour <= 23 /\ 0 <= minute <= 59 /\ 0 <= second <= 61
       /\ microsecond = 0
     | TimestampText str =>
       str = PyUnicode_FromStringAndSize (read_bytes m data n)
     end.
Proof.
  unfold char_to_timestamp. destruct (BUFFER_SIZE <=? n)%nat; [ discriminate | ].
  destruct (strptime_YmdHMS (c_string (read_bytes m data n)))
    as [[[[[[Y mo] d] h] mi] sec] | ] eqn:E.
  - intro H. injection H as <- <-. split; [ reflexivity | ].
    pose proof (strptime_YmdHMS_range _ _ _ _ _ _ _ E). intuition.
  - unfold char_to_pystring. intro H. injection H as <- <-.
    split; reflexivity.
Qed.

Lemma char_to_timestamp_outcomes_witness :
  19%nat = (0 + 19)%nat
  /\ (0 <= 2017 <= 9999 /\ 1 <= 2 <= 12 /\ 1 <= 31 <= 31
      /\ 0 <= 9 <= 23 /\ 0 <= 15 <= 59 /\ 0 <= 30 <= 61 /\ 0 = 0).
Proof.
  exact (char_to_timestamp_outcomes (mem_of_string "2017-02-31 09:15:30") 0 19
           (GiraffezTimestamp 2017 2 31 9 15 30 0) 19 eq_refl).
Defined.

(** The four characters of ["%04d"] for a number below 10000. *)
Lemma format_0wd_4 (v : Z) :
  0 <= v < 10000 ->
  format_0wd 4 v =
    String (digit_char (v / 1000))
      (String (digit_char (v / 100 mod 10))
         (String (digit_char (v / 10 mod 10))
            (String (digit_char (v mod 10)) ""))).
Proof.
  intro Hv.
  assert (Hall : forallb (fun k : nat =>
            String.eqb (format_0wd 4 (Z.of_nat k))
              (String (digit_char (Z.of_nat k / 1000))
                 (String (digit_char (Z.of_nat k / 100 mod 10))
                    (String (digit_char (Z.of_nat k / 10 mod 10))
                       (String (digit_char (Z.of_nat k mod 10)) "")))))
            (seq 0 (100 * 100)) = true) by (vm_compute; reflexivity).
  rewrite forallb_forall in Hall.
  specialize (Hall (Z.to_nat v)).
  rewrite Z2Nat.id in Hall by lia.
  apply String.eqb_eq, Hall, in_seq. lia.
Qed.

Lemma get_number_n_two_digits (from to v : Z) (rest : string) :
  from <= v <= to -> 0 <= v < 100 ->
  get_number_n from to 2
    (String (digit_char (v / 10)) (String (digit_char (v mod 10)) rest)) =
  Some (v, rest).
Proof.
  intros Hv H100.
  assert (H1 : 0 <= v / 10 < 10)
    by (split; [ apply Z.div_pos; lia | apply Z.div_lt_upper_bound; lia ]).
  assert (H2 : 0 <= v mod 10 < 10) by (apply Z.mod_pos_bound; lia).
  destruct (digit_char_facts _ H1) as [D1 [S1 [V1 _]]].
  destruct (digit_char_facts _ H2) as [D2 [_ [V2 _]]].
  pose proof (Z.div_mod v 10 ltac:(lia)) as E.
  unfold get_number_n. cbn [skip_space Nat.sub number_loop].
  rewrite S1, D1, V1, D2, V2.
  destruct (Z.leb_spec ((0 * 10 + v / 10) * 10) to); [ | lia ]. cbn [andb].
  replace ((0 * 10 + v / 10) * 10 + v mod 10) with v by lia.
  destruct (Z.ltb_spec v from); [ lia | ].
  destruct (Z.ltb_spec to v); [ lia | ]. reflexivity.
Qed.

Lemma get_number_n_year (v : Z) (rest : string) :
  0 <= v <= 9999 ->
  get_number_n 0 9999 4
    (String (digit_char (v / 1000))
       (String (digit_char (v / 100 mod 10))
          (String (digit_char (v / 10 mod 10))
             (String (digit_char (v mod 10)) rest)))) = Some (v, rest).
Proof.
  intro Hv.
  assert (H3 : 0 <= v / 1000 < 10)
    by (split; [ apply Z.div_pos; lia | apply Z.div_lt_upper_bound; lia ]).
  assert (H2 : 0 <= v / 100 mod 10 < 10) by (apply Z.mod_pos_bound; lia).
  assert (H1 : 0 <= v / 10 mod 10 < 10) by (apply Z.mod_pos_bound; lia).
  assert (H0 : 0 <= v mod 10 < 10) by (apply Z.mod_pos_bound; lia).
  destruct (digit_char_facts _ H3) as [D3 [S3 [V3 _]]].
  destruct (digit_char_facts _ H2) as [D2 [_ [V2 _]]].
  destruct (digit_char_facts _ H1) as [D1 [_ [V1 _]]].
  destruct (digit_char_facts _ H0) as [D0 [_ [V0 _]]].
  assert (E : v = v / 1000 * 1000 + v / 100 mod 10 * 100
                  + v / 10 mod 10 * 10 + v mod 10).
  { pose proof (Z.div_mod v 10 ltac:(lia)).
    pose proof (Z.div_mod (v / 10) 10 ltac:(lia)).
    pose proof (Z.div_mod (v / 100) 10 ltac:(lia)).
    assert (v / 10 / 10 = v / 100) by (rewrite Z.div_div by lia; reflexivity).
    assert (v / 100 / 10 = v / 1000) by (rewrite Z.div_div by lia; reflexivity).
    lia. }
  unfold get_number_n. cbn [skip_space Nat.sub number_loop].
  rewrite S3, D3, V3, D2, V2, D1, V1, D0, V0.
  destruct (Z.leb_spec ((0 * 10 + v / 1000) * 10) 9999); [ | lia ].
  cbn [andb].
  destruct (Z.leb_spec (((0 * 10 + v / 1000) * 10 + v / 100 mod 10) * 10) 9999);
    [ | lia ].
  cbn [andb].
  destruct (Z.leb_spec
              ((((0 * 10 + v / 1000) * 10 + v / 100 mod 10) * 10
                + v / 10 mod 10) * 10) 9999); [ | lia ].
  cbn [andb].
  replace ((((0 * 10 + v / 1000) * 10 + v / 100 mod 10) * 10
            + v / 10 mod 10) * 10 + v mod 10) with v by lia.
  destruct (Z.ltb_spec v 0); [ lia | ].
  destruct (Z.ltb_spec 9999 v); [ lia | ]. reflexivity.
Qed.

Lemma strptime_YmdHMS_timestamp_text (year month day hour minute second : Z)
  (rest : string) :
  0 <= year <= 9999 -> 1 <= month <= 12 -> 1 <= day <= 31 ->
  0 <= hour <= 23 -> 0 <= minute <= 59 -> 0 <= second <= 59 ->
  strptime_YmdHMS
    (timestamp_text year month day hour minute second ++ rest) =
  Some (year, month, day, hour, minute, second).
Proof.
  intros Hy Hmo Hd Hh Hmi Hs.
  pose proof (strptime_HMS_time_text hour minute second rest Hh Hmi Hs) as Ht.
  unfold timestamp_text, date_text, strptime_YmdHMS.
  rewrite (format_0wd_4 year), (format_0wd_2 month), (format_0wd_2 day)
    by lia.
  cbn [append].
  rewrite get_number_n_year by lia.
  cbn [match_char hyphen Ascii.eqb Bool.eqb].
  rewrite get_number_n_two_digits by lia.
  cbn [match_char hyphen Ascii.eqb Bool.eqb].
  rewrite get_number_n_two_digits by lia.
  change (skip_space (String " "%char ?t)) with (skip_space t).
  assert (Hskip : skip_space (time_text hour minute second ++ rest)
                  = time_text hour minute second ++ rest).
  { unfold time_text. rewrite (format_0wd_2 hour) by lia. cbn [append skip_space].
    assert (H1 : 0 <= hour / 10 < 10)
      by (split; [ apply Z.div_pos; lia | apply Z.div_lt_upper_bound; lia ]).
    destruct (digit_char_facts _ H1) as [_ [S1 _]]. now rewrite S1. }
  cbn [skip_space]. change (isspace " "%char) with true. cbv iota.
  rewrite Hskip, Ht. f_equal. f_equal. f_equal. f_equal. f_equal; f_equal; lia.
Qed.

Lemma timestamp_text_no_nul (year month day hour minute second : Z) :
  0 <= year < 10000 -> 0 <= month < 100 -> 0 <= day < 100 ->
  0 <= hour < 100 -> 0 <= minute < 100 -> 0 <= second < 100 ->
  all_bytes (fun c => negb (c =? zero)%char)
    (timestamp_text year month day hour minute second) = true.
Proof.
  intros Hy Hmo Hd Hh Hmi Hs.
  destruct (time_text_no_nul hour minute second Hh Hmi Hs) as [Ht _].
  unfold timestamp_text, date_text. rewrite !all_bytes_app, Ht.
  rewrite (format_0wd_4 year), (format_0wd_2 month), (format_0wd_2 day)
    by lia.
  cbn [all_bytes].
  repeat match goal with
  | |- context [digit_char ?d] =>
    let H := fresh in
    assert (H : (digit_char d =? zero)%char = false)
      by (apply digit_char_facts;
          first [ apply Z.mod_pos_bound; lia
                | split; [ apply Z.div_pos; lia
                         | apply Z.div_lt_upper_bound; lia ] ]);
    rewrite H; clear H
  end.
  reflexivity.
Qed.

(** X13: a timestamp field that starts with the nineteen characters
    ["YYYY-MM-DD HH:MM:SS"] of a year in 0..9999, a month in 1..12, a day
    in 1..31, an hour in 0..23, a minute and a second in 0..59 decodes to
    those six fields with fraction 0, whatever bytes fill the rest of the
    field, and the cursor moves by the field width. *)
Theorem char_to_timestamp_well_formed (m : memory) (data n : nat)
  (year month day hour minute second : Z) :
  (19 <= n < BUFFER_SIZE)%nat ->
  0 <= year <= 9999 -> 1 <= month <= 12 -> 1 <= day <= 31 ->
  0 <= hour <= 23 -> 0 <= minute <= 59 -> 0 <= second <= 59 ->
  read_bytes m data 19 = timestamp_text year month day hour minute second ->
  char_to_timestamp m data n =
    Some (GiraffezTimestamp year month day hour minute second 0,
          (data + n)%nat).
Proof.
  intros Hn Hy Hmo Hd Hh Hmi Hs Hmem. unfold char_to_timestamp.
  destruct (Nat.leb_spec BUFFER_SIZE n); [ lia | ].
  replace n with (19 + (n - 19))%nat at 1 by lia.
  rewrite read_bytes_split, Hmem.
  rewrite c_string_app_digits by (apply timestamp_text_no_nul; lia).
  rewrite strptime_YmdHMS_timestamp_text by lia. reflexivity.
Qed.

Lemma char_to_timestamp_well_formed_witness :
  char_to_timestamp (mem_of_string "2017-12-31 09:15:30.000000") 0 26 =
    Some (GiraffezTimestamp 2017 12 31 9 15 30 0, 26%nat).
Proof.
  exact (char_to_timestamp_well_formed
           (mem_of_string "2017-12-31 09:15:30.000000") 0 26
           2017 12 31 9 15 30
           ltac:(split; [ lia | apply Nat.ltb_lt; reflexivity ])
           ltac:(lia) ltac:(lia) ltac:(lia) ltac:(lia) ltac:(lia) ltac:(lia)
           eq_refl).
Defined.

(** ** Decimals: widths and rendering *)

Lemma decimal_unsupported_null (m : memory) (data len scale : nat) :
  ~ In len [1; 2; 4; 8; 16]%nat ->
  decimal_to_pystring m data len scale = Some (None, data).
Proof.
  intro Hw.
  do 17 (destruct len as [| len];
         [ first [ reflexivity | exfalso; apply Hw; simpl; tauto ] | ]).
  reflexivity.
Qed.

(** X14: the decimal decode returns NULL for exactly the widths other than
    1, 2, 4, 8 and 16 bytes, and the cursor then stays where it was: for a
    supported width the rendered text is always a string.  The float
    decode has a defined result exactly for a supported width whose power
    of ten is representable. *)
Theorem decimal_null_iff_unsupported (PyFloat : Type)
  (PyFloat_FromString : PyObject -> option PyFloat)
  (m : memory) (data column_length column_scale : nat) :
  (forall data',
      decimal_to_pystring m data column_length column_scale
        = Some (None, data')
      <-> ~ In column_length [1; 2; 4; 8; 16]%nat /\ data' = data)
  /\ (decimal_to_pyfloat PyFloat PyFloat_FromString m data column_length
        column_scale <> None
      <-> In column_length [1; 2; 4; 8; 16]%nat
          /\ scale_representable column_length column_scale = true).
Proof.
  destruct (in_dec Nat.eq_dec column_length [1; 2; 4; 8; 16]%nat) as [Hin | Hw].
  - pose proof (decimal_to_pystring_supported m data column_length
                  column_scale Hin) as H.
    unfold decimal_to_pyfloat.
    destruct (scale_representable column_length column_scale).
    + destruct H as [text H]. rewrite H. split.
      * intro data'. split; [ discriminate | intros [Hw _]; contradiction ].
      * split; [ intros _; split; [ exact Hin | reflexivity ] | discriminate ].
    + rewrite H. split.
      * intro data'. split; [ discriminate | intros [Hw _]; contradiction ].
      * split; [ intro C; exfalso; apply C; reflexivity
               | intros [_ C]; discriminate ].
  - pose proof (decimal_unsupported_null m data column_length column_scale Hw)
      as H.
    unfold decimal_to_pyfloat. rewrite H. split.
    + intro data'. split.
      * intro E. injection E as <-. split; [ exact Hw | reflexivity ].
      * intros [_ ->]. reflexivity.
    + split; [ intro C; exfalso; apply C; reflexivity
             | intros [C _]; contradiction ].
Qed.

Lemma decimal_null_iff_unsupported_witness :
  decimal_to_pystring (mem_of_string "abc") 0 3 2 = Some (None, 0%nat).
Proof.
  apply (proj2 (proj1 (decimal_null_iff_unsupported string literal_of
                         (mem_of_string "abc") 0 3 2) 0%nat)).
  split; [ simpl; intuition discriminate | reflexivity ].
Defined.

(** X15: for the widths of 1, 2, 4 and 8 bytes and a scale [s > 0] whose
    power of ten fits the signed type of the width, the decode of the
    value [v] at the cursor is the text [[-]x.y] with [x = |v| / 10^s] and
    [y = |v| % 10^s] padded with zeros to exactly [s] digits, and the
    cursor moves by the width. *)
Theorem decimal_fixed_width_rendering (m : memory) (data len scale : nat) :
  In len [1; 2; 4; 8]%nat ->
  (0 < scale)%nat ->
  10 ^ Z.of_nat scale <= max_signed (8 * Z.of_nat len) ->
  let v := fst (unpack_signed len m data) in
  let p := 10 ^ Z.of_nat scale in
  let fraction :=
    replicate (scale - String.length (decimal_digits (Z.abs v mod p)))
      "0"%char ++ decimal_digits (Z.abs v mod p) in
  decimal_to_pystring m data len scale =
    Some (Some (PyUnicode
                  ((if v <? 0 then "-" else "")
                   ++ decimal_digits (Z.abs v / p) ++ "." ++ fraction)),
          (data + len)%nat)
  /\ String.length fraction = scale
  /\ all_bytes is_digit fraction = true.
Proof.
  intros Hlen Hs Hp v p fraction. split; [ | split ].
  - rewrite (decimal_to_pystring_fixed m data len scale Hlen Hs Hp).
    reflexivity.
  - apply spec_fraction_length, Hs.
  - subst fraction. rewrite all_bytes_app, decimal_digits_digits.
    rewrite all_bytes_replicate by reflexivity. reflexivity.
Qed.

Lemma decimal_fixed_width_rendering_witness :
  decimal_to_pystring (mem_of_string (le_bytes 4 (-1234567))) 0 4 4 =
    Some (Some (PyUnicode "-123.4567"), 4%nat)
  /\ String.length "4567" = 4%nat
  /\ all_bytes is_digit "4567" = true.
Proof.
  exact (decimal_fixed_width_rendering
           (mem_of_string (le_bytes 4 (-1234567))) 0 4 4
           (or_intror (or_intror (or_introl eq_refl))) ltac:(lia)
           ltac:(vm_compute; discriminate)).
Defined.

(** ** Decimal encode: what is stored *)

Lemma split_first_none (a : string) :
  all_bytes no_dot_nul a = true -> split_first dot a = (a, None).
Proof.
  induction a as [| c r IH]; [ reflexivity | ].
  cbn [all_bytes split_first]. intro H. apply andb_true_iff in H as [Hc Hr].
  unfold no_dot_nul in Hc. apply andb_true_iff in Hc as [Hc _].
  apply negb_true_iff in Hc. now rewrite Hc, (IH Hr).
Qed.

Lemma split_first_dot (a b : string) :
  all_bytes no_dot_nul a = true ->
  split_first dot (a ++ String dot b) = (a, Some b).
Proof.
  induction a as [| c r IH]; [ reflexivity | ].
  cbn [all_bytes split_first append]. intro H.
  apply andb_true_iff in H as [Hc Hr].
  unfold no_dot_nul in Hc. apply andb_true_iff in Hc as [Hc _].
  apply negb_true_iff in Hc. now rewrite Hc, (IH Hr).
Qed.

Lemma c_string_no_nul (a : string) :
  all_bytes no_dot_nul a = true -> c_string a = a.
Proof.
  induction a as [| c r IH]; [ reflexivity | ].
  cbn [all_bytes c_string]. intro H. apply andb_true_iff in H as [Hc Hr].
  unfold no_dot_nul in Hc. apply andb_true_iff in Hc as [_ Hc].
  apply negb_true_iff in Hc. now rewrite Hc, (IH Hr).
Qed.

Lemma is_digit_no_dot_nul (c : byte) :
  is_digit c = true -> no_dot_nul c = true.
Proof.
  intro H. unfold no_dot_nul.
  rewrite (is_digit_not_nul c H).
  destruct (Ascii.eqb_spec c dot) as [-> | _]; [ | reflexivity ].
  vm_compute in H. discriminate.
Qed.

Lemma digits_no_dot_nul (s : string) :
  all_bytes is_digit s = true -> all_bytes no_dot_nul s = true.
Proof.
  induction s as [| c r IH]; [ reflexivity | ].
  cbn [all_bytes]. intro H. apply andb_true_iff in H as [Hc Hr].
  now rewrite (is_digit_no_dot_nul c Hc), (IH Hr).
Qed.

(** The text put together in [dbuf], for a source split at its first
    point into [a] and [b], and for a source without a point. *)
Lemma pystring_to_decimal_split (pad : byte) (a b : string)
  (column_length column_scale : nat) (o : outbuf) :
  all_bytes no_dot_nul a = true ->
  all_bytes no_dot_nul b = true ->
  let dbuf := a ++ format_0ws pad column_scale b in
  pystring_to_decimal pad (PyUnicode (a ++ String dot b)) column_length
    column_scale o =
    if (DBUF_SIZE <=? String.length dbuf)%nat then None
    else Some {| ret := Some PyNone;
                 out := add_len (pack_int64_t o
                          (fst (PyLong_AsLongLong (PyLong_FromString dbuf))))
                          column_length;
                 raised := snd (PyLong_AsLongLong (PyLong_FromString dbuf)) |}.
Proof.
  intros Ha Hb dbuf. unfold pystring_to_decimal, PyUnicode_Split_1.
  rewrite (split_first_dot a b Ha). unfold PyUnicode_AsUTF8.
  rewrite (c_string_no_nul a Ha), (c_string_no_nul b Hb). fold dbuf.
  destruct (DBUF_SIZE <=? String.length dbuf)%nat; [ reflexivity | ].
  destruct (PyLong_AsLongLong (PyLong_FromString dbuf)); reflexivity.
Qed.

Lemma pystring_to_decimal_whole (pad : byte) (a : string)
  (column_length : nat) (o : outbuf) :
  all_bytes no_dot_nul a = true ->
  pystring_to_decimal pad (PyUnicode a) column_length 0 o =
    if (DBUF_SIZE <=? String.length a)%nat then None
    else Some {| ret := Some PyNone;
                 out := add_len (pack_int64_t o
                          (fst (PyLong_AsLongLong (PyLong_FromString a))))
                          column_length;
                 raised := snd (PyLong_AsLongLong (PyLong_FromString a)) |}.
Proof.
  intros Ha. unfold pystring_to_decimal, PyUnicode_Split_1.
  rewrite (split_first_none a Ha). unfold PyUnicode_AsUTF8.
  rewrite (c_string_no_nul a Ha).
  change (format_0ws pad 0 "") with "". rewrite append_empty_r.
  destruct (DBUF_SIZE <=? String.length a)%nat; [ reflexivity | ].
  destruct (PyLong_AsLongLong (PyLong_FromString a)); reflexivity.
Qed.

Lemma PyLong_FromString_minus_digits (d : string) :
  d <> "" -> all_bytes is_digit d = true ->
  PyLong_FromString (String "-"%char d) = Some (- digits_value d 0).
Proof.
  intros Hne Hd. destruct d as [| c r]; [ congruence | ].
  unfold PyLong_FromString.
  change (c_string (String "-"%char (String c r)))
    with (String "-"%char (c_string (String c r))).
  rewrite c_string_digits by exact Hd.
  change (skip_space (String "-"%char (String c r)))
    with (String "-"%char (String c r)).
  change (split_sign (String "-"%char (String c r))) with (-1, String c r).
  cbv iota beta zeta. rewrite scan_digits_all by exact Hd.
  cbn [skip_space]. f_equal. all: lia.
Qed.

Lemma PyLong_FromString_run (d : string) :
  d <> "" -> all_bytes is_digit d = true ->
  PyLong_FromString d = Some (digits_value d 0).
Proof.
  destruct d as [| c r]; [ congruence | ].
  intros _. apply PyLong_FromString_digits.
Qed.

Lemma decimal_digits_nonempty (n : Z) : 0 <= n -> decimal_digits n <> "".
Proof.
  intros Hn E. pose proof (scan_decimal_digits n Hn) as H.
  rewrite E in H. cbn in H. discriminate.
Qed.

Lemma PyLong_AsLongLong_fits (z : Z) :
  min_signed 64 <= z <= max_signed 64 ->
  PyLong_AsLongLong (Some z) = (z, None).
Proof. exact (PyLong_AsLong_fits z). Qed.

Lemma format_0ws_full (pad : byte) (w : nat) (s : string) :
  (w <= String.length s)%nat -> format_0ws pad w s = s.
Proof.
  intro H. unfold format_0ws.
  replace (w - String.length s)%nat with 0%nat by lia. reflexivity.
Qed.

Lemma dbuf_fits (s : string) :
  (String.length s < DBUF_SIZE)%nat ->
  (DBUF_SIZE <=? String.length s)%nat = false.
Proof. intro H. apply Nat.leb_gt. exact H. Qed.

(** X16: a fraction with at least [scale] digits is kept in full, for any
    scale and fill byte: for integer digits [X] and fraction digits [F]
    the encode of ["X.F"] stores the 8 bytes of the number written by
    [X] followed by [F], that is [X * 10^|F| + F], returns None and
    leaves no exception.  With [|F| = scale] this is the scaled integer;
    with more digits nothing is truncated. *)
Theorem pystring_to_decimal_keeps_fraction (pad : byte) (X F : string)
  (column_length column_scale : nat) (o : outbuf) :
  X <> "" ->
  all_bytes is_digit X = true ->
  all_bytes is_digit F = true ->
  (column_scale <= String.length F)%nat ->
  (String.length X + String.length F < DBUF_SIZE)%nat ->
  digits_value X 0 * 10 ^ Z.of_nat (String.length F) + digits_value F 0
    <= max_signed 64 ->
  pystring_to_decimal pad (PyUnicode (X ++ "." ++ F)) column_length
    column_scale o =
    Some {| ret := Some PyNone;
            out := {| written :=
                        written o
                        ++ le_bytes 8
                             (digits_value X 0
                              * 10 ^ Z.of_nat (String.length F)
                              + digits_value F 0);
                      len := uint16_t (len o + Z.of_nat column_length) |};
            raised := None |}.
Proof.
  intros HX HdX HdF Hscale Hlen Hmax.
  change (X ++ "." ++ F) with (X ++ String dot F).
  rewrite pystring_to_decimal_split by (apply digits_no_dot_nul; assumption).
  cbv zeta. rewrite (format_0ws_full pad column_scale F Hscale).
  rewrite dbuf_fits by (rewrite append_length; exact Hlen).
  assert (Hval : digits_value (X ++ F) 0 =
                 digits_value X 0 * 10 ^ Z.of_nat (String.length F)
                 + digits_value F 0).
  { rewrite digits_value_app. apply digits_value_linear. }
  rewrite PyLong_FromString_run;
    [ | destruct X; [ congruence | discriminate ]
      | rewrite all_bytes_app, HdX, HdF; reflexivity ].
  rewrite Hval.
  pose proof (digits_value_bound X HdX) as BX.
  pose proof (digits_value_bound F HdF) as BF.
  assert (0 < 10 ^ Z.of_nat (String.length F))
    by (apply Z.pow_pos_nonneg; lia).
  rewrite PyLong_AsLongLong_fits
    by (change (min_signed 64) with (-9223372036854775808); nia).
  reflexivity.
Qed.

Lemma pystring_to_decimal_keeps_fraction_witness :
  pystring_to_decimal " "%char (PyUnicode "1.239") 8 2 empty_out =
    Some {| ret := Some PyNone;
            out := {| written := le_bytes 8 1239; len := 8 |};
            raised := None |}.
Proof.
  exact (pystring_to_decimal_keeps_fraction " "%char "1" "239" 8 2 empty_out
           ltac:(discriminate) eq_refl eq_refl ltac:(simpl; lia)
           ltac:(apply Nat.ltb_lt; reflexivity)
           ltac:(vm_compute; discriminate)).
Defined.

Lemma skip_space_digit_first (s : string) :
  s <> "" -> all_bytes is_digit s = true -> skip_space s = s.
Proof.
  destruct s as [| c r]; [ congruence | ]. intros _ H.
  cbn [all_bytes] in H. apply andb_true_iff in H as [Hc _].
  apply (digit_first c r Hc).
Qed.

Lemma skip_space_spaces (k : nat) (s : string) :
  skip_space (replicate k " "%char ++ s) = skip_space s.
Proof. induction k as [| k IH]; [ reflexivity | exact IH ]. Qed.

(** With a blank as fill byte, a fraction shorter than the scale is not
    an integer literal any more. *)
Lemma PyLong_FromString_blank_inside (X F : string) (k : nat) :
  X <> "" -> F <> "" ->
  all_bytes is_digit X = true -> all_bytes is_digit F = true ->
  PyLong_FromString (X ++ replicate (S k) " "%char ++ F) = None.
Proof.
  intros HX HF HdX HdF. unfold PyLong_FromString.
  rewrite c_string_no_nul.
  2:{ rewrite !all_bytes_app.
      rewrite (digits_no_dot_nul X), (digits_no_dot_nul F) by assumption.
      rewrite all_bytes_replicate by reflexivity. reflexivity. }
  destruct X as [| c r]; [ congruence | ].
  pose proof HdX as HdX'. cbn [all_bytes] in HdX'.
  apply andb_true_iff in HdX' as [Hc Hr].
  cbn [append].
  destruct (digit_first c (r ++ replicate (S k) " "%char ++ F) Hc)
    as [Hskip Hsign].
  rewrite Hskip, Hsign. cbv iota beta zeta.
  cbn [scan_digits]. rewrite Hc.
  rewrite scan_digits_run by exact Hr.
  cbn [replicate append scan_digits].
  change (is_digit " "%char) with false.
  change (" "%char =? "_"%char)%char with false.
  cbv iota. cbn [andb negb].
  change (String " "%char (replicate k " "%char ++ F))
    with (replicate (S k) " "%char ++ F).
  rewrite skip_space_spaces, skip_space_digit_first by assumption.
  destruct F; [ congruence | reflexivity ].
Qed.

(** X17: a fraction with fewer digits than the scale is never extended
    on the right.  The fill goes between the integer digits and the
    fraction: with a zero as fill byte ["X.F"] stores [X * 10^scale + F]
    (so "1.5" at scale 2 stores 105), and with a blank as fill byte the
    text is no integer literal, -1 is stored and a SystemError is left
    pending; None is returned either way. *)
Theorem pystring_to_decimal_short_fraction (X F : string)
  (column_length column_scale : nat) (o : outbuf) :
  X <> "" -> F <> "" ->
  all_bytes is_digit X = true ->
  all_bytes is_digit F = true ->
  (String.length F < column_scale)%nat ->
  (String.length X + column_scale < DBUF_SIZE)%nat ->
  digits_value X 0 * 10 ^ Z.of_nat column_scale + digits_value F 0
    <= max_signed 64 ->
  pystring_to_decimal "0"%char (PyUnicode (X ++ "." ++ F)) column_length
    column_scale o =
    Some {| ret := Some PyNone;
            out := {| written :=
                        written o
                        ++ le_bytes 8
                             (digits_value X 0 * 10 ^ Z.of_nat column_scale
                              + digits_value F 0);
                      len := uint16_t (len o + Z.of_nat column_length) |};
            raised := None |}
  /\ pystring_to_decimal " "%char (PyUnicode (X ++ "." ++ F)) column_length
       column_scale o =
    Some {| ret := Some PyNone;
            out := {| written := written o ++ le_bytes 8 (-1);
                      len := uint16_t (len o + Z.of_nat column_length) |};
            raised := Some SystemError |}.
Proof.
  intros HX HF HdX HdF Hshort Hlen Hmax.
  change (X ++ "." ++ F) with (X ++ String dot F).
  assert (Hl : forall pad,
    String.length (X ++ format_0ws pad column_scale F)
    = (String.length X + column_scale)%nat).
  { intro pad. unfold format_0ws.
    rewrite !append_length, replicate_length. lia. }
  split.
  - rewrite pystring_to_decimal_split by (apply digits_no_dot_nul; assumption).
    cbv zeta. rewrite dbuf_fits by (rewrite Hl; exact Hlen).
    unfold format_0ws.
    rewrite PyLong_FromString_run;
      [ | destruct X; [ congruence | discriminate ]
        | rewrite !all_bytes_app, HdX, HdF;
          rewrite all_bytes_replicate by reflexivity; reflexivity ].
    assert (Hval :
      digits_value
        (X ++ replicate (column_scale - String.length F) "0"%char ++ F) 0
      = digits_value X 0 * 10 ^ Z.of_nat column_scale + digits_value F 0).
    { rewrite !digits_value_app, digits_value_zeros.
      rewrite (digits_value_linear F). f_equal.
      rewrite <- Z.mul_assoc, <- Z.pow_add_r by lia.
      do 2 f_equal. lia. }
    rewrite Hval.
    pose proof (digits_value_bound X HdX) as BX.
    pose proof (digits_value_bound F HdF) as BF.
    assert (0 < 10 ^ Z.of_nat column_scale) by (apply Z.pow_pos_nonneg; lia).
    rewrite PyLong_AsLongLong_fits
      by (change (min_signed 64) with (-9223372036854775808); nia).
    reflexivity.
  - rewrite pystring_to_decimal_split by (apply digits_no_dot_nul; assumption).
    cbv zeta. rewrite dbuf_fits by (rewrite Hl; exact Hlen).
    unfold format_0ws.
    replace (column_scale - String.length F)%nat
      with (S (column_scale - String.length F - 1)) by lia.
    rewrite PyLong_FromString_blank_inside by assumption.
    reflexivity.
Qed.

Lemma pystring_to_decimal_short_fraction_witness :
  pystring_to_decimal "0"%char (PyUnicode "1.5") 8 2 empty_out =
    Some {| ret := Some PyNone;
            out := {| written := le_bytes 8 105; len := 8 |};
            raised := None |}
  /\ pystring_to_decimal " "%char (PyUnicode "1.5") 8 2 empty_out =
    Some {| ret := Some PyNone;
            out := {| written := le_bytes 8 (-1); len := 8 |};
            raised := Some SystemError |}.
Proof.
  exact (pystring_to_decimal_short_fraction "1" "5" 8 2 empty_out
           ltac:(discriminate) ltac:(discriminate) eq_refl eq_refl
           ltac:(simpl; lia) ltac:(apply Nat.ltb_lt; reflexivity)
           ltac:(vm_compute; discriminate)).
Defined.

(** ** Decimal64: decode then encode *)

Lemma format_d_no_dot_nul (z : Z) : all_bytes no_dot_nul (format_d z) = true.
Proof.
  unfold format_d. destruct (z <? 0).
  - change ("-" ++ decimal_digits (- z))
      with (String "-"%char (decimal_digits (- z))).
    cbn [all_bytes]. rewrite digits_no_dot_nul by apply decimal_digits_digits.
    reflexivity.
  - apply digits_no_dot_nul, decimal_digits_digits.
Qed.

Lemma pow10_19 : 2 ^ 63 < 10 ^ Z.of_nat 19.
Proof. reflexivity. Qed.

Lemma format_d_length (z : Z) :
  min_signed 64 <= z <= max_signed 64 ->
  (String.length (format_d z) <= 20)%nat.
Proof.
  intro Hz. unfold min_signed, max_signed in Hz.
  change (2 ^ (64 - 1)) with (2 ^ 63) in Hz. pose proof pow10_19.
  unfold format_d. destruct (Z.ltb_spec z 0).
  - change ("-" ++ decimal_digits (- z))
      with (String "-"%char (decimal_digits (- z))).
    cbn [String.length].
    pose proof (decimal_digits_length_le (- z) 19 ltac:(lia) ltac:(lia)). lia.
  - pose proof (decimal_digits_length_le z 19 ltac:(lia) ltac:(lia)). lia.
Qed.

Lemma scale_below_19 (scale : nat) :
  10 ^ Z.of_nat scale <= max_signed 64 -> (scale < 19)%nat.
Proof.
  intro H. unfold max_signed in H. change (2 ^ (64 - 1)) with (2 ^ 63) in H.
  pose proof pow10_19.
  destruct (Nat.lt_ge_cases scale 19) as [ | Hge]; [ assumption | ].
  assert (10 ^ Z.of_nat 19 <= 10 ^ Z.of_nat scale)
    by (apply Z.pow_le_mono_r; lia).
  lia.
Qed.

(** X18: for an 8-byte decimal the encode inverts the decode.  For every
    64-bit value at the cursor and every scale whose power of ten fits 64
    bits, the text that the decode renders is encoded, at the same scale
    and with any fill byte, to the 8 bytes that were decoded, with None
    returned and no exception pending. *)
Theorem decimal64_round_trip (pad : byte) (m : memory) (data : nat) (v : Z)
  (scale column_length : nat) (o : outbuf) :
  min_signed 64 <= v <= max_signed 64 ->
  10 ^ Z.of_nat scale <= max_signed 64 ->
  read_bytes m data 8 = le_bytes 8 v ->
  exists text : string,
    decimal_to_pystring m data 8 scale =
      Some (Some (PyUnicode text), (data + 8)%nat)
    /\ pystring_to_decimal pad (PyUnicode text) column_length scale o =
      Some {| ret := Some PyNone;
              out := {| written := written o ++ read_bytes m data 8;
                        len := uint16_t (len o + Z.of_nat column_length) |};
              raised := None |}.
Proof.
  intros Hv Hp Hm.
  assert (Hu : unpack_signed 8 m data = (v, (data + 8)%nat))
    by (apply unpack_signed_le_bytes; [ lia | exact Hv | exact Hm ]).
  destruct scale as [| k].
  - exists (format_d v). split.
    + change (decimal_to_pystring m data 8 0)
        with (with_cursor (snd (unpack_signed 8 m data))
                (decimal_scaled 64 (fst (unpack_signed 8 m data)) 0)).
      rewrite Hu. reflexivity.
    + rewrite pystring_to_decimal_whole by apply format_d_no_dot_nul.
      pose proof (format_d_length v Hv).
      rewrite dbuf_fits by (unfold DBUF_SIZE; lia).
      rewrite PyLong_FromString_format_d, PyLong_AsLongLong_fits by exact Hv.
      rewrite Hm. reflexivity.
  - set (scale := S k) in *.
    exists (spec_decimal_text v scale). split.
    + rewrite (decimal_to_pystring_fixed m data 8 scale);
        [ | simpl; tauto | subst scale; lia | exact Hp ].
      rewrite Hu. reflexivity.
    + pose proof (pow10_ge_10 scale ltac:(subst scale; lia)) as H10.
      pose proof (scale_below_19 scale Hp) as H19.
      set (p := 10 ^ Z.of_nat scale) in *.
      set (x := Z.abs v / p). set (y := Z.abs v mod p).
      set (Fz := replicate (scale - String.length (decimal_digits y)) "0"%char
                 ++ decimal_digits y).
      assert (Hy : 0 <= y < p) by (apply Z.mod_pos_bound; lia).
      assert (Hx : 0 <= x) by (apply Z.div_pos; lia).
      assert (Habs : Z.abs v = x * p + y)
        by (pose proof (Z.div_mod (Z.abs v) p ltac:(lia)); subst x y; lia).
      assert (HFlen : String.length Fz = scale)
        by (apply (spec_fraction_length v scale); subst scale; lia).
      assert (HFd : all_bytes is_digit Fz = true).
      { subst Fz. rewrite all_bytes_app, decimal_digits_digits.
        rewrite all_bytes_replicate by reflexivity. reflexivity. }
      assert (HFv : digits_value Fz 0 = y).
      { subst Fz. rewrite digits_value_app, digits_value_zeros, Z.mul_0_l.
        apply decimal_digits_value. lia. }
      assert (HXd : all_bytes is_digit (decimal_digits x) = true)
        by apply decimal_digits_digits.
      assert (HXne : decimal_digits x <> "")
        by (apply decimal_digits_nonempty; exact Hx).
      assert (HXlen : (String.length (decimal_digits x) <= 19)%nat).
      { apply decimal_digits_length_le; [ lia | ]. split; [ exact Hx | ].
        pose proof pow10_19. unfold min_signed, max_signed in Hv.
        change (2 ^ (64 - 1)) with (2 ^ 63) in Hv.
        assert (x <= Z.abs v)
          by (subst x; apply Z.div_le_upper_bound; nia).
        lia. }
      assert (Hval : digits_value (decimal_digits x ++ Fz) 0 = Z.abs v).
      { rewrite digits_value_app, digits_value_linear, HFlen, HFv.
        rewrite decimal_digits_value by exact Hx. fold p. lia. }
      assert (Htext : spec_decimal_text v scale =
                ((if v <? 0 then "-" else "") ++ decimal_digits x)
                ++ String dot Fz).
      { unfold spec_decimal_text. cbv zeta. fold p. fold x. fold y. fold Fz.
        rewrite append_assoc. reflexivity. }
      rewrite Htext, pystring_to_decimal_split.
      2:{ rewrite all_bytes_app, (digits_no_dot_nul _ HXd).
          destruct (v <? 0); reflexivity. }
      2:{ apply digits_no_dot_nul, HFd. }
      cbv zeta. rewrite format_0ws_full by lia.
      rewrite dbuf_fits.
      2:{ rewrite !append_length, HFlen. unfold DBUF_SIZE.
          destruct (v <? 0); cbn [String.length]; lia. }
      assert (Hparse :
        PyLong_FromString
          (((if v <? 0 then "-" else "") ++ decimal_digits x) ++ Fz) = Some v).
      { assert (Hne : decimal_digits x ++ Fz <> "")
          by (destruct (decimal_digits x); [ congruence | discriminate ]).
        assert (Hd : all_bytes is_digit (decimal_digits x ++ Fz) = true)
          by (rewrite all_bytes_app, HXd, HFd; reflexivity).
        rewrite append_assoc. destruct (Z.ltb_spec v 0).
        - change ("-" ++ decimal_digits x ++ Fz)
            with (String "-"%char (decimal_digits x ++ Fz)).
          rewrite PyLong_FromString_minus_digits by assumption.
          rewrite Hval. f_equal. lia.
        - cbn [append]. rewrite PyLong_FromString_run by assumption.
          rewrite Hval. f_equal. lia. }
      rewrite Hparse, PyLong_AsLongLong_fits by exact Hv.
      rewrite Hm. reflexivity.
Qed.

Lemma decimal64_round_trip_witness :
  exists text : string,
    decimal_to_pystring (mem_of_string (le_bytes 8 (-5))) 0 8 2 =
      Some (Some (PyUnicode text), 8%nat)
    /\ pystring_to_decimal " "%char (PyUnicode text) 8 2 empty_out =
      Some {| ret := Some PyNone;
              out := {| written := le_bytes 8 (-5); len := 8 |};
              raised := None |}.
Proof.
  exact (decimal64_round_trip " "%char (mem_of_string (le_bytes 8 (-5))) 0
           (-5) 2 8 empty_out
           ltac:(vm_compute; split; discriminate)
           ltac:(vm_compute; discriminate) eq_refl).
Defined.

(** ** Dates: encode then decode *)

(** X19: for a year in 0..9999 and a month and a day in 0..99, encoding
    the text ["YYYY-MM-DD"] stores the four bytes of
    [YYYYMMDD - 19000000], returns None with no exception, and the date
    decode of the bytes stored returns that year, month and day. *)
Theorem date_encode_decode (year month day : Z) (column_length : nat)
  (o : outbuf) :
  0 <= year <= 9999 -> 0 <= month <= 99 -> 0 <= day <= 99 ->
  let r := pydate_to_int (PyUnicode (date_text year month day))
             column_length o in
  r = {| ret := Some PyNone;
         out := {| written :=
                     written o
                     ++ le_bytes 4
                          (year * 10000 + month * 100 + day - 19000000);
                   len := uint16_t (len o + Z.of_nat column_length) |};
         raised := None |}
  /\ date_to_pydate (mem_of_string (written (out r)))
       (String.length (written o)) =
     (Some (GiraffezDate year month day 0 0 0 0),
      (String.length (written o) + 4)%nat).
Proof.
  intros Hy Hmo Hd r.
  assert (Hy' : 0 <= year < 10 ^ Z.of_nat 4)
    by (change (10 ^ Z.of_nat 4) with 10000; lia).
  assert (Hmo' : 0 <= month < 10 ^ Z.of_nat 2)
    by (change (10 ^ Z.of_nat 2) with 100; lia).
  assert (Hd' : 0 <= day < 10 ^ Z.of_nat 2)
    by (change (10 ^ Z.of_nat 2) with 100; lia).
  destruct (date_text_shape year month day Hy' Hmo' Hd') as [_ [_ Hrep]].
  assert (Hr : r = {| ret := Some PyNone;
                      out := add_len (pack_int32_t o
                               (year * 10000 + month * 100 + day - 19000000))
                               column_length;
                      raised := None |}).
  { subst r. unfold pydate_to_int.
    rewrite Hrep, (date_digits_value year month day Hy' Hmo' Hd').
    rewrite PyLong_AsLong_fits
      by (change (min_signed 64) with (-9223372036854775808);
          change (max_signed 64) with 9223372036854775807; lia).
    unfold int32_t.
    rewrite (wrap_signed_fits 32 (year * 10000 + month * 100 + day))
      by (change (min_signed 32) with (-2147483648);
          change (max_signed 32) with 2147483647; lia).
    rewrite wrap_signed_fits
      by (change (min_signed 32) with (-2147483648);
          change (max_signed 32) with 2147483647; lia).
    reflexivity. }
  split; [ exact Hr | ].
  rewrite Hr. cbn [out]. apply date_offset_decodes; try lia.
  unfold pack_int32_t. cbn [add_len store written].
  rewrite <- (le_bytes_length 4
                (year * 10000 + month * 100 + day - 19000000)) at 1.
  apply read_bytes_mem_end.
Qed.

Lemma date_encode_decode_witness :
  let r := pydate_to_int (PyUnicode (date_text 1999 1 2)) 4 empty_out in
  r = {| ret := Some PyNone;
         out := {| written := le_bytes 4 990102; len := 4 |};
         raised := None |}
  /\ date_to_pydate (mem_of_string (written (out r))) 0 =
     (Some (GiraffezDate 1999 1 2 0 0 0 0), 4%nat).
Proof.
  exact (date_encode_decode 1999 1 2 4 empty_out
           ltac:(lia) ltac:(lia) ltac:(lia)).
Defined.

(** ** Variable-length character fields *)

(** X20: a VarChar field whose 2-byte little-endian prefix holds the
    length of a UTF-8 payload that follows it decodes to exactly that
    payload, NUL bytes included, and the cursor ends after the payload,
    2 plus the length further on. *)
Theorem vchar_to_pystring_payload (m : memory) (data : nat) (s : string) :
  utf8_valid s = true ->
  Z.of_nat (String.length s) < 2 ^ 16 ->
  read_bytes m data 2 = le_bytes 2 (Z.of_nat (String.length s)) ->
  read_bytes m (data + 2) (String.length s) = s ->
  vchar_to_pystring m data =
    (Some (PyUnicode s), (data + 2 + String.length s)%nat).
Proof.
  intros Hutf Hlen Hpre Hpay. unfold vchar_to_pystring, unpack_uint16_t.
  rewrite (unpack_unsigned_le_bytes 2 m data (Z.of_nat (String.length s)));
    [ | change (2 ^ (8 * Z.of_nat 2)) with (2 ^ 16); lia | exact Hpre ].
  rewrite Nat2Z.id, Hpay. unfold PyUnicode_FromStringAndSize.
  rewrite Hutf. reflexivity.
Qed.

Lemma vchar_to_pystring_payload_witness :
  vchar_to_pystring
    (mem_of_string (le_bytes 2 4 ++ "a" ++ String zero "bc" ++ "tail")) 0 =
    (Some (PyUnicode ("a" ++ String zero "bc")), 6%nat).
Proof.
  exact (vchar_to_pystring_payload
           (mem_of_string (le_bytes 2 4 ++ "a" ++ String zero "bc" ++ "tail"))
           0 ("a" ++ String zero "bc") eq_refl eq_refl eq_refl eq_refl).
Defined.

(** ** Decimals: scale 0 and the 16-byte path *)

(** X21: with scale 0 a decimal of any supported width decodes to the
    decimal form of its raw integer, without a point, moves the cursor by
    the width, and parsing the text as an integer gives the raw integer
    back. *)
Theorem decimal_scale_0_text (m : memory) (data len : nat) :
  In len [1; 2; 4; 8; 16]%nat ->
  decimal_to_pystring m data len 0 =
    Some (Some (PyUnicode (format_d (decimal_raw m data len))),
          (data + len)%nat)
  /\ PyLong_FromString (format_d (decimal_raw m data len)) =
       Some (decimal_raw m data len)
  /\ all_bytes no_dot_nul (format_d (decimal_raw m data len)) = true.
Proof.
  intro Hlen. split; [ | split ].
  - cbn [In] in Hlen.
    destruct Hlen as [<- | [<- | [<- | [<- | [<- | []]]]]]; try reflexivity.
    change (decimal_to_pystring m data 16 0)
      with (decimal128_to_pystring m data 0).
    rewrite decimal128_to_pystring_eq. reflexivity.
  - apply PyLong_FromString_format_d.
  - apply format_d_no_dot_nul.
Qed.

Lemma decimal_scale_0_text_witness :
  decimal_to_pystring (mem_of_string (le_bytes 4 (-12345))) 0 4 0 =
    Some (Some (PyUnicode "-12345"), 4%nat)
  /\ PyLong_FromString "-12345" = Some (-12345)
  /\ all_bytes no_dot_nul "-12345" = true.
Proof.
  exact (decimal_scale_0_text (mem_of_string (le_bytes 4 (-12345))) 0 4
           (or_intror (or_intror (or_introl eq_refl)))).
Defined.

(** X22: the 16-byte path renders every value that is not negative as
    [x.y] with [x = v / 10^s] and [y = v % 10^s] padded with zeros to
    exactly [s] digits, for every scale [s > 0], and moves the cursor by
    16. *)
Theorem decimal128_nonnegative_rendering (m : memory) (data scale : nat) :
  let v := decimal_raw m data 16 in
  let p := 10 ^ Z.of_nat scale in
  let fraction :=
    replicate (scale - String.length (decimal_digits (v mod p))) "0"%char
    ++ decimal_digits (v mod p) in
  (0 < scale)%nat -> 0 <= v ->
  decimal_to_pystring m data 16 scale =
    Some (Some (PyUnicode (decimal_digits (v / p) ++ "." ++ fraction)),
          (data + 16)%nat)
  /\ String.length fraction = scale.
Proof.
  intros v p fraction Hs Hv.
  change (decimal_to_pystring m data 16 scale)
    with (decimal128_to_pystring m data scale).
  pose proof (decimal128_nonneg_renders m data scale Hs Hv) as H.
  change (fst (unpack_int64_t m (data + 8)) * 2 ^ 64
          + fst (unpack_uint64_t m data)) with v in H.
  pose proof (spec_fraction_length v scale Hs) as Hl. cbv zeta in Hl.
  rewrite (Z.abs_eq v) in Hl by exact Hv.
  split; [ | exact Hl ].
  rewrite H. unfold spec_decimal_text. cbv zeta.
  rewrite (Z.abs_eq v) by exact Hv.
  destruct (Z.ltb_spec v 0); [ lia | reflexivity ].
Qed.

Lemma decimal128_nonnegative_rendering_witness :
  decimal_to_pystring (mem_of_string (le_bytes 16 (2 ^ 70 + 5))) 0 16 3 =
    Some (Some (PyUnicode "1180591620717411303.429"), 16%nat)
  /\ String.length "429" = 3%nat.
Proof.
  exact (decimal128_nonnegative_rendering
           (mem_of_string (le_bytes 16 (2 ^ 70 + 5))) 0 3
           ltac:(lia) ltac:(vm_compute; discriminate)).
Defined.
